(** * iodata.fchk: the GAUSSIAN formatted-checkpoint reader

    A shallow embedding of [src/iodata/fchk.py]: the field scanner
    ([FCHKFile], [_read], [read_field]), the triangular expansion
    ([_triangle_to_dense]) and the assembler ([load]), followed by the
    properties of the specification that are stated about them.

    Python values are modelled as follows.
    - [int] is [Z], [float] and a [float64] element a [float] (the kernel's
      binary64 numbers, so that [x != 0.0] is the IEEE comparison); a numpy
      [int64] array is a [list Z], a [float64] array a [list float].
    - The store is dynamically typed: under any label the scanner stores an
      [int], a [float], an [int64] array or a [float64] array, as the header
      line of the field declares, and [load] computes with whatever it finds.
      Every operation of [load] is therefore defined on the four kinds of
      [value], with the exception that Python or numpy raises on a kind that
      does not support it.
    - A [dict] with string keys is a [gmap string _], a [set] of strings a
      [gset string].
    - An exception is a value of [exn]; code that can raise returns a
      [result].

    Two answers depend on where the program runs and are parameters of the
    model: whether the allocator grants the array that [read_field] asks for
    ([allocates]), and what [bool] makes of an empty array
    ([empty_array_truth]).  The arrays that [load] itself allocates are taken
    to be granted.  Arithmetic between a Python number and an array follows
    numpy 2: the Python number takes the type of the array. *)

From Stdlib Require Import ZArith List Floats Ascii String Lia.
From stdpp Require Import gmap strings list.

Local Open Scope Z_scope.

(** ** Exceptions and the error monad *)

Inductive exn : Type :=
| KeyError (key : string)
| KeyErrorInt (key : Z)
| KeyErrorFloat (key : float)
| IndexError
| ValueError
| TypeError
| AttributeError
| OverflowError
| MemoryError
| IOError (msg : string)
| OutOfFuel.

Inductive result (A : Type) : Type :=
| Ok (a : A)
| Raise (e : exn).

Arguments Ok {A} a.
Arguments Raise {A} e.

Definition rbind {A B : Type} (c : result A) (k : A -> result B) : result B :=
  match c with
  | Ok a => k a
  | Raise e => Raise e
  end.

Notation "'let*' x ':=' c 'in' k" := (rbind c (fun x => k))
  (at level 10, x pattern, c at level 100, k at level 200).

(** ** The permutation table of [load] *)

(** [np.arange(n)]. *)
Definition arange (n : nat) : list Z := Z.of_nat <$> seq 0 n.

(** The dictionary [permutation_rules]; [None] is a missing key. *)
Definition permutation_rules (shell_type : Z) : option (list Z) :=
  match shell_type with
  | -9 => Some (arange 19)
  | -8 => Some (arange 17)
  | -7 => Some (arange 15)
  | -6 => Some (arange 13)
  | -5 => Some (arange 11)
  | -4 => Some (arange 9)
  | -3 => Some (arange 7)
  | -2 => Some (arange 5)
  | 0 => Some [0]
  | 1 => Some (arange 3)
  | 2 => Some [0; 3; 4; 1; 5; 2]
  | 3 => Some [0; 4; 5; 3; 9; 6; 1; 8; 7; 2]
  | 4 => Some (reverse (arange 15))
  | 5 => Some (reverse (arange 21))
  | 6 => Some (reverse (arange 28))
  | 7 => Some (reverse (arange 36))
  | 8 => Some (reverse (arange 45))
  | 9 => Some (reverse (arange 55))
  | _ => None
  end.

(** The loop
    [for shell_type in my_shell_types:
         permutation.extend(permutation_rules[shell_type] + len(permutation))]
    started from the list [permutation]. *)
Fixpoint extend_permutation (permutation : list Z) (my_shell_types : list Z)
  : result (list Z) :=
  match my_shell_types with
  | [] => Ok permutation
  | shell_type :: rest =>
      match permutation_rules shell_type with
      | None => Raise (KeyErrorInt shell_type)
      | Some block =>
          extend_permutation
            (permutation ++ ((fun x => x + Z.of_nat (length permutation)) <$> block))
            rest
      end
  end.

Definition build_permutation (my_shell_types : list Z) : result (list Z) :=
  extend_permutation [] my_shell_types.

(** The size of the block of a shell type ([0] outside the table). *)
Definition block_size (shell_type : Z) : nat :=
  match permutation_rules shell_type with
  | Some block => length block
  | None => 0
  end.

(** The domain of the table: types -9..-2 and 0..9. *)
Definition in_table (shell_type : Z) : Prop :=
  -9 <= shell_type <= -2 \/ 0 <= shell_type <= 9.

(** ** Python strings

    Text is ASCII: a character is an [ascii], [s[:n]] counts characters. *)

(** [str.isspace] on the ASCII range: tab, newline, vertical tab, form feed,
    carriage return, the four separators 28..31 and the space. *)
Definition is_space (c : ascii) : bool :=
  let n := nat_of_ascii c in
  ((9 <=? n) && (n <=? 13) || (28 <=? n) && (n <=? 31) || (n =? 32))%nat.

(** [s[:n]] *)
Fixpoint str_take (n : nat) (s : string) : string :=
  match n, s with
  | S n', String c s' => String c (str_take n' s')
  | _, _ => ""
  end.

(** [s[n:]] *)
Fixpoint str_drop (n : nat) (s : string) : string :=
  match n, s with
  | S n', String _ s' => str_drop n' s'
  | _, _ => s
  end.

(** [s[:-1]] *)
Definition str_init (s : string) : string :=
  str_take (String.length s - 1) s.

Fixpoint lstrip (s : string) : string :=
  match s with
  | String c s' => if is_space c then lstrip s' else s
  | EmptyString => ""
  end.

Definition str_rev (s : string) : string :=
  string_of_list_ascii (rev (list_ascii_of_string s)).

(** [s.strip()] *)
Definition strip (s : string) : string :=
  str_rev (lstrip (str_rev (lstrip s))).

(** [s.split()]: the maximal runs of characters that are not whitespace.
    [cur] is the run being read, last character first. *)
Fixpoint split_from (cur : list ascii) (s : string) : list string :=
  match s with
  | EmptyString =>
      match cur with
      | [] => []
      | _ => [string_of_list_ascii (rev cur)]
      end
  | String c s' =>
      if is_space c then
        match cur with
        | [] => split_from [] s'
        | _ => string_of_list_ascii (rev cur) :: split_from [] s'
        end
      else split_from (c :: cur) s'
  end.

Definition split (s : string) : list string := split_from [] s.

(** The newline character as a string. *)
Definition nl : string := String (ascii_of_nat 10) "".

(** ** The field store *)

(** What the scanner stores under a label: a Python [int] or [float], or a
    numpy array of [int64] or [float64]. *)
Inductive value : Type :=
| VInt (n : Z)
| VFloat (x : float)
| VIntArr (a : list Z)
| VFloatArr (a : list float).

(** The local variable [datatype] of [read_field]: [int] or [float]. *)
Inductive datatype : Type := DInt | DFloat.

(** The file position [f], the set [field_labels] (shared and updated in
    place by [read_field]; [None] is Python's [None]) and the dictionary
    [self]. *)
Record scan_state : Type := mk_scan {
  stream : list string;
  field_labels : option (gset string);
  fields : gmap string value
}.

(** An [FCHKFile] after initialisation; [obasis] is set only when the second
    line has three words. *)
Record fchk_file : Type := mk_fchk {
  title : string;
  command : string;
  lot : string;
  obasis_name : option string;
  data : gmap string value
}.

(** Storing a Python [int] into an [int64] array raises [OverflowError]
    outside the 64-bit range. *)
Definition store_int64 (n : Z) : option Z :=
  if (-(2 ^ 63) <=? n) && (n <? 2 ^ 63) then Some n else None.

(** ** The scanner: [FCHKFile._read] and its [read_field] *)

Section Scanner.

(** Python's [int(word)] and [float(word)] on a string: [None] is
    [ValueError]. *)
Variable py_int : string -> option Z.
Variable py_float : string -> option float.
Variable filename : string.

(** Whether the allocator grants an array of this many elements of eight
    bytes; a refusal is [MemoryError]. *)
Variable allocates : Z -> bool.

Definition unexpected_line (line : string) : exn :=
  IOError ("Unexpected line in formatted checkpoint file " +:+ filename +:+ nl
           +:+ str_init line).

Definition unexpected_end : exn :=
  IOError ("Unexpected end of formatted checkpoint file " +:+ filename).

Definition uninterpretable (word : string) : exn :=
  IOError ("Could not interpret word while reading " +:+ word +:+ ": "
           +:+ filename).

(** The body of [for word in line.split()] on the array [value]:
    [datatype(word)] is evaluated first (its [ValueError] becomes the
    [IOError]), then the index is checked, then the element is converted to
    the array's type (its [OverflowError] becomes the same [IOError]). *)
Fixpoint fill_words {P A : Type} (parse : string -> option P) (store : P -> option A)
    (value : list A) (counter : nat) (words : list string)
  : result (list A * nat) :=
  match words with
  | [] => Ok (value, counter)
  | word :: rest =>
      match parse word with
      | None => Raise (uninterpretable word)
      | Some x =>
          if (counter <? length value)%nat then
            match store x with
            | None => Raise (uninterpretable word)
            | Some y => fill_words parse store (<[counter := y]> value) (S counter) rest
            end
          else Raise IndexError
      end
  end.

(** The loop [while counter < length] that reads the continuation lines. *)
Fixpoint fill_lines {P A : Type} (parse : string -> option P) (store : P -> option A)
    (length : Z) (value : list A) (counter : nat) (f : list string)
  : result (list A * list string) :=
  if Z.of_nat counter <? length then
    match f with
    | [] => Raise unexpected_end
    | line :: f' =>
        if decide (line = "") then Raise unexpected_end
        else
          let* (value', counter') := fill_words parse store value counter (split line) in
          fill_lines parse store length value' counter' f'
    end
  else Ok (value, f).

(** [np.zeros(length)] on a Python [int]: numpy rejects a negative length
    and a length whose array would exceed the largest size it can address,
    [2^63 - 1] bytes (the length itself beyond [2^63 - 1] included), with
    [ValueError]; then the allocator is asked. *)
Definition np_zeros {A : Type} (zero : A) (length : Z) : result (list A) :=
  if (length <? 0) || (2 ^ 60 <=? length) then Raise ValueError
  else if allocates length then Ok (repeat zero (Z.to_nat length))
  else Raise MemoryError.

(** [value = np.zeros(length, datatype)] followed by the fill. *)
Definition read_array (dt : datatype) (length : Z) (f : list string)
  : result (value * list string) :=
  match dt with
  | DInt =>
      let* zeros := np_zeros 0 length in
      let* (a, f') := fill_lines py_int store_int64 length zeros 0 f in
      Ok (VIntArr a, f')
  | DFloat =>
      let* zeros := np_zeros 0%float length in
      let* (a, f') := fill_lines py_float Some length zeros 0 f in
      Ok (VFloatArr a, f')
  end.

(** [datatype(words[1])] for a scalar field. *)
Definition convert (dt : datatype) (word : string) : option value :=
  match dt with
  | DInt => VInt <$> py_int word
  | DFloat => VFloat <$> py_float word
  end.

(** [read_field] after its header loop: [line] is [line[43:]] and [words] its
    words, [f] the position after the header line. *)
Definition read_value (dt : datatype) (label line : string) (words : list string)
    (f : list string) (labels : option (gset string)) (self : gmap string value)
  : result (bool * scan_state) :=
  match words with
  | [_; w1] =>
      match convert dt w1 with
      | None => Ok (true, mk_scan f labels self)
      | Some value => Ok (true, mk_scan f labels (<[label := value]> self))
      end
  | [_; w1; w2] =>
      if decide (w1 = "N=") then
        match py_int w2 with
        | None => Raise ValueError
        | Some length =>
            let* (value, f') := read_array dt length f in
            Ok (true, mk_scan f' labels (<[label := value]> self))
        end
      else Raise (unexpected_line line)
  | _ => Raise (unexpected_line line)
  end.

(** [read_field]: the loop [while datatype is None] runs along the stream. *)
Fixpoint read_field (f : list string) (labels : option (gset string))
    (self : gmap string value) {struct f} : result (bool * scan_state) :=
  match f with
  | [] => Ok (false, mk_scan [] labels self)
  | line :: f =>
      if decide (line = "") then Ok (false, mk_scan f labels self)
      else
        let label := strip (str_take 43 line) in
        let typed (labels : option (gset string)) :=
          let line := str_drop 43 line in
          let words := split line in
          match words with
          | [] => Ok (true, mk_scan f labels self)
          | w0 :: _ =>
              if decide (w0 = "I") then read_value DInt label line words f labels self
              else if decide (w0 = "R") then
                read_value DFloat label line words f labels self
              else read_field f labels self
          end in
        match labels with
        | Some s =>
            if decide (s = ∅) then Ok (false, mk_scan f labels self)
            else if decide (label ∈ s) then typed (Some (s ∖ {[label]}))
            else Ok (true, mk_scan f labels self)
        | None => typed None
        end
  end.

(** [while read_field(f): pass].  Every call that returns [True] has read a
    line, so the length of the stream bounds the number of calls: [fuel] is
    that bound, and [OutOfFuel] (which is not a Python exception) marks a
    run that would exceed it. *)
Fixpoint read_fields (fuel : nat) (st : scan_state) : result scan_state :=
  match fuel with
  | O => Raise OutOfFuel
  | S fuel =>
      let* (continue, st') := read_field (stream st) (field_labels st) (fields st) in
      if continue : bool then read_fields fuel st' else Ok st'
  end.

(** [f.readline()]: the next line and the new position; [""] at the end. *)
Definition readline (f : list string) : string * list string :=
  match f with
  | [] => ("", [])
  | line :: f' => (line, f')
  end.

(** [_read]: the two header lines, then the fields. *)
Definition _read (file : list string) (labels : option (gset string))
  : result fchk_file :=
  let (line1, f) := readline file in
  let title := strip (str_init line1) in
  let (line2, f) := readline f in
  let words := split line2 in
  let* (command, lot, obasis) :=
    match words with
    | [command; lot; obasis] => Ok (command, lot, Some obasis)
    | [command; lot] => Ok (command, lot, None)
    | _ => Raise (IOError
             "The second line of the FCHK file should contain two or three words.")
    end in
  let* st := read_fields (S (length f)) (mk_scan f labels ∅) in
  Ok (mk_fchk title command lot obasis (fields st)).

(** [set(field_labels)]: [None] is not iterable. *)
Definition py_set (labels : option (list string)) : result (gset string) :=
  match labels with
  | None => Raise TypeError
  | Some l => Ok (list_to_set l)
  end.

(** [FCHKFile.__init__(self, filename, field_labels=None)] on the lines of
    the file. *)
Definition FCHKFile (file : list string) (labels : option (list string))
  : result fchk_file :=
  let* s := py_set labels in
  _read file (Some s).

End Scanner.

(** ** numpy operations used by [load] *)

(** [int64] arithmetic wraps around. *)
Definition wrap64 (n : Z) : Z := (n + 2 ^ 63) mod 2 ^ 64 - 2 ^ 63.

(** The [float64] nearest to an integer, ties to even: what an [int64]
    element becomes in a [float64] array. *)
Definition float_of_int (n : Z) : float :=
  SF2Prim (binary_normalize 53 1024 n 0 false).

(** [float(n)] for a Python [int]: [OverflowError] beyond the largest
    [float]. *)
Definition float_of_py_int (n : Z) : result float :=
  let x := float_of_int n in
  if is_infinity x then Raise OverflowError else Ok x.

(** A Python [int] as an [int64] operand: numpy 2 raises [OverflowError]
    when it does not fit. *)
Definition int64_of_py_int (n : Z) : result Z :=
  if (- 2 ^ 63 <=? n) && (n <? 2 ^ 63) then Ok n else Raise OverflowError.

(** [x == n] for a [float] and a Python [int], which Python compares as
    exact numbers. *)
Definition float_eq_int (x : float) (n : Z) : bool :=
  match Prim2SF x with
  | S754_zero _ => n =? 0
  | S754_finite s m e =>
      let v := if s then Z.neg m else Z.pos m in
      if 0 <=? e then n =? v * 2 ^ e
      else (v mod 2 ^ (- e) =? 0) && (n =? v / 2 ^ (- e))
  | _ => false
  end.

(** A slice bound of a sequence of length [len], as Python clips it. *)
Definition clip_index (len i : Z) : Z :=
  if i <? 0 then Z.max (i + len) 0 else Z.min i len.

(** [l[start:stop]] *)
Definition py_slice {A : Type} (l : list A) (start stop : Z) : list A :=
  let len := Z.of_nat (length l) in
  let lo := clip_index len start in
  let hi := clip_index len stop in
  take (Z.to_nat (hi - lo)) (drop (Z.to_nat lo) l).

(** The entries of [a] at the positions where [mask] is [True]. *)
Fixpoint select {A : Type} (mask : list bool) (a : list A) : list A :=
  match mask, a with
  | b :: mask', x :: a' => if b then x :: select mask' a' else select mask' a'
  | _, _ => []
  end.

(** [a[mask]] for a boolean array [mask], along the first axis of [a]: numpy
    compares the two lengths, and raises [IndexError] when they differ, only
    for a mask that is not empty; an empty mask selects nothing from an
    array of any length. *)
Definition take_mask {A : Type} (mask : list bool) (a : list A) : result (list A) :=
  if decide (length mask = 0%nat \/ length mask = length a) then Ok (select mask a)
  else Raise IndexError.

(** The rows of a flat array read row-major. *)
Fixpoint rows_of {A : Type} (ncols nrows : nat) (flat : list A) : list (list A) :=
  match nrows with
  | O => []
  | S nrows' => take ncols flat :: rows_of ncols nrows' (drop ncols flat)
  end.

(** The rows of [flat.reshape(-1, 3)]. *)
Definition rows3 {A : Type} (flat : list A) : result (list (list A)) :=
  if decide (length flat `mod` 3 = 0)%nat
  then Ok (rows_of 3 (length flat `div` 3) flat)
  else Raise ValueError.

(** The shape that [reshape(a, b)] gives an array of [size] elements.  A
    negative dimension, whatever its value, is the unknown one and is
    inferred from the other; two unknown dimensions, a known dimension that
    does not divide the size and a product other than the size are
    [ValueError]. *)
Definition reshape_shape (size : nat) (a b : Z) : result (nat * nat) :=
  let n := Z.of_nat size in
  if (a <? 0) && (b <? 0) then Raise ValueError
  else if a <? 0 then
    if (b =? 0) || negb (n mod b =? 0) then Raise ValueError
    else Ok (Z.to_nat (n / b), Z.to_nat b)
  else if b <? 0 then
    if (a =? 0) || negb (n mod a =? 0) then Raise ValueError
    else Ok (Z.to_nat a, Z.to_nat (n / a))
  else if a * b =? n then Ok (Z.to_nat a, Z.to_nat b)
  else Raise ValueError.

(** The transpose of the [nrows] x [ncols] row-major view of [flat]: row [j]
    holds the entries [flat[i * ncols + j]]. *)
Definition transposed {A : Type} (nrows ncols : nat) (flat : list A) : list (list A) :=
  (fun j => omap (fun i => flat !! (i * ncols + j)%nat) (seq 0 nrows)) <$> seq 0 ncols.

(** Two operands of an elementwise operation: the shapes agree, or one of
    them has a single element, which is then repeated. *)
Definition broadcast2 {A B C : Type} (f : A -> B -> C) (a : list A) (b : list B)
  : result (list C) :=
  if decide (length a = length b) then Ok (zip_with f a b)
  else match a, b with
       | [x], _ => Ok (f x <$> b)
       | _, [y] => Ok ((fun x => f x y) <$> a)
       | _, _ => Raise ValueError
       end.

(** ** Triangular expansion *)

(** Assigning [vals] to a slice of [m] entries: the shapes must agree, or
    [vals] has a single entry, which is then repeated. *)
Definition broadcast {A : Type} (vals : list A) (m : nat) : result (list A) :=
  if decide (length vals = m) then Ok vals
  else match vals with
       | [v] => Ok (repeat v m)
       | _ => Raise ValueError
       end.

(** [result[irow, :len(vals)] = vals] *)
Definition set_row_prefix {A : Type} (res : list (list A)) (irow : nat)
    (vals : list A) : list (list A) :=
  alter (fun row => vals ++ drop (length vals) row) irow res.

(** [result[:len(vals), icol] = vals] *)
Definition set_col_prefix {A : Type} (res : list (list A)) (icol : nat)
    (vals : list A) : list (list A) :=
  imap (fun r row => match vals !! r with
                     | Some v => <[icol := v]> row
                     | None => row
                     end) res.

(** The loop shared by [_triangle_to_dense] and [load_dm]:
    [for irow in range(nrow)] run on the rows [rows], from the offset
    [begin], on the matrix [res] (the source's [result] and [dm]). *)
Fixpoint expand_rows (triangle : list float) (rows : list nat) (begin : nat)
    (res : list (list float)) : result (list (list float)) :=
  match rows with
  | [] => Ok res
  | irow :: rows' =>
      let end_ := (begin + irow + 1)%nat in
      let* vals := broadcast (take (end_ - begin) (drop begin triangle)) (irow + 1) in
      expand_rows triangle rows' end_
        (set_col_prefix (set_row_prefix res irow vals) irow vals)
  end.

(** [np.zeros((n, n))] *)
Definition zeros2 (n : nat) : list (list float) := repeat (repeat 0%float n) n.

(** [int(np.round((np.sqrt(1 + 8 * len) - 1) / 2))], computed exactly: the
    integer nearest to [(sqrt(1 + 8 len) - 1) / 2] is half the integer square
    root of [1 + 8 len], rounded down (a tie cannot occur, [1 + 8 len] being
    odd); see [triangle_nrow_nearest]. *)
Definition triangle_nrow (len : nat) : nat :=
  Z.to_nat (Z.sqrt (1 + 8 * Z.of_nat len) / 2).

Definition _triangle_to_dense (triangle : list float) : result (list (list float)) :=
  let nrow := triangle_nrow (length triangle) in
  expand_rows triangle (seq 0 nrow) 0 (zeros2 nrow).

(** Packing the lower triangle of [M] in row-major order. *)
Definition pack_lower (M : list (list float)) : list float :=
  mjoin (imap (fun i row => take (S i) row) M).

(** ** The assembler: [load] *)

(** A two-dimensional array by rows, of [int64] or of [float64]. *)
Inductive matrix : Type :=
| MInt (rows : list (list Z))
| MFloat (rows : list (list float)).

(** An element taken from an array or put into a Python list: an integer
    (a [numpy.int64] or a Python [int]) or a [numpy.float64]. *)
Inductive num : Type :=
| NInt (n : Z)
| NFloat (x : float).

(** The dictionary [obasis]. *)
Record obasis : Type := mk_obasis {
  centers : matrix;
  shell_map : value;
  nprims : value;
  shell_types : value;
  alphas : value;
  con_coeffs : value
}.

(** The values of the dictionary that [load] returns: a string, a value of
    the field store (a scalar or a one-dimensional array), the
    zero-dimensional array that [np.copy] makes of a scalar, a
    two-dimensional array, the pair [(nbasis, nbasis_indep)], the basis. *)
Inductive rvalue : Type :=
| RStr (s : string)
| RVal (v : value)
| RZeroDim (v : value)
| RRows (m : matrix)
| RShape (nbasis nbasis_indep : option value)
| RBasis (b : obasis).

(** *** Operations on the values of the store *)

(** [fchk[label]] *)
Definition getitem (fields : gmap string value) (label : string) : result value :=
  match fields !! label with
  | Some v => Ok v
  | None => Raise (KeyError label)
  end.

(** [v[i]] for an index that is not negative: a scalar cannot be
    subscripted. *)
Definition subscript (v : value) (i : nat) : result num :=
  match v with
  | VIntArr a =>
      match a !! i with
      | Some n => Ok (NInt n)
      | None => Raise IndexError
      end
  | VFloatArr a =>
      match a !! i with
      | Some x => Ok (NFloat x)
      | None => Raise IndexError
      end
  | _ => Raise TypeError
  end.

(** The elements that [enumerate(v)] runs through: a scalar is not
    iterable. *)
Definition elements (v : value) : result (list num) :=
  match v with
  | VIntArr a => Ok (NInt <$> a)
  | VFloatArr a => Ok (NFloat <$> a)
  | _ => Raise TypeError
  end.

(** [x == k] for an element [x] and a small integer [k]. *)
Definition num_is (x : num) (k : Z) : bool :=
  match x with
  | NInt n => n =? k
  | NFloat y => (y =? float_of_int k)%float
  end.

(** [v[start:stop]]: [None] and a scalar cannot be subscripted. *)
Definition slice (v : option value) (start stop : Z) : result value :=
  match v with
  | Some (VIntArr a) => Ok (VIntArr (py_slice a start stop))
  | Some (VFloatArr a) => Ok (VFloatArr (py_slice a start stop))
  | _ => Raise TypeError
  end.

(** [counter + n] as the bound of a slice: the sum of two [int64] wraps
    around; a [float64] is no slice bound. *)
Definition slice_stop (counter : Z) (n : num) : result Z :=
  match n with
  | NInt k => Ok (wrap64 (counter + k))
  | NFloat _ => Raise TypeError
  end.

(** [v - 1] *)
Definition minus_one (v : value) : value :=
  match v with
  | VInt n => VInt (n - 1)
  | VFloat x => VFloat (x - 1)%float
  | VIntArr a => VIntArr ((fun x => wrap64 (x - 1)) <$> a)
  | VFloatArr a => VFloatArr ((fun x => (x - 1)%float) <$> a)
  end.

Definition num_int (x : num) : option Z :=
  match x with
  | NInt n => Some n
  | NFloat _ => None
  end.

Definition num_float (x : num) : float :=
  match x with
  | NInt n => float_of_int n
  | NFloat y => y
  end.

(** [np.array(l)] for a list of elements: an [int64] array when the list is
    not empty and holds integers only, a [float64] array otherwise. *)
Definition np_array (l : list num) : value :=
  match l, mapM num_int l with
  | _ :: _, Some a => VIntArr a
  | _, _ => VFloatArr (num_float <$> l)
  end.

Definition array_ints (v : value) : option (list Z) :=
  match v with
  | VIntArr a => Some a
  | _ => None
  end.

(** The elements of an array as [float64]. *)
Definition array_floats (v : value) : option (list float) :=
  match v with
  | VIntArr a => Some (float_of_int <$> a)
  | VFloatArr a => Some a
  | _ => None
  end.

(** [np.concatenate(parts)] needs at least one array; the result is an
    [int64] array when all parts are, a [float64] array otherwise. *)
Definition concatenate (parts : list value) : result value :=
  match parts with
  | [] => Raise ValueError
  | _ =>
      match mapM array_ints parts, mapM array_floats parts with
      | Some l, _ => Ok (VIntArr (mjoin l))
      | None, Some l => Ok (VFloatArr (mjoin l))
      | None, None => Raise ValueError
      end
  end.

(** [v != 0.0] on an array, element by element. *)
Definition ghost_mask (v : value) : list bool :=
  match v with
  | VIntArr a => (fun n => negb (n =? 0)) <$> a
  | VFloatArr a => (fun x => negb (x =? 0)%float) <$> a
  | _ => []
  end.

(** [v[mask]] for a boolean array [mask]. *)
Definition mask_array (mask : list bool) (v : value) : result value :=
  match v with
  | VIntArr a => let* kept := take_mask mask a in Ok (VIntArr kept)
  | VFloatArr a => let* kept := take_mask mask a in Ok (VFloatArr kept)
  | _ => Raise TypeError
  end.

(** [m[mask]]: the rows of [m] that the mask keeps. *)
Definition mask_rows (mask : list bool) (m : matrix) : result matrix :=
  match m with
  | MInt rows => let* kept := take_mask mask rows in Ok (MInt kept)
  | MFloat rows => let* kept := take_mask mask rows in Ok (MFloat kept)
  end.

(** [v.reshape(-1, 3)]: a scalar has no attribute [reshape]. *)
Definition reshape_rows3 (v : value) : result matrix :=
  match v with
  | VIntArr a => let* rows := rows3 a in Ok (MInt rows)
  | VFloatArr a => let* rows := rows3 a in Ok (MFloat rows)
  | _ => Raise AttributeError
  end.

(** A value given to numpy as a dimension: it has to be a Python [int], and
    one that fits a signed 64-bit integer. *)
Definition dimension (v : option value) : result Z :=
  match v with
  | Some (VInt n) =>
      if (- 2 ^ 63 <=? n) && (n <? 2 ^ 63) then Ok n else Raise ValueError
  | _ => Raise TypeError
  end.

(** [v.reshape(a, b).T] *)
Definition reshape_T (v : value) (a b : option value) : result matrix :=
  match v with
  | VIntArr flat =>
      let* a := dimension a in
      let* b := dimension b in
      let* (nrows, ncols) := reshape_shape (length flat) a b in
      Ok (MInt (transposed nrows ncols flat))
  | VFloatArr flat =>
      let* a := dimension a in
      let* b := dimension b in
      let* (nrows, ncols) := reshape_shape (length flat) a b in
      Ok (MFloat (transposed nrows ncols flat))
  | _ => Raise AttributeError
  end.

(** [np.copy(v)]: an array is copied, a scalar becomes a zero-dimensional
    array. *)
Definition np_copy (v : value) : rvalue :=
  match v with
  | VInt _ | VFloat _ => RZeroDim v
  | _ => RVal v
  end.

(** [occs = np.zeros(nbasis_indep); occs[:nelec] = 1.0].  [load] comes here
    after [reshape] has taken [nbasis_indep] as a dimension; [np.zeros]
    rejects a negative length and an array of more than [2^63 - 1] bytes;
    the bound of the slice has to be a Python [int]. *)
Definition occupations (nbasis_indep : option value) (nelec : value)
  : result (list float) :=
  let* n := dimension nbasis_indep in
  if (n <? 0) || (2 ^ 60 <=? n) then Raise ValueError
  else
    match nelec with
    | VInt m =>
        let ones := Z.to_nat (clip_index n m) in
        Ok (repeat 1%float ones ++ repeat 0%float (Z.to_nat n - ones))
    | _ => Raise TypeError
    end.

(** *** Truth values and arithmetic on the electron counts *)

(** The result of a comparison: a Python [bool], or a boolean array. *)
Inductive truth : Type :=
| TBool (b : bool)
| TArray (bs : list bool).

(** What [if] and [or] test on the result of [fchk.get]: [None], zero and
    an array whose single element is zero are false. *)
Definition truthy (v : option value) : truth :=
  match v with
  | None => TBool false
  | Some (VInt n) => TBool (negb (n =? 0))
  | Some (VFloat x) => TBool (negb (x =? 0)%float)
  | Some (VIntArr a) => TArray ((fun n => negb (n =? 0)) <$> a)
  | Some (VFloatArr a) => TArray ((fun x => negb (x =? 0)%float) <$> a)
  end.

(** [v < 0] and [v <= 0] *)
Definition less_than_zero (v : value) : truth :=
  match v with
  | VInt n => TBool (n <? 0)
  | VFloat x => TBool (x <? 0)%float
  | VIntArr a => TArray ((fun n => n <? 0) <$> a)
  | VFloatArr a => TArray ((fun x => (x <? 0)%float) <$> a)
  end.

Definition at_most_zero (v : value) : truth :=
  match v with
  | VInt n => TBool (n <=? 0)
  | VFloat x => TBool (x <=? 0)%float
  | VIntArr a => TArray ((fun n => n <=? 0) <$> a)
  | VFloatArr a => TArray ((fun x => (x <=? 0)%float) <$> a)
  end.

(** [a + b]: two Python numbers add as Python numbers, an [int] being
    converted when the other is a [float]; with an array the result is an
    array of the wider type, [int64] sums wrapping around. *)
Definition value_add (a b : value) : result value :=
  match a, b with
  | VInt m, VInt n => Ok (VInt (m + n))
  | VInt m, VFloat y => let* x := float_of_py_int m in Ok (VFloat (x + y)%float)
  | VFloat x, VInt n => let* y := float_of_py_int n in Ok (VFloat (x + y)%float)
  | VFloat x, VFloat y => Ok (VFloat (x + y)%float)
  | VInt m, VIntArr ns =>
      let* m := int64_of_py_int m in Ok (VIntArr ((fun n => wrap64 (m + n)) <$> ns))
  | VIntArr ms, VInt n =>
      let* n := int64_of_py_int n in Ok (VIntArr ((fun m => wrap64 (m + n)) <$> ms))
  | VInt m, VFloatArr ys =>
      let* x := float_of_py_int m in Ok (VFloatArr ((fun y => (x + y)%float) <$> ys))
  | VFloatArr xs, VInt n =>
      let* y := float_of_py_int n in Ok (VFloatArr ((fun x => (x + y)%float) <$> xs))
  | VFloat x, VIntArr ns =>
      Ok (VFloatArr ((fun n => (x + float_of_int n)%float) <$> ns))
  | VIntArr ms, VFloat y =>
      Ok (VFloatArr ((fun m => (float_of_int m + y)%float) <$> ms))
  | VFloat x, VFloatArr ys => Ok (VFloatArr ((fun y => (x + y)%float) <$> ys))
  | VFloatArr xs, VFloat y => Ok (VFloatArr ((fun x => (x + y)%float) <$> xs))
  | VIntArr ms, VIntArr ns =>
      let* s := broadcast2 (fun m n => wrap64 (m + n)) ms ns in Ok (VIntArr s)
  | VIntArr ms, VFloatArr ys =>
      let* s := broadcast2 (fun m y => (float_of_int m + y)%float) ms ys in
      Ok (VFloatArr s)
  | VFloatArr xs, VIntArr ns =>
      let* s := broadcast2 (fun x n => (x + float_of_int n)%float) xs ns in
      Ok (VFloatArr s)
  | VFloatArr xs, VFloatArr ys =>
      let* s := broadcast2 (fun x y => (x + y)%float) xs ys in Ok (VFloatArr s)
  end.

(** [a != b]: Python compares an [int] and a [float] as exact numbers; numpy
    compares an [int64] element with a Python [int] exactly, and with a
    [float] after its conversion to [float64]. *)
Definition value_ne (a b : value) : result truth :=
  match a, b with
  | VInt m, VInt n => Ok (TBool (negb (m =? n)))
  | VInt m, VFloat y => Ok (TBool (negb (float_eq_int y m)))
  | VFloat x, VInt n => Ok (TBool (negb (float_eq_int x n)))
  | VFloat x, VFloat y => Ok (TBool (negb (x =? y)%float))
  | VInt m, VIntArr ns => Ok (TArray ((fun n => negb (m =? n)) <$> ns))
  | VIntArr ms, VInt n => Ok (TArray ((fun m => negb (m =? n)) <$> ms))
  | VInt m, VFloatArr ys =>
      let* x := float_of_py_int m in Ok (TArray ((fun y => negb (x =? y)%float) <$> ys))
  | VFloatArr xs, VInt n =>
      let* y := float_of_py_int n in Ok (TArray ((fun x => negb (x =? y)%float) <$> xs))
  | VFloat x, VIntArr ns =>
      Ok (TArray ((fun n => negb (x =? float_of_int n)%float) <$> ns))
  | VIntArr ms, VFloat y =>
      Ok (TArray ((fun m => negb (float_of_int m =? y)%float) <$> ms))
  | VFloat x, VFloatArr ys => Ok (TArray ((fun y => negb (x =? y)%float) <$> ys))
  | VFloatArr xs, VFloat y => Ok (TArray ((fun x => negb (x =? y)%float) <$> xs))
  | VIntArr ms, VIntArr ns =>
      let* d := broadcast2 (fun m n => negb (m =? n)) ms ns in Ok (TArray d)
  | VIntArr ms, VFloatArr ys =>
      let* d := broadcast2 (fun m y => negb (float_of_int m =? y)%float) ms ys in
      Ok (TArray d)
  | VFloatArr xs, VIntArr ns =>
      let* d := broadcast2 (fun x n => negb (x =? float_of_int n)%float) xs ns in
      Ok (TArray d)
  | VFloatArr xs, VFloatArr ys =>
      let* d := broadcast2 (fun x y => negb (x =? y)%float) xs ys in Ok (TArray d)
  end.

(** *** B) the orbital basis *)

(** The five lists that the shell loop appends to. *)
Record shell_lists : Type := mk_shells {
  my_shell_types : list num;
  my_shell_map : list num;
  my_nprims : list num;
  my_alphas : list value;
  my_con_coeffs : list value
}.

Definition no_shells : shell_lists := mk_shells [] [] [] [] [].

Section Shells.

Variable shell_types_in : value.
Variable shell_map_in : value.
Variable alphas_in : value.
Variable ccoeffs_level1 : value.
Variable ccoeffs_level2 : option value.

(** The body of [for i, n in enumerate(nprims)]; [nprims[i]] is [n].  The
    lists are local to [load], so what an iteration that raises has appended
    is not seen: the appends are gathered at the end. *)
Definition shell_step (i : nat) (n : num) (counter : Z) (acc : shell_lists)
  : result (Z * shell_lists) :=
  let* ty := subscript shell_types_in i in
  if num_is ty (-1) then
    let* atom := subscript shell_map_in i in
    let* stop := slice_stop counter n in
    let* exps := slice (Some alphas_in) counter stop in
    let* coeffs1 := slice (Some ccoeffs_level1) counter stop in
    let* coeffs2 := slice ccoeffs_level2 counter stop in
    Ok (stop,
        mk_shells
          (my_shell_types acc ++ [NInt 0; NInt 1])
          (my_shell_map acc ++ [atom; atom])
          (my_nprims acc ++ [n; n])
          (my_alphas acc ++ [exps; exps])
          (my_con_coeffs acc ++ [coeffs1; coeffs2]))
  else
    let* atom := subscript shell_map_in i in
    let* stop := slice_stop counter n in
    let* exps := slice (Some alphas_in) counter stop in
    let* coeffs1 := slice (Some ccoeffs_level1) counter stop in
    Ok (stop,
        mk_shells
          (my_shell_types acc ++ [ty])
          (my_shell_map acc ++ [atom])
          (my_nprims acc ++ [n])
          (my_alphas acc ++ [exps])
          (my_con_coeffs acc ++ [coeffs1])).

(** The loop over [nprims], from shell [i] on. *)
Fixpoint shell_loop (i : nat) (nprims_in : list num) (counter : Z) (acc : shell_lists)
  : result (Z * shell_lists) :=
  match nprims_in with
  | [] => Ok (counter, acc)
  | n :: rest =>
      let* (counter', acc') := shell_step i n counter acc in
      shell_loop (S i) rest counter' acc'
  end.

End Shells.

(** The key of [permutation_rules] that a [float64] shell type finds: the
    integer key it is equal to. *)
Definition table_keys : list Z :=
  [-9; -8; -7; -6; -5; -4; -3; -2; 0; 1; 2; 3; 4; 5; 6; 7; 8; 9].

Fixpoint float_keys (shell_types : list float) : result (list Z) :=
  match shell_types with
  | [] => Ok []
  | x :: rest =>
      match list_find (fun k => (x =? float_of_int k)%float = true) table_keys with
      | Some (_, k) => let* keys := float_keys rest in Ok (k :: keys)
      | None => Raise (KeyErrorFloat x)
      end
  end.

(** The permutation loop on the array [my_shell_types]. *)
Definition shell_permutation (my_shell_types : value) : result (list Z) :=
  match my_shell_types with
  | VIntArr types => build_permutation types
  | VFloatArr types => let* keys := float_keys types in build_permutation keys
  | _ => Raise TypeError
  end.

(** *** C) density matrices *)

(** The array [fchk[label]] as the rows of a [float64] matrix are assigned
    from its slices. *)
Definition triangle_of (v : value) : result (list float) :=
  match array_floats v with
  | Some a => Ok a
  | None => Raise TypeError
  end.

(** [load_dm(label)]: [None] when the label is not in the store.
    [np.zeros((nbasis, nbasis))] rejects a negative dimension and an array
    of more than [2^63 - 1] bytes.  With [nbasis = 0] the loop is not entered
    and [fchk[label]] is not subscripted. *)
Definition load_dm (fields : gmap string value) (nbasis : option value) (label : string)
  : result (option (list (list float))) :=
  match fields !! label with
  | None => Ok None
  | Some v =>
      let* n := dimension nbasis in
      if (n <? 0) || (2 ^ 63 <=? 8 * n * n) then Raise ValueError
      else if n =? 0 then Ok (Some [])
      else
        let* triangle := triangle_of v in
        let* dm := expand_rows triangle (seq 0 (Z.to_nat n)) 0 (zeros2 (Z.to_nat n)) in
        Ok (Some dm)
  end.

(** The keys of [for key in 'MP2', 'MP3', 'CC', 'CI', 'SCF'], each with its
    [key.lower()]. *)
Definition dm_keys : list (string * string) :=
  [("MP2", "mp2"); ("MP3", "mp3"); ("CC", "cc"); ("CI", "ci"); ("SCF", "scf")].

Definition store_dm (key : string) (dm : option (list (list float)))
    (res : gmap string rvalue) : gmap string rvalue :=
  match dm with
  | Some rows => <[key := RRows (MFloat rows)]> res
  | None => res
  end.

Fixpoint load_densities (fields : gmap string value) (nbasis : option value)
    (keys : list (string * string)) (res : gmap string rvalue)
  : result (gmap string rvalue) :=
  match keys with
  | [] => Ok res
  | (key, lower) :: keys' =>
      let* dm_full := load_dm fields nbasis ("Total " +:+ key +:+ " Density") in
      let res := store_dm ("dm_full_" +:+ lower) dm_full res in
      let* dm_spin := load_dm fields nbasis ("Spin " +:+ key +:+ " Density") in
      let res := store_dm ("dm_spin_" +:+ lower) dm_spin res in
      load_densities fields nbasis keys' res
  end.

(** [result.pop(key)] *)
Definition dict_pop (key : string) (res : gmap string rvalue)
  : result (gmap string rvalue) :=
  match res !! key with
  | Some _ => Ok (delete key res)
  | None => Raise (KeyError key)
  end.

(** *** E) and F) properties and charges *)

(** [a[i]] in a list. *)
Definition array_get {A : Type} (a : list A) (i : nat) : result A :=
  match a !! i with
  | Some x => Ok x
  | None => Raise IndexError
  end.

(** [a[[0, 3, 4, 1, 5, 2]]] *)
Definition quadrupole_order {A : Type} (a : list A) : result (list A) :=
  let* xx := array_get a 0 in
  let* xy := array_get a 3 in
  let* xz := array_get a 4 in
  let* yy := array_get a 1 in
  let* yz := array_get a 5 in
  let* zz := array_get a 2 in
  Ok [xx; xy; xz; yy; yz; zz].

Definition quadrupole (v : value) : result value :=
  match v with
  | VIntArr a => let* q := quadrupole_order a in Ok (VIntArr q)
  | VFloatArr a => let* q := quadrupole_order a in Ok (VFloatArr q)
  | _ => Raise TypeError
  end.

Definition load_properties (fields : gmap string value) (res : gmap string rvalue)
  : result (gmap string rvalue) :=
  let* energy := getitem fields "Total Energy" in
  let res := <["energy" := RVal energy]> res in
  let* res :=
    match fields !! "Polarizability" with
    | Some v =>
        let* triangle := triangle_of v in
        let* polar := _triangle_to_dense triangle in
        Ok (<["polar" := RRows (MFloat polar)]> res)
    | None => Ok res
    end in
  let res :=
    match fields !! "Dipole Moment" with
    | Some v => <["dipole_moment" := RVal v]> res
    | None => res
    end in
  match fields !! "Quadrupole Moment" with
  | Some v =>
      let* q := quadrupole v in
      Ok (<["quadrupole_moment" := RVal q]> res)
  | None => Ok res
  end.

(** [if label in fchk: result[key] = fchk[label][mask]] *)
Definition load_charges (fields : gmap string value) (mask : list bool)
    (label key : string) (res : gmap string rvalue) : result (gmap string rvalue) :=
  match fields !! label with
  | Some v =>
      let* kept := mask_array mask v in
      Ok (<[key := RVal kept]> res)
  | None => Ok res
  end.

(** The labels that [load] asks [FCHKFile] for. *)
Definition load_labels : list string :=
  ["Number of electrons"; "Number of basis functions";
   "Number of independant functions";
   "Number of independent functions";
   "Number of alpha electrons"; "Number of beta electrons";
   "Atomic numbers"; "Current cartesian coordinates";
   "Shell types"; "Shell to atom map"; "Shell to atom map";
   "Number of primitives per shell"; "Primitive exponents";
   "Contraction coefficients"; "P(S=P) Contraction coefficients";
   "Alpha Orbital Energies"; "Alpha MO coefficients";
   "Beta Orbital Energies"; "Beta MO coefficients";
   "Total Energy"; "Nuclear charges";
   "Total SCF Density"; "Spin SCF Density";
   "Total MP2 Density"; "Spin MP2 Density";
   "Total MP3 Density"; "Spin MP3 Density";
   "Total CC Density"; "Spin CC Density";
   "Total CI Density"; "Spin CI Density";
   "Mulliken Charges"; "ESP Charges"; "NPA Charges";
   "Polarizability"; "Dipole Moment"; "Quadrupole Moment"].

Section Load.

(** [bool(a)] for an array [a] without elements: [False], with a warning,
    before numpy 2.2, and [ValueError] since. *)
Variable empty_array_truth : result bool.

(** [bool(t)]: an array of several elements has no truth value. *)
Definition py_bool (t : truth) : result bool :=
  match t with
  | TBool b => Ok b
  | TArray [] => empty_array_truth
  | TArray [b] => Ok b
  | TArray _ => Raise ValueError
  end.

(** *** D) the wavefunction *)

(** [nbasis_indep]: [fchk.get("Number of independant functions") or
    fchk.get("Number of independent functions")], and [nbasis] when that is
    [None]. *)
Definition independent_functions (fields : gmap string value) (nbasis : option value)
  : result (option value) :=
  let first := fields !! "Number of independant functions" in
  let* chosen := py_bool (truthy first) in
  let nbasis_indep :=
    if chosen : bool then first else fields !! "Number of independent functions" in
  Ok (match nbasis_indep with
      | None => nbasis
      | Some _ => nbasis_indep
      end).

(** [nalpha < 0 or nbeta < 0 or nalpha + nbeta <= 0] as [if] tests it. *)
Definition no_electrons (nalpha nbeta : value) : result bool :=
  let* negative := py_bool (less_than_zero nalpha) in
  if negative : bool then Ok true
  else
    let* negative := py_bool (less_than_zero nbeta) in
    if negative : bool then Ok true
    else
      let* total := value_add nalpha nbeta in
      py_bool (at_most_zero total).

Definition load_orbitals (fields : gmap string value) (nbasis : option value)
    (res : gmap string rvalue) : result (gmap string rvalue) :=
  let* nbasis_indep := independent_functions fields nbasis in
  let* nalpha := getitem fields "Number of alpha electrons" in
  let* nbeta := getitem fields "Number of beta electrons" in
  let* none := no_electrons nalpha nbeta in
  if none : bool then Raise ValueError
  else
    let res := <["orb_alpha" := RShape nbasis nbasis_indep]> res in
    let* amo := getitem fields "Alpha MO coefficients" in
    let* acoeffs := reshape_T amo nbasis_indep nbasis in
    let res := <["orb_alpha_coeffs" := RRows acoeffs]> res in
    let* aenergies := getitem fields "Alpha Orbital Energies" in
    let res := <["orb_alpha_energies" := np_copy aenergies]> res in
    let* aoccs := occupations nbasis_indep nalpha in
    let res := <["orb_alpha_occs" := RVal (VFloatArr aoccs)]> res in
    match fields !! "Beta Orbital Energies" with
    | Some benergies =>
        (* UHF case *)
        let res := <["orb_beta" := RShape nbasis nbasis_indep]> res in
        let* bmo := getitem fields "Beta MO coefficients" in
        let* bcoeffs := reshape_T bmo nbasis_indep nbasis in
        let res := <["orb_beta_coeffs" := RRows bcoeffs]> res in
        let res := <["orb_beta_energies" := np_copy benergies]> res in
        let* boccs := occupations nbasis_indep nbeta in
        Ok (<["orb_beta_occs" := RVal (VFloatArr boccs)]> res)
    | None =>
        let* differ := value_ne nbeta nalpha in
        let* differ := py_bool differ in
        if differ : bool then
          (* ROHF case *)
          let res := <["orb_beta" := RShape nbasis nbasis_indep]> res in
          let* bcoeffs := reshape_T amo nbasis_indep nbasis in
          let res := <["orb_beta_coeffs" := RRows bcoeffs]> res in
          let res := <["orb_beta_energies" := RVal aenergies]> res in
          let* boccs := occupations nbasis_indep nbeta in
          let res := <["orb_beta_occs" := RVal (VFloatArr boccs)]> res in
          dict_pop "dm_full_scf" res
        else Ok res
    end.

(** *** [load], after the file has been scanned *)

Definition load_fields (fchk : fchk_file) : result (gmap string rvalue) :=
  let fields := data fchk in
  (* A) the geometry *)
  let* numbers := getitem fields "Atomic numbers" in
  let* flat := getitem fields "Current cartesian coordinates" in
  let* coordinates := reshape_rows3 flat in
  let* pseudo_numbers := getitem fields "Nuclear charges" in
  match pseudo_numbers with
  | VInt _ | VFloat _ =>
      (* the mask is a [bool]: [numbers[mask]] fails on a scalar, and
         [pseudo_numbers[mask]] fails *)
      Raise TypeError
  | _ =>
      let mask := ghost_mask pseudo_numbers in
      let* numbers := mask_array mask numbers in
      let* system_coordinates := mask_rows mask coordinates in
      let* pseudo_numbers := mask_array mask pseudo_numbers in
      (* B) the orbital basis *)
      let* shell_types := getitem fields "Shell types" in
      let* shell_map := getitem fields "Shell to atom map" in
      let shell_map := minus_one shell_map in
      let* nprims := getitem fields "Number of primitives per shell" in
      let* alphas := getitem fields "Primitive exponents" in
      let* ccoeffs_level1 := getitem fields "Contraction coefficients" in
      let ccoeffs_level2 := fields !! "P(S=P) Contraction coefficients" in
      let* nprims := elements nprims in
      let* (_, shells) :=
        shell_loop shell_types shell_map alphas ccoeffs_level1 ccoeffs_level2
          0 nprims 0 no_shells in
      let my_shell_types := np_array (my_shell_types shells) in
      let my_shell_map := np_array (my_shell_map shells) in
      let my_nprims := np_array (my_nprims shells) in
      let* my_alphas := concatenate (my_alphas shells) in
      let* con_coeffs := concatenate (my_con_coeffs shells) in
      let obasis := mk_obasis coordinates my_shell_map my_nprims my_shell_types
                      my_alphas con_coeffs in
      let* permutation := shell_permutation my_shell_types in
      let res : gmap string rvalue :=
        <["pseudo_numbers" := RVal pseudo_numbers]>
        (<["permutation" := RVal (VIntArr permutation)]>
        (<["obasis" := RBasis obasis]>
        (<["numbers" := RVal numbers]>
        (<["coordinates" := RRows system_coordinates]>
        (<["title" := RStr (title fchk)]> ∅))))) in
      let nbasis := fields !! "Number of basis functions" in
      (* C) density matrices *)
      let* res := load_densities fields nbasis dm_keys res in
      (* D) the wavefunction *)
      let* res := load_orbitals fields nbasis res in
      (* E) properties *)
      let* res := load_properties fields res in
      (* F) optional properties, ghost atoms masked out *)
      let* res := load_charges fields mask "Mulliken Charges" "mulliken_charges" res in
      let* res := load_charges fields mask "ESP Charges" "esp_charges" res in
      load_charges fields mask "NPA Charges" "npa_charges" res
  end.

(** [load(filename)] on the lines of the file. *)
Definition load (py_int : string -> option Z) (py_float : string -> option float)
    (filename : string) (allocates : Z -> bool) (file : list string)
  : result (gmap string rvalue) :=
  let* fchk := FCHKFile py_int py_float filename allocates file (Some load_labels) in
  load_fields fchk.

End Load.

(** ** The conversions [int(word)] and [float(word)] on ASCII words

    [read_field] is stated for any two conversions.  These two follow
    Python's grammar on ASCII text and serve to run the scanner on the lines
    of a file. *)

Definition digit_of (c : ascii) : option Z :=
  let n := nat_of_ascii c in
  if ((48 <=? n) && (n <=? 57))%nat then Some (Z.of_nat (n - 48)) else None.

(** A run of digits, single underscores allowed between two digits: its
    value, its number of digits and what follows it.  [after_digit] tells
    that the last character read was a digit. *)
Fixpoint digit_run (acc : Z) (count : nat) (after_digit : bool) (s : string)
  : option (Z * nat * string) :=
  match s with
  | EmptyString => if after_digit then Some (acc, count, s) else None
  | String c s' =>
      match digit_of c with
      | Some d => digit_run (10 * acc + d) (S count) true s'
      | None =>
          if after_digit then
            if Ascii.eqb c "_" then
              match digit_run acc count false s' with
              | Some r => Some r
              | None => None
              end
            else Some (acc, count, s)
          else None
      end
  end.

(** An optional sign: [true] for [-]. *)
Definition sign_of (s : string) : bool * string :=
  match s with
  | String c s' =>
      if Ascii.eqb c "-" then (true, s')
      else if Ascii.eqb c "+" then (false, s')
      else (false, s)
  | EmptyString => (false, s)
  end.

(** [int(word)] in base 10.  CPython (3.11 and later) refuses a word of
    more than 4300 digits, leading zeros counted. *)
Definition ascii_int (word : string) : option Z :=
  let (neg, digits) := sign_of (strip word) in
  match digit_run 0 0 false digits with
  | Some (n, count, EmptyString) =>
      if (4300 <? count)%nat then None else Some (if neg then - n else n)
  | _ => None
  end.

(** The binary64 number nearest to [(-1)^neg * m * 10^e10], ties to even.
    When [e10] is negative the quotient is computed to more than 64 bits and
    its last bit records whether the division was exact. *)
Definition decimal_to_float (neg : bool) (m e10 : Z) : float :=
  let signed (n : Z) := if neg then - n else n in
  if 0 <=? e10 then SF2Prim (binary_normalize 53 1024 (signed (m * 10 ^ e10)) 0 neg)
  else
    let den := 10 ^ (- e10) in
    let k := Z.max 0 (66 + Z.log2 den - Z.log2 m) in
    let q := (m * 2 ^ k) / den in
    let sticky := if (m * 2 ^ k) mod den =? 0 then 0 else 1 in
    SF2Prim (binary_normalize 53 1024 (signed (2 * q + sticky)) (- (k + 1)) neg).

Definition lower_ascii (c : ascii) : ascii :=
  let n := nat_of_ascii c in
  if ((65 <=? n) && (n <=? 90))%nat then ascii_of_nat (n + 32) else c.

Fixpoint lower (s : string) : string :=
  match s with
  | EmptyString => ""
  | String c s' => String (lower_ascii c) (lower s')
  end.

(** The exponent part [e[+-]digits] of a real, or nothing. *)
Definition exponent_of (s : string) : option Z :=
  match s with
  | EmptyString => Some 0
  | String c s' =>
      if Ascii.eqb (lower_ascii c) "e" then
        let (neg, digits) := sign_of s' in
        match digit_run 0 0 false digits with
        | Some (n, _, EmptyString) => Some (if neg then - n else n)
        | _ => None
        end
      else None
  end.

(** [float(word)]: [inf], [infinity], [nan], or digits with an optional
    fraction and exponent, at least one digit before the exponent. *)
Definition ascii_float (word : string) : option float :=
  let (neg, body) := sign_of (strip word) in
  let name := lower body in
  if decide (name = "inf" \/ name = "infinity") then
    Some (if neg then neg_infinity else infinity)
  else if decide (name = "nan") then Some nan
  else
    let (int_part, rest) :=
      match digit_run 0 0 false body with
      | Some (n, _, rest) => (Some n, rest)
      | None => (None, body)
      end in
    let (frac_part, rest) :=
      match rest with
      | String c rest' =>
          if Ascii.eqb c "." then
            match digit_run 0 0 false rest' with
            | Some (n, count, rest'') => (Some (Some (n, count)), rest'')
            | None => (Some None, rest')
            end
          else (None, rest)
      | EmptyString => (None, rest)
      end in
    let mantissa :=
      match int_part, frac_part with
      | Some n, Some (Some (frac, count)) =>
          Some (n * 10 ^ Z.of_nat count + frac, Z.of_nat count)
      | Some n, _ => Some (n, 0)
      | None, Some (Some (frac, count)) => Some (frac, Z.of_nat count)
      | None, _ => None
      end in
    match mantissa, exponent_of rest with
    | Some (m, count), Some e => Some (decimal_to_float neg m (e - count))
    | _, _ => None
    end.

(** ** Square matrices

    Notions in which the round trip of the triangular storage is stated. *)

(** [M[i][j]], [0.0] outside the matrix. *)
Definition entry (M : list (list float)) (i j : nat) : float :=
  nth j (nth i M []) 0%float.

(** [M] has [n] rows of [n] entries. *)
Definition square (n : nat) (M : list (list float)) : Prop :=
  length M = n /\ Forall (fun row => length row = n) M.

Definition symmetric (M : list (list float)) : Prop :=
  forall i j, entry M i j = entry M j i.

(** The [n] x [n] matrix with entries [g i j]. *)
Definition tabulate (n : nat) (g : nat -> nat -> float) : list (list float) :=
  (fun i => g i <$> seq 0 n) <$> seq 0 n.

(** The triangular numbers: the offset [begin] at the start of row [k]. *)
Fixpoint tri (k : nat) : nat :=
  match k with
  | O => O
  | S k' => (tri k' + S k')%nat
  end.

(** [M] restricted to its leading [k] x [k] block, [0.0] elsewhere: the
    matrix that the expansion has built before row [k]. *)
Definition block (M : list (list float)) (k a b : nat) : float :=
  if decide (a < k /\ b < k)%nat then entry M a b else 0%float.

(** ** Shells as the specification describes them *)

(** A shell of the file: its type, its atom (already 0-based) and its number
    of primitives. *)
Record raw_shell : Type := mk_raw {
  raw_type : Z;
  raw_atom : Z;
  raw_nprim : Z
}.

(** The specification's [ShellSpec]. *)
Record shell_spec : Type := mk_shell {
  atom_index : Z;
  angular_type : Z;
  n_primitives : Z;
  exponents : list float;
  contraction_coeffs : list float
}.

(** The [k] entries of a flat array from the offset [off] on. *)
Definition segment {A : Type} (off k : nat) (flat : list A) : list A :=
  take k (drop off flat).

Section ShellSpecs.

Variable exps : list float.
Variable coeffs1 : list float.
Variable coeffs2 : option (list float).

(** What the specification says a shell at the offset [off] yields: an SP
    shell an S and a P shell on the same atom with the same exponents, the
    S coefficients from the first array and the P coefficients from the
    P(S=P) array; any other shell itself. *)
Definition spec_shells (r : raw_shell) (off : nat) : list shell_spec :=
  let k := Z.to_nat (raw_nprim r) in
  if raw_type r =? -1 then
    [mk_shell (raw_atom r) 0 (raw_nprim r) (segment off k exps) (segment off k coeffs1);
     mk_shell (raw_atom r) 1 (raw_nprim r) (segment off k exps)
       (segment off k (default [] coeffs2))]
  else
    [mk_shell (raw_atom r) (raw_type r) (raw_nprim r) (segment off k exps)
       (segment off k coeffs1)].

(** The shells of a whole basis: the offset advances by the number of
    primitives of every shell of the file. *)
Fixpoint spec_basis (off : nat) (raw : list raw_shell) : list shell_spec :=
  match raw with
  | [] => []
  | r :: raw' => spec_shells r off ++ spec_basis (off + Z.to_nat (raw_nprim r)) raw'
  end.

End ShellSpecs.

(** The five lists of [load] that hold the shells [specs]. *)
Definition shells_of (specs : list shell_spec) : shell_lists :=
  mk_shells ((fun s => NInt (angular_type s)) <$> specs)
    ((fun s => NInt (atom_index s)) <$> specs)
    ((fun s => NInt (n_primitives s)) <$> specs)
    ((fun s => VFloatArr (exponents s)) <$> specs)
    ((fun s => VFloatArr (contraction_coeffs s)) <$> specs).

(** The primitives of a list of shells. *)
Definition total_prims (raw : list raw_shell) : Z :=
  foldr (fun r acc => raw_nprim r + acc) 0 raw.

(** The input is well formed: no negative count, the flat arrays hold the
    primitives of all shells, their number fits an [int64], and the P(S=P)
    array is there when an SP shell is. *)
Definition well_formed_basis (raw : list raw_shell) (exps coeffs1 : list float)
    (coeffs2 : option (list float)) : Prop :=
  Forall (fun r => 0 <= raw_nprim r) raw /\
  total_prims raw <= Z.of_nat (length exps) /\
  total_prims raw <= Z.of_nat (length coeffs1) /\
  total_prims raw < 2 ^ 63 /\
  (forall c2, coeffs2 = Some c2 -> total_prims raw <= Z.of_nat (length c2)) /\
  (Exists (fun r => raw_type r = -1) raw -> is_Some coeffs2).

(** Appending the shells of [new] to the five lists [acc]. *)
Definition append_shells (acc new : shell_lists) : shell_lists :=
  mk_shells (my_shell_types acc ++ my_shell_types new)
    (my_shell_map acc ++ my_shell_map new)
    (my_nprims acc ++ my_nprims new)
    (my_alphas acc ++ my_alphas new)
    (my_con_coeffs acc ++ my_con_coeffs new).

(** ** Ghost atoms *)

(** The number of elements of an array. *)
Definition array_length (v : value) : nat :=
  match v with
  | VIntArr a => length a
  | VFloatArr a => length a
  | _ => 0%nat
  end.

Definition is_array (v : value) : Prop :=
  match v with
  | VIntArr _ | VFloatArr _ => True
  | _ => False
  end.

(** The nuclear charge of atom [i] is zero, or there is no such atom. *)
Definition no_charge (pseudo_numbers : value) (i : nat) : bool :=
  match pseudo_numbers with
  | VIntArr a => match a !! i with Some n => n =? 0 | None => true end
  | VFloatArr a => match a !! i with Some x => (x =? 0)%float | None => true end
  | _ => true
  end.

(** The indices of the atoms whose nuclear charge is not [0.0]. *)
Definition real_atoms (pseudo_numbers : value) : list nat :=
  filter (fun i => no_charge pseudo_numbers i = false)
    (seq 0 (array_length pseudo_numbers)).

(** The entries of [a] at the indices [idx], in that order. *)
Definition gather {A : Type} (d : A) (a : list A) (idx : list nat) : list A :=
  (fun i => nth i a d) <$> idx.

Definition gather_array (v : value) (idx : list nat) : value :=
  match v with
  | VIntArr a => VIntArr (gather 0 a idx)
  | VFloatArr a => VFloatArr (gather 0%float a idx)
  | _ => v
  end.

Definition gather_rows (m : matrix) (idx : list nat) : matrix :=
  match m with
  | MInt rows => MInt (gather [] rows idx)
  | MFloat rows => MFloat (gather [] rows idx)
  end.

(** The coordinates of all atoms: the flat array in rows of three. *)
Definition all_rows (coordinates : value) : matrix :=
  match coordinates with
  | VIntArr a => MInt (rows_of 3 (length a `div` 3) a)
  | VFloatArr a => MFloat (rows_of 3 (length a `div` 3) a)
  | _ => MFloat []
  end.

Definition row_count (m : matrix) : nat :=
  match m with
  | MInt rows => length rows
  | MFloat rows => length rows
  end.

(** The optional charge fields and their keys in the result. *)
Definition charge_keys : list (string * string) :=
  [("Mulliken Charges", "mulliken_charges"); ("ESP Charges", "esp_charges");
   ("NPA Charges", "npa_charges")].

(** The keys of the result that the stages C) to E) of [load] leave alone:
    those that name no density matrix, no orbital entry and no property. *)
Definition untouched_key (key : string) : bool :=
  negb (String.prefix "dm_" key) && negb (String.prefix "orb_" key)
  && bool_decide (key ∉ ["energy"; "polar"; "dipole_moment"; "quadrupole_moment"]).

(** ** The stages of [load]

    Notions in which the properties of a whole run of [load] are stated. *)

(** The dictionary [result] as [load] first builds it. *)
Definition first_result (title : string) (system_coordinates : matrix)
    (numbers : value) (basis : obasis) (permutation : list Z)
    (pseudo_numbers : value) : gmap string rvalue :=
  <["pseudo_numbers" := RVal pseudo_numbers]>
  (<["permutation" := RVal (VIntArr permutation)]>
  (<["obasis" := RBasis basis]>
  (<["numbers" := RVal numbers]>
  (<["coordinates" := RRows system_coordinates]>
  (<["title" := RStr title]> ∅))))).

(** What a run of [load] that returns [res] has read and computed, stage by
    stage. *)
Inductive load_run (empty_array_truth : result bool) (fchk : fchk_file)
    (res : gmap string rvalue) : Prop :=
| mk_run (numbers flat pseudo : value) (coordinates : matrix)
    (kept_numbers : value) (kept_coordinates : matrix) (kept_pseudo : value)
    (shell_types shell_map nprims exps coeffs1 : value) (items : list num)
    (counter : Z) (shells : shell_lists) (alphas con_coeffs : value)
    (permutation : list Z) (res1 res2 res3 res4 res5 : gmap string rvalue)
    (run_has_numbers : data fchk !! "Atomic numbers" = Some numbers)
    (run_has_coordinates :
       data fchk !! "Current cartesian coordinates" = Some flat)
    (run_has_charges : data fchk !! "Nuclear charges" = Some pseudo)
    (run_reshape : reshape_rows3 flat = Ok coordinates)
    (run_pseudo_array : is_array pseudo)
    (run_mask_numbers : mask_array (ghost_mask pseudo) numbers = Ok kept_numbers)
    (run_mask_coordinates :
       mask_rows (ghost_mask pseudo) coordinates = Ok kept_coordinates)
    (run_mask_pseudo : mask_array (ghost_mask pseudo) pseudo = Ok kept_pseudo)
    (run_has_shell_types : data fchk !! "Shell types" = Some shell_types)
    (run_has_shell_map : data fchk !! "Shell to atom map" = Some shell_map)
    (run_has_nprims :
       data fchk !! "Number of primitives per shell" = Some nprims)
    (run_has_exps : data fchk !! "Primitive exponents" = Some exps)
    (run_has_coeffs1 : data fchk !! "Contraction coefficients" = Some coeffs1)
    (run_iter : elements nprims = Ok items)
    (run_loop :
       shell_loop shell_types (minus_one shell_map) exps coeffs1
         (data fchk !! "P(S=P) Contraction coefficients") 0 items 0 no_shells
       = Ok (counter, shells))
    (run_cat_alphas : concatenate (my_alphas shells) = Ok alphas)
    (run_cat_coeffs : concatenate (my_con_coeffs shells) = Ok con_coeffs)
    (run_perm :
       shell_permutation (np_array (my_shell_types shells)) = Ok permutation)
    (run_densities :
       load_densities (data fchk) (data fchk !! "Number of basis functions") dm_keys
         (first_result (title fchk) kept_coordinates kept_numbers
            (mk_obasis coordinates (np_array (my_shell_map shells))
               (np_array (my_nprims shells)) (np_array (my_shell_types shells))
               alphas con_coeffs)
            permutation kept_pseudo)
       = Ok res1)
    (run_orbitals :
       load_orbitals empty_array_truth (data fchk)
         (data fchk !! "Number of basis functions") res1 = Ok res2)
    (run_properties : load_properties (data fchk) res2 = Ok res3)
    (run_mulliken :
       load_charges (data fchk) (ghost_mask pseudo) "Mulliken Charges"
         "mulliken_charges" res3 = Ok res4)
    (run_esp :
       load_charges (data fchk) (ghost_mask pseudo) "ESP Charges" "esp_charges"
         res4 = Ok res5)
    (run_npa :
       load_charges (data fchk) (ghost_mask pseudo) "NPA Charges" "npa_charges"
         res5 = Ok res).

(** ** Two stores for the restricted open-shell case

    One oxygen atom with an S shell and two SP shells (nine basis functions),
    five alpha and four beta electrons and no beta orbital energies. *)

Definition rohf_fields : gmap string value :=
  list_to_map
    [("Atomic numbers", VIntArr [8]);
     ("Current cartesian coordinates", VFloatArr [0; 0; 0]%float);
     ("Nuclear charges", VFloatArr [8%float]);
     ("Shell types", VIntArr [0; -1; -1]);
     ("Shell to atom map", VIntArr [1; 1; 1]);
     ("Number of primitives per shell", VIntArr [2; 2; 1]);
     ("Primitive exponents", VFloatArr [130.5; 23.5; 5.5; 1.25; 0.25]%float);
     ("Contraction coefficients", VFloatArr [0.125; 0.5; -0.125; 0.75; 1]%float);
     ("P(S=P) Contraction coefficients", VFloatArr [0; 0; 0.25; 0.5; 1]%float);
     ("Number of basis functions", VInt 9);
     ("Number of alpha electrons", VInt 5);
     ("Number of beta electrons", VInt 4);
     ("Alpha MO coefficients", VFloatArr (repeat 0.5%float 81));
     ("Alpha Orbital Energies",
      VFloatArr [-20.5; -1.25; -0.5; -0.5; -0.25; 0.5; 0.5; 1; 1.5]%float);
     ("Total Energy", VFloat (-74.5)%float)].

(** The same file without and with its ["Total SCF Density"]. *)
Definition rohf_without_density : fchk_file :=
  mk_fchk "O ROHF" "SP" "ROHF" (Some "STO-3G") rohf_fields.

Definition rohf_with_density : fchk_file :=
  mk_fchk "O ROHF" "SP" "ROHF" (Some "STO-3G")
    (<["Total SCF Density" := VFloatArr (repeat 0.25%float 45)]> rohf_fields).

(** Both spellings of the number of independent functions in one store. *)
Definition both_spellings : gmap string value :=
  <["Number of independant functions" := VInt 3]>
    (<["Number of independent functions" := VInt 4]> ∅).

(** ** Notions in which the scanner's properties are stated *)

(** The label of a header line: [line[:43].strip()]. *)
Definition label_of (line : string) : string := strip (str_take 43 line).

(** [read_field] goes on to read the type of a line with this label: there is
    no filter, or the filter is not used up and holds the label. *)
Definition wanted (labels : option (gset string)) (label : string) : Prop :=
  match labels with
  | None => True
  | Some s => s <> ∅ /\ label ∈ s
  end.

(** [field_labels.discard(label)] when there is a filter. *)
Definition discard (labels : option (gset string)) (label : string)
  : option (gset string) :=
  (fun s => s ∖ {[label]}) <$> labels.

(** The type that the first word after the label declares. *)
Definition type_word (word : string) : option datatype :=
  if decide (word = "I") then Some DInt
  else if decide (word = "R") then Some DFloat
  else None.

(** The words of a list of lines, in reading order. *)
Definition tokens (lines : list string) : list string :=
  mjoin (split <$> lines).

Section Elements.

Variable py_int : string -> option Z.
Variable py_float : string -> option float.

(** A word as an element of an array of the given type: its conversion by
    [int] or [float], stored in an [int64] or [float64] slot. *)
Definition element (dt : datatype) (word : string) : option value :=
  match dt with
  | DInt => VInt <$> (py_int word ≫= store_int64)
  | DFloat => VFloat <$> py_float word
  end.

(** The array of the given type that holds the converted [words]. *)
Definition array_of (dt : datatype) (words : list string) : option value :=
  match dt with
  | DInt => VIntArr <$> mapM (fun w => py_int w ≫= store_int64) words
  | DFloat => VFloatArr <$> mapM py_float words
  end.

End Elements.

(** ** Files to run the scanner on *)

(** An allocator that grants every request. *)
Definition ample_memory : Z -> bool := fun _ => true.

(** A label in its 43 columns. *)
Definition pad43 (label : string) : string :=
  label +:+ string_of_list_ascii (repeat " "%char (43 - String.length label)).

(** The header line of a field: the label, then the type and the value or
    the length. *)
Definition field_line (label rest : string) : string :=
  pad43 label +:+ rest +:+ nl.

(** The first two lines of a file. *)
Definition preamble : list string :=
  ["water" +:+ nl; "SP        RHF       STO-3G" +:+ nl].

(** The value stored under a label, when the file could be scanned. *)
Definition stored (r : result fchk_file) (label : string) : option value :=
  match r with
  | Ok fchk => data fchk !! label
  | Raise _ => None
  end.

(** A scalar that does not convert, followed by one that does. *)
Definition bad_scalar_file : list string :=
  preamble ++
  [field_line "Number of electrons" "I               ten";
   field_line "Number of basis functions" "I                7"].

(** An array with a word that does not convert. *)
Definition bad_array_file : list string :=
  preamble ++
  [field_line "Atomic numbers" "I   N=           3";
   "           8         one           1" +:+ nl].

(** An array of two elements whose line carries a third number. *)
Definition extra_number_file : list string :=
  preamble ++
  [field_line "Atomic numbers" "I   N=           2";
   "           8           1           1" +:+ nl].

(** An array of two elements whose line carries a third word that is no
    number. *)
Definition extra_word_file : list string :=
  preamble ++
  [field_line "Atomic numbers" "I   N=           2";
   "           8           1           x" +:+ nl].

(** A file in which the array of a field that is not asked for has the
    continuation line ["           8"], and which has a field labelled ["8"];
    and the same file with another element in the array. *)
Definition collision_file : list string :=
  preamble ++
  [field_line "Atomic numbers" "I   N=           1";
   "           8" +:+ nl;
   field_line "8" "I                5"].

Definition no_collision_file : list string :=
  preamble ++
  [field_line "Atomic numbers" "I   N=           1";
   "           9" +:+ nl;
   field_line "8" "I                5"].

(** ** A store with a ghost atom

    An oxygen, a ghost atom and a hydrogen, each with one S shell. *)

Definition ghost_fields : gmap string value :=
  list_to_map
    [("Atomic numbers", VIntArr [8; 1; 1]);
     ("Current cartesian coordinates",
      VFloatArr [0; 0; 0; 0; 0; 1.5; 0; 0; -1.75]%float);
     ("Nuclear charges", VFloatArr [8; 0; 1]%float);
     ("Shell types", VIntArr [0; 0; 0]);
     ("Shell to atom map", VIntArr [1; 2; 3]);
     ("Number of primitives per shell", VIntArr [1; 1; 1]);
     ("Primitive exponents", VFloatArr [7.5; 0.5; 0.5]%float);
     ("Contraction coefficients", VFloatArr [1; 1; 1]%float);
     ("Number of basis functions", VInt 3);
     ("Number of alpha electrons", VInt 5);
     ("Number of beta electrons", VInt 5);
     ("Alpha MO coefficients", VFloatArr [1; 0; 0; 0; 1; 0; 0; 0; 1]%float);
     ("Alpha Orbital Energies", VFloatArr [-20.5; -1.25; 0.5]%float);
     ("Total Energy", VFloat (-75.25)%float);
     ("Mulliken Charges", VFloatArr [-0.75; 0.25; -0.5]%float)].

Definition ghost_file : fchk_file :=
  mk_fchk "OH- with a ghost atom" "SP" "RHF" None ghost_fields.

(** What [load] returns for it. *)
Definition ghost_result : gmap string rvalue :=
  match load_fields (Ok false) ghost_file with
  | Ok res => res
  | Raise _ => ∅
  end.

(** [load] returned a result. *)
Definition is_Ok {A : Type} (r : result A) : bool :=
  match r with
  | Ok _ => true
  | Raise _ => false
  end.

(** The shells of [rohf_fields] and a header line with its continuation. *)
Definition example_shells : list raw_shell :=
  [mk_raw 0 0 2; mk_raw (-1) 0 2; mk_raw (-1) 0 1].

Definition example_exponents : list float := [130.5; 23.5; 5.5; 1.25; 0.25]%float.
Definition example_coeffs1 : list float := [0.125; 0.5; -0.125; 0.75; 1]%float.
Definition example_coeffs2 : list float := [0; 0; 0.25; 0.5; 1]%float.

Definition example_matrix : list (list float) := [[1; 2]; [2; 3]]%float.

Definition atomic_numbers_header : string :=
  field_line "Atomic numbers" "I   N=           2".

(** The scan keeps the store and the remaining filter within the labels [s0]. *)
Definition within (s0 : gset string) (labels : option (gset string))
    (self : gmap string value) : Prop :=
  exists s, labels = Some s /\ s ⊆ s0 /\ dom self ⊆ s0.


(** An array of three integers on two continuation lines. *)
Definition three_numbers_header : string :=
  field_line "Atomic numbers" "I   N=           3".

Definition three_numbers_file : list string :=
  preamble ++ [three_numbers_header; "           8           1" +:+ nl;
               "           1" +:+ nl].

(** The file of [bad_scalar_file] as [FCHKFile] holds it. *)
Definition scanned_example : fchk_file :=
  match FCHKFile ascii_int ascii_float "water.fchk" ample_memory bad_scalar_file
          (Some ["Number of electrons"; "Number of basis functions"]) with
  | Ok fchk => fchk
  | Raise _ => mk_fchk "" "" "" None ∅
  end.


(** ** More notions for [load] *)




(** The store of [ghost_file] with beta orbitals of its own. *)
Definition uhf_file : fchk_file :=
  mk_fchk "OH with a ghost atom" "SP" "UHF" None
    (<["Beta Orbital Energies" := VFloatArr [-20.25; -1.5; 0.75]%float]>
    (<["Beta MO coefficients" := VFloatArr [0; 1; 0; 1; 0; 0; 0; 0; 1]%float]>
    (<["Number of beta electrons" := VInt 2]> ghost_fields))).

Definition uhf_result : gmap string rvalue :=
  match load_fields (Ok false) uhf_file with
  | Ok res => res
  | Raise _ => ∅
  end.


(* ================================================================== *)
(** * Properties *)
(* ================================================================== *)

(** ** The error monad *)

Lemma rbind_Ok {A B : Type} (c : result A) (k : A -> result B) (b : B) :
  rbind c k = Ok b -> exists a, c = Ok a /\ k a = Ok b.
Proof. destruct c as [a | e]; simpl; [eauto | discriminate]. Qed.

Ltac inv_bind H :=
  let a := fresh "x" in
  let Ha := fresh "E" in
  apply rbind_Ok in H as (a & Ha & H).

(** ** The permutation *)

Lemma length_arange n : length (arange n) = n.
Proof. unfold arange. by rewrite length_fmap, length_seq. Qed.

Lemma arange_app n k :
  arange (n + k) = arange n ++ ((fun x => x + Z.of_nat n) <$> arange k).
Proof.
  unfold arange. rewrite seq_app, fmap_app. f_equal. simpl.
  replace (seq n k) with (Nat.add n <$> seq 0 k)
    by (rewrite fmap_add_seq; f_equal; lia).
  rewrite <- !list_fmap_compose.
  apply list_fmap_ext. intros _ x _. simpl. lia.
Qed.

Lemma permutation_rules_in_table t :
  in_table t -> exists block, permutation_rules t = Some block.
Proof.
  intros Ht.
  assert (t = -9 \/ t = -8 \/ t = -7 \/ t = -6 \/ t = -5 \/ t = -4 \/ t = -3
          \/ t = -2 \/ t = 0 \/ t = 1 \/ t = 2 \/ t = 3 \/ t = 4 \/ t = 5
          \/ t = 6 \/ t = 7 \/ t = 8 \/ t = 9) as H by (unfold in_table in Ht; lia).
  repeat (destruct H as [-> | H]; [eexists; reflexivity |]).
  subst. eexists; reflexivity.
Qed.

(** Every block of the table is a rearrangement of [0 .. size-1]. *)
Lemma permutation_rules_block t block :
  permutation_rules t = Some block -> block ≡ₚ arange (length block).
Proof.
  unfold permutation_rules. intros H.
  repeat match type of H with
         | match ?z with _ => _ end = _ => destruct z
         end;
    try discriminate; injection H as <-;
    rewrite ?length_reverse, ?length_arange;
    try reflexivity; try apply reverse_Permutation.
  - refine (bool_decide_unpack _ _). by vm_compute.
  - refine (bool_decide_unpack _ _). by vm_compute.
Qed.

Lemma extend_permutation_spec types : forall acc,
  Forall in_table types ->
  acc ≡ₚ arange (length acc) ->
  exists perm,
    extend_permutation acc types = Ok perm /\
    length perm = (length acc + sum_list (block_size <$> types))%nat /\
    perm ≡ₚ arange (length perm).
Proof.
  induction types as [| t types IH]; intros acc Hdom Hacc; simpl.
  - exists acc. split; [done |]. split; [lia | done].
  - apply Forall_cons in Hdom as [Ht Hdom].
    destruct (permutation_rules_in_table t Ht) as [block Hb].
    unfold block_size at 1. rewrite Hb.
    destruct (IH (acc ++ ((fun x => x + Z.of_nat (length acc)) <$> block)) Hdom)
      as (perm & Hrun & Hlen & Hperm).
    + rewrite length_app, length_fmap, arange_app.
      apply Permutation_app; [done |].
      apply fmap_Permutation. by apply permutation_rules_block in Hb.
    + exists perm. split; [done |]. split; [| done].
      rewrite Hlen, length_app, length_fmap, <- Nat.add_assoc. reflexivity.
Qed.

(** C1: for every list of shell types of the table's domain, the permutation
    that [load] builds exists, its length is the sum of the block sizes of
    the shells, and it is a rearrangement of [0 .. length-1], that is a
    bijection on [range(length)]. *)
Theorem permutation_length_bijection (my_shell_types : list Z) :
  Forall in_table my_shell_types ->
  exists permutation,
    build_permutation my_shell_types = Ok permutation /\
    length permutation = sum_list (block_size <$> my_shell_types) /\
    permutation ≡ₚ arange (length permutation).
Proof.
  intros Hdom.
  destruct (extend_permutation_spec my_shell_types [] Hdom) as (p & H1 & H2 & H3);
    [done |].
  exists p. split; [done |]. split; [| done]. by rewrite H2.
Qed.

(** ** Triangular expansion *)

Section Triangle.
Local Open Scope nat_scope.

Lemma fmap_seq_ext {A} (f g : nat -> A) (s n : nat) :
(forall i, s <= i < s + n -> f i = g i) -> f <$> seq s n = g <$> seq s n.
Proof.
intros H. apply list_eq. intros i. rewrite !list_lookup_fmap.
destruct (decide (i < n)) as [Hi | Hi].
- rewrite lookup_seq_lt by done. simpl. f_equal. apply H. lia.
- by rewrite lookup_seq_ge by lia.
Qed.

Lemma fmap_nth_seq {A} (l : list A) (d : A) :
(fun i => nth i l d) <$> seq 0 (length l) = l.
Proof.
apply list_eq. intros i. rewrite list_lookup_fmap.
destruct (decide (i < length l)) as [Hi | Hi].
- rewrite lookup_seq_lt by done. simpl.
  destruct (lookup_lt_is_Some_2 l i Hi) as [x Hx].
  by rewrite (nth_lookup_Some _ _ _ _ Hx).
- rewrite lookup_seq_ge by lia. simpl. symmetry. apply lookup_ge_None. lia.
Qed.

Lemma fmap_seq_split {A} (f : nat -> A) (k n : nat) :
k <= n -> f <$> seq 0 n = (f <$> seq 0 k) ++ (f <$> seq k (n - k)).
Proof.
intros Hk. replace n with (k + (n - k)) at 1 by lia.
by rewrite seq_app, fmap_app.
Qed.

Lemma drop_fmap_seq {A} (f : nat -> A) (k n : nat) :
k <= n -> drop k (f <$> seq 0 n) = f <$> seq k (n - k).
Proof.
intros Hk. rewrite (fmap_seq_split f k n Hk).
apply drop_app_length'. by rewrite length_fmap, length_seq.
Qed.

Lemma tabulate_ext n g h :
(forall i j, i < n -> j < n -> g i j = h i j) -> tabulate n g = tabulate n h.
Proof.
intros H. unfold tabulate. apply fmap_seq_ext. intros i Hi.
apply fmap_seq_ext. intros j Hj. apply H; lia.
Qed.

Lemma square_tabulate n M : square n M -> M = tabulate n (entry M).
Proof.
intros [Hlen Hrows]. unfold tabulate. subst n.
rewrite <- (fmap_nth_seq M []) at 1.
apply fmap_seq_ext. intros i Hi.
assert (length (nth i M []) = length M) as Hr.
{ destruct (lookup_lt_is_Some_2 M i) as [row Hrow]; [lia |].
  rewrite (nth_lookup_Some _ _ _ _ Hrow).
  by apply (Forall_lookup_1 _ _ _ _ Hrows Hrow). }
rewrite <- Hr. symmetry. apply (fmap_nth_seq (nth i M []) 0%float).
Qed.

Lemma zeros2_tabulate n : zeros2 n = tabulate n (fun _ _ => 0%float).
Proof.
unfold zeros2, tabulate.
assert (forall B (x : B) (s k : nat), (fun _ : nat => x) <$> seq s k = repeat x k) as H.
{ intros B x s k. revert s. induction k; intros s; simpl; [done | by rewrite IHk]. }
by rewrite !H.
Qed.

Lemma tabulate_lookup n g i :
i < n -> tabulate n g !! i = Some (g i <$> seq 0 n).
Proof.
intros Hi. unfold tabulate. by rewrite list_lookup_fmap, lookup_seq_lt.
Qed.

Lemma length_tabulate n g : length (tabulate n g) = n.
Proof. unfold tabulate. by rewrite length_fmap, length_seq. Qed.

Lemma set_row_prefix_tabulate n g i vals :
i < n -> length vals <= n ->
set_row_prefix (tabulate n g) i vals =
tabulate n (fun a b => if decide (a = i /\ b < length vals)
                       then nth b vals 0%float else g a b).
Proof.
intros Hi Hv. unfold set_row_prefix. apply list_eq. intros a.
destruct (decide (a < n)) as [Ha | Ha].
2:{ rewrite (proj2 (lookup_ge_None _ _))
      by (rewrite length_alter, length_tabulate; lia).
    symmetry. apply lookup_ge_None. rewrite length_tabulate. lia. }
rewrite list_lookup_alter, !tabulate_lookup by done.
destruct (decide (i = a)) as [-> | Hne]; simpl.
- f_equal.
  rewrite (drop_fmap_seq _ (length vals) n) by done.
  rewrite (fmap_seq_split _ (length vals) n) by done.
  f_equal.
  + rewrite <- (fmap_nth_seq vals 0%float) at 1.
    apply fmap_seq_ext. intros b Hb. rewrite decide_True; [done | lia].
  + apply fmap_seq_ext. intros b Hb. rewrite decide_False; [done | lia].
- f_equal. apply fmap_seq_ext. intros b Hb. rewrite decide_False; [done | lia].
Qed.

Lemma set_col_prefix_tabulate n g c vals :
c < n ->
set_col_prefix (tabulate n g) c vals =
tabulate n (fun a b => if decide (b = c /\ a < length vals)
                       then nth a vals 0%float else g a b).
Proof.
intros Hc. unfold set_col_prefix. apply list_eq. intros a.
rewrite list_lookup_imap.
destruct (decide (a < n)) as [Ha | Ha].
2:{ assert (forall h, tabulate n h !! a = None) as Hnone
      by (intros h; apply lookup_ge_None; rewrite length_tabulate; lia).
    by rewrite !Hnone. }
rewrite !tabulate_lookup by done. simpl. f_equal.
destruct (vals !! a) as [v |] eqn:Hv.
- apply lookup_lt_Some in Hv as Hlt.
  apply list_eq. intros b.
  destruct (decide (b < n)) as [Hb | Hb].
  2:{ rewrite (proj2 (lookup_ge_None _ _))
        by (rewrite length_insert, length_fmap, length_seq; lia).
      symmetry. apply lookup_ge_None. rewrite length_fmap, length_seq. lia. }
  rewrite list_lookup_fmap, lookup_seq_lt by done. simpl.
  destruct (decide (b = c)) as [-> | Hne].
  + rewrite list_lookup_insert_eq by (rewrite length_fmap, length_seq; lia).
    rewrite decide_True by lia. by rewrite (nth_lookup_Some _ _ _ _ Hv).
  + rewrite list_lookup_insert_ne by done.
    rewrite list_lookup_fmap, lookup_seq_lt by done. simpl.
    rewrite decide_False; [done | lia].
- apply lookup_ge_None in Hv.
  apply fmap_seq_ext. intros b Hb. rewrite decide_False; [done | lia].
Qed.

Lemma tri_double k : 2 * tri k = k * (k + 1).
Proof. induction k; simpl; lia. Qed.

Lemma triangle_nrow_tri n : triangle_nrow (tri n) = n.
Proof.
unfold triangle_nrow.
replace (1 + 8 * Z.of_nat (tri n))%Z
  with ((2 * Z.of_nat n + 1) * (2 * Z.of_nat n + 1))%Z
  by (pose proof (tri_double n); nia).
rewrite Z.sqrt_square by lia.
replace (2 * Z.of_nat n + 1)%Z with (1 + Z.of_nat n * 2)%Z by lia.
rewrite Z.div_add by lia. change (1 / 2)%Z with 0%Z. lia.
Qed.

(** The row count is the integer nearest to [(sqrt(1 + 8 len) - 1) / 2]:
[sqrt(1 + 8 len)] lies strictly between [2 k] and [2 k + 2]. *)
Lemma triangle_nrow_nearest len :
let k := Z.of_nat (triangle_nrow len) in
(2 * k * (2 * k) < 1 + 8 * Z.of_nat len < (2 * k + 2) * (2 * k + 2))%Z.
Proof.
unfold triangle_nrow. set (N := (1 + 8 * Z.of_nat len)%Z).
assert (0 <= N)%Z as HN by lia.
pose proof (Z.sqrt_spec N HN) as Hs. pose proof (Z.sqrt_nonneg N) as Hs0.
set (s := Z.sqrt N) in *. cbv zeta.
rewrite Z2Nat.id by (apply Z.div_pos; lia).
pose proof (Z.div_mod s 2 ltac:(lia)) as Hd.
pose proof (Z.mod_pos_bound s 2 ltac:(lia)) as Hm.
set (k := (s / 2)%Z) in *.
assert (2 * k * (2 * k) <> N)%Z as Hodd by (unfold N; lia).
unfold Z.succ in Hs. nia.
Qed.

Lemma pack_lower_snoc M row :
pack_lower (M ++ [row]) = pack_lower M ++ take (S (length M)) row.
Proof.
unfold pack_lower. rewrite imap_app, join_app. simpl.
by rewrite app_nil_r, Nat.add_0_r.
Qed.

Lemma length_pack_lower n M :
length M <= n -> Forall (fun row => length row = n) M ->
length (pack_lower M) = tri (length M).
Proof.
induction M as [| row M IH] using rev_ind; intros Hlen Hrows; [done |].
rewrite length_app in Hlen. simpl in Hlen.
apply Forall_app in Hrows as [HM Hrow]. rewrite Forall_singleton in Hrow.
rewrite pack_lower_snoc, !length_app, length_take, IH by (done || lia).
rewrite Hrow, Nat.min_l by lia. cbn [length].
replace (length M + 1) with (S (length M)) by lia. simpl. lia.
Qed.

Lemma pack_lower_slice n M k row :
square n M -> M !! k = Some row ->
take (S k) (drop (tri k) (pack_lower M)) = take (S k) row.
Proof.
intros [Hlen Hrows] Hrow.
apply lookup_lt_Some in Hrow as Hk.
assert (length row = n) as Hr by apply (Forall_lookup_1 _ _ _ _ Hrows Hrow).
rewrite <- (take_drop_middle M k row Hrow) at 1.
rewrite cons_middle, app_assoc. unfold pack_lower at 1.
rewrite imap_app, join_app. fold (pack_lower (take k M ++ [row])).
rewrite pack_lower_snoc, length_take, Nat.min_l by lia.
rewrite <- app_assoc.
rewrite drop_app_length'.
- apply take_app_length'. rewrite length_take. lia.
- rewrite (length_pack_lower n).
  + by rewrite length_take, Nat.min_l by lia.
  + rewrite length_take. lia.
  + by apply Forall_take.
Qed.

Lemma expand_rows_block n M m : forall k,
k + m = n -> square n M -> symmetric M ->
expand_rows (pack_lower M) (seq k m) (tri k) (tabulate n (block M k)) = Ok M.
Proof.
induction m as [| m IH]; intros k Hk Hsq Hsym.
- simpl. f_equal. rewrite (square_tabulate n M Hsq) at 2.
  apply tabulate_ext. intros a b Ha Hb. unfold block.
  rewrite decide_True; [done | lia].
- destruct Hsq as [Hlen Hrows].
  assert (k < length M) as Hlt by lia.
  destruct (lookup_lt_is_Some_2 M k Hlt) as [row Hrow].
  assert (length row = n) as Hr by apply (Forall_lookup_1 _ _ _ _ Hrows Hrow).
  cbn [seq expand_rows].
  replace (tri k + k + 1 - tri k) with (S k) by lia.
  rewrite (pack_lower_slice n M k row) by done.
  unfold broadcast. rewrite decide_True by (rewrite length_take; lia).
  cbn [rbind].
  rewrite set_row_prefix_tabulate by (rewrite ?length_take; lia).
  rewrite set_col_prefix_tabulate by lia.
  replace (tri k + k + 1) with (tri (S k)) by (simpl; lia).
  rewrite <- (IH (S k)) by (done || lia).
  f_equal. apply tabulate_ext. intros a b Ha Hb.
  rewrite length_take, Nat.min_l by lia.
  assert (forall c, c < S k -> nth c (take (S k) row) 0%float = entry M k c) as Hval.
  { intros c Hc. unfold entry. rewrite (nth_lookup_Some M k [] row Hrow).
    rewrite !nth_lookup, lookup_take_lt by lia. done. }
  unfold block.
  repeat case_decide; try (rewrite Hval by lia); try done; try lia.
  + replace b with k by lia. apply Hsym.
  + replace a with k by lia. done.
Qed.

(** C2: packing the lower triangle of a symmetric [n] x [n] matrix in
  row-major order and expanding it with [_triangle_to_dense], which derives
  [n] from the length of the packed array, gives the matrix back. *)
Theorem triangle_roundtrip (n : nat) (M : list (list float)) :
square n M -> symmetric M ->
_triangle_to_dense (pack_lower M) = Ok M.
Proof.
intros Hsq Hsym. unfold _triangle_to_dense.
rewrite (length_pack_lower n M) by (destruct Hsq; (lia || done)).
destruct Hsq as [Hlen Hrows]. rewrite Hlen, triangle_nrow_tri.
rewrite zeros2_tabulate.
rewrite <- (expand_rows_block n M n 0) by done.
f_equal.
Qed.

End Triangle.

(** ** SP shells *)

Lemma wrap64_small n : - 2 ^ 63 <= n < 2 ^ 63 -> wrap64 n = n.
Proof. intros H. unfold wrap64. rewrite Z.mod_small; lia. Qed.

Lemma py_slice_segment {A} (l : list A) (off k : nat) :
  (off + k <= length l)%nat ->
  py_slice l (Z.of_nat off) (Z.of_nat off + Z.of_nat k) = segment off k l.
Proof.
  intros H. unfold py_slice, segment, clip_index.
  rewrite !(proj2 (Z.ltb_ge _ _)) by lia.
  rewrite !Z.min_l by lia.
  f_equal; [| f_equal]; lia.
Qed.

Lemma shells_of_app s1 s2 :
  shells_of (s1 ++ s2) = append_shells (shells_of s1) (shells_of s2).
Proof. unfold shells_of, append_shells. simpl. by rewrite !fmap_app. Qed.

Lemma append_shells_assoc a b c :
  append_shells (append_shells a b) c = append_shells a (append_shells b c).
Proof. unfold append_shells. simpl. by rewrite <- !app_assoc. Qed.

Lemma total_prims_nonneg raw :
  Forall (fun r => 0 <= raw_nprim r) raw -> 0 <= total_prims raw.
Proof. induction 1; simpl; lia. Qed.

Section ShellLoop.

Variable raw : list raw_shell.
Variable exps coeffs1 : list float.
Variable coeffs2 : option (list float).

Lemma shell_loop_spec rest : forall i off acc,
  drop i raw = rest ->
  Forall (fun r => 0 <= raw_nprim r) rest ->
  Z.of_nat off + total_prims rest <= Z.of_nat (length exps) ->
  Z.of_nat off + total_prims rest <= Z.of_nat (length coeffs1) ->
  Z.of_nat off + total_prims rest < 2 ^ 63 ->
  (forall c2, coeffs2 = Some c2 ->
              Z.of_nat off + total_prims rest <= Z.of_nat (length c2)) ->
  (Exists (fun r => raw_type r = -1) rest -> is_Some coeffs2) ->
  shell_loop (VIntArr (raw_type <$> raw)) (VIntArr (raw_atom <$> raw))
    (VFloatArr exps) (VFloatArr coeffs1) (VFloatArr <$> coeffs2)
    i (NInt <$> (raw_nprim <$> rest)) (Z.of_nat off) acc
  = Ok (Z.of_nat off + total_prims rest,
        append_shells acc (shells_of (spec_basis exps coeffs1 coeffs2 off rest))).
Proof.
  induction rest as [| r rest IH]; intros i off acc Hdrop Hpos He H1 Hb H2 Hsp.
  - simpl. do 2 f_equal; [lia |].
    destruct acc. unfold append_shells, shells_of. simpl. by rewrite !app_nil_r.
  - apply Forall_cons in Hpos as [Hr Hpos].
    pose proof (total_prims_nonneg rest Hpos) as Hnn.
    simpl in He, H1, Hb, H2.
    assert (raw !! i = Some r) as Hi.
    { rewrite <- (Nat.add_0_r i), <- lookup_drop, Hdrop. done. }
    assert (drop (S i) raw = rest) as Hdrop'.
    { replace (S i) with (i + 1)%nat by lia. by rewrite <- drop_drop, Hdrop. }
    set (k := Z.to_nat (raw_nprim r)).
    assert (raw_nprim r = Z.of_nat k) as Hk by lia.
    cbn [fmap list_fmap shell_loop]. unfold shell_step.
    unfold subscript. rewrite !list_lookup_fmap, Hi.
    cbn [fmap option_fmap option_map rbind num_is slice_stop slice].
    rewrite !(wrap64_small (Z.of_nat off + raw_nprim r)) by lia.
    replace (Z.of_nat off + raw_nprim r) with (Z.of_nat off + Z.of_nat k) by lia.
    rewrite !py_slice_segment by lia.
    specialize (IH (S i) (off + k)%nat).
    cbn [spec_basis total_prims foldr]. fold (total_prims rest).
    rewrite shells_of_app, <- append_shells_assoc.
    replace (Z.of_nat off + (raw_nprim r + total_prims rest))
      with (Z.of_nat off + Z.of_nat k + total_prims rest) by lia.
    unfold spec_shells. fold k.
    destruct (raw_type r =? -1) eqn:Hty.
    + destruct Hsp as [c2 Hc2]; [left; lia |]. subst coeffs2.
      specialize (H2 c2 eq_refl).
      cbn [fmap option_fmap option_map slice rbind].
      rewrite py_slice_segment by lia.
      rewrite <- Nat2Z.inj_add.
      rewrite IH; try done; try lia.
      intros c2' [= <-]. lia.
    + cbn [rbind]. rewrite <- Nat2Z.inj_add.
      rewrite IH; try done; try lia.
      * intros c2 Hc2. specialize (H2 c2 Hc2). lia.
      * intros Hex. apply Hsp. by right.
Qed.

End ShellLoop.

Lemma length_segment {A} (l : list A) (off k : nat) :
  (off + k <= length l)%nat -> length (segment off k l) = k.
Proof. intros H. unfold segment. rewrite length_take, length_drop. lia. Qed.

Lemma spec_basis_lengths exps coeffs1 coeffs2 raw : forall off,
  Forall (fun r => 0 <= raw_nprim r) raw ->
  Z.of_nat off + total_prims raw <= Z.of_nat (length exps) ->
  Z.of_nat off + total_prims raw <= Z.of_nat (length coeffs1) ->
  (forall c2, coeffs2 = Some c2 ->
              Z.of_nat off + total_prims raw <= Z.of_nat (length c2)) ->
  (Exists (fun r => raw_type r = -1) raw -> is_Some coeffs2) ->
  Forall (fun s => length (exponents s) = Z.to_nat (n_primitives s) /\
                   length (contraction_coeffs s) = Z.to_nat (n_primitives s))
    (spec_basis exps coeffs1 coeffs2 off raw).
Proof.
  induction raw as [| r raw IH]; intros off Hpos He H1 H2 Hsp; [constructor |].
  apply Forall_cons in Hpos as [Hr Hpos].
  pose proof (total_prims_nonneg raw Hpos) as Hnn.
  simpl in He, H1, H2. cbn [spec_basis].
  apply Forall_app. split.
  - unfold spec_shells. destruct (raw_type r =? -1) eqn:Hty.
    + destruct Hsp as [c2 Hc2]; [left; lia |]. subst coeffs2.
      specialize (H2 c2 eq_refl).
      repeat constructor; simpl; apply length_segment; lia.
    + repeat constructor; simpl; apply length_segment; lia.
  - apply IH; try done; try lia.
    + intros c2 Hc2. specialize (H2 c2 Hc2). lia.
    + intros Hex. apply Hsp. by right.
Qed.

(** C3: on a well-formed basis the shell loop of [load] ends with the offset
    advanced by the primitives of every shell of the file, and its five lists
    hold the shells of [spec_basis]: for an SP shell (type -1) with [k]
    primitives exactly two shells, of types 0 and 1, on the same atom and with
    the same [k] exponents, the first with its [k] coefficients from the
    contraction coefficients and the second from the P(S=P) coefficients; any
    other shell once, unchanged. *)
Theorem sp_shell_splitting (raw : list raw_shell) (exps coeffs1 : list float)
    (coeffs2 : option (list float)) :
  well_formed_basis raw exps coeffs1 coeffs2 ->
  shell_loop (VIntArr (raw_type <$> raw)) (VIntArr (raw_atom <$> raw))
    (VFloatArr exps) (VFloatArr coeffs1) (VFloatArr <$> coeffs2)
    0 (NInt <$> (raw_nprim <$> raw)) 0 no_shells
  = Ok (total_prims raw, shells_of (spec_basis exps coeffs1 coeffs2 0 raw)) /\
  Forall (fun s => length (exponents s) = Z.to_nat (n_primitives s) /\
                   length (contraction_coeffs s) = Z.to_nat (n_primitives s))
    (spec_basis exps coeffs1 coeffs2 0 raw).
Proof.
  intros (Hpos & He & H1 & Hb & H2 & Hsp). split.
  - change 0 with (Z.of_nat 0) at 1.
    rewrite (shell_loop_spec raw exps coeffs1 coeffs2 raw 0 0 no_shells); try done.
  - apply spec_basis_lengths; done.
Qed.

(** ** Ghost atoms *)

Lemma take_mask_Ok {A} (mask : list bool) (a b : list A) :
  take_mask mask a = Ok b ->
  (length mask = 0%nat \/ length mask = length a) /\ b = select mask a.
Proof. unfold take_mask. case_decide; [| discriminate]. by intros [= <-]. Qed.

Lemma filter_fmap_list {A B} (f : A -> B) (P : B -> Prop) `{!forall x, Decision (P x)}
    (l : list A) :
  filter P (f <$> l) = f <$> filter (fun x => P (f x)) l.
Proof.
  induction l as [| x l IH]; [done |].
  cbn [fmap list_fmap]. rewrite !filter_cons. fold (f <$> l). rewrite IH.
  by destruct (decide (P (f x))).
Qed.

Lemma filter_ext_in {A} (P Q : A -> Prop) `{!forall x, Decision (P x)}
    `{!forall x, Decision (Q x)} (l : list A) :
  (forall x, x ∈ l -> P x <-> Q x) -> filter P l = filter Q l.
Proof.
  induction l as [| x l IH]; intros Hiff; [done |].
  rewrite !filter_cons, IH by (intros y Hy; apply Hiff; by right).
  pose proof (Hiff x ltac:(by left)) as Hx.
  destruct (decide (P x)) as [HP | HP], (decide (Q x)) as [HQ | HQ]; tauto.
Qed.

Lemma select_gather {A} (d : A) (mask : list bool) : forall (a : list A),
  length mask = length a ->
  select mask a =
  gather d a (filter (fun i => nth i mask false = true) (seq 0 (length mask))).
Proof.
  unfold gather.
  induction mask as [| b mask IH]; intros [| x a] Hlen; try discriminate; [done |].
  injection Hlen as Hlen. cbn [select length seq].
  rewrite <- (fmap_S_seq 0), filter_cons. cbn [nth].
  rewrite filter_fmap_list.
  rewrite (IH a Hlen).
  destruct b; case_decide; try done; cbn [fmap list_fmap nth];
    by rewrite <- list_fmap_compose.
Qed.

Lemma length_ghost_mask pseudo : length (ghost_mask pseudo) = array_length pseudo.
Proof. destruct pseudo; simpl; by rewrite ?length_fmap. Qed.

(** The mask is [True] exactly at the atoms with a charge. *)
Lemma ghost_mask_real_atoms pseudo :
  filter (fun i => nth i (ghost_mask pseudo) false = true)
    (seq 0 (length (ghost_mask pseudo)))
  = real_atoms pseudo.
Proof.
  unfold real_atoms. rewrite length_ghost_mask.
  apply filter_ext_in. intros i Hi. apply elem_of_seq in Hi.
  destruct pseudo as [n | x | a | a]; simpl in Hi; try lia; simpl.
  - destruct (lookup_lt_is_Some_2 a i) as [n Hn]; [lia |].
    rewrite Hn.
    rewrite (nth_lookup_Some _ i false (negb (n =? 0)))
      by (by rewrite list_lookup_fmap, Hn).
    by destruct (n =? 0).
  - destruct (lookup_lt_is_Some_2 a i) as [x Hx]; [lia |].
    rewrite Hx.
    rewrite (nth_lookup_Some _ i false (negb (x =? 0)%float))
      by (by rewrite list_lookup_fmap, Hx).
    by destruct (x =? 0)%float.
Qed.

(** What a mask that [take_mask] accepts selects: the entries at the atoms
    with a charge. *)
Lemma select_ghost_mask {A} (d : A) (pseudo : value) (a : list A) :
  array_length pseudo = 0%nat \/ array_length pseudo = length a ->
  select (ghost_mask pseudo) a = gather d a (real_atoms pseudo).
Proof.
  intros [Hlen | Hlen].
  - unfold real_atoms. rewrite Hlen.
    rewrite <- length_ghost_mask in Hlen.
    destruct (ghost_mask pseudo); [done | discriminate].
  - rewrite (select_gather d) by (by rewrite length_ghost_mask).
    by rewrite ghost_mask_real_atoms.
Qed.

Lemma mask_array_Ok pseudo v kept :
  mask_array (ghost_mask pseudo) v = Ok kept ->
  is_array v /\
  (array_length pseudo = 0%nat \/ array_length v = array_length pseudo) /\
  kept = gather_array v (real_atoms pseudo).
Proof.
  unfold mask_array. intros Hrun.
  destruct v as [n | x | a | a]; try discriminate;
    apply rbind_Ok in Hrun as (b & Hb & Hrun); injection Hrun as <-;
    apply take_mask_Ok in Hb as [Hlen ->]; rewrite length_ghost_mask in Hlen;
    (split; [done |]); (split; [simpl; lia |]); simpl; f_equal;
    apply select_ghost_mask; lia.
Qed.

Lemma length_rows_of {A} (ncols nrows : nat) : forall (flat : list A),
  length (rows_of ncols nrows flat) = nrows.
Proof. induction nrows as [| r IH]; intros flat; simpl; [done | by rewrite IH]. Qed.

Lemma rows3_Ok {A} (flat : list A) rows :
  rows3 flat = Ok rows ->
  (length flat `mod` 3 = 0)%nat /\ rows = rows_of 3 (length flat `div` 3) flat.
Proof.
  unfold rows3. case_decide as Hmod; [| discriminate].
  intros Heq. by injection Heq as <-.
Qed.

Lemma reshape_rows3_Ok v m :
  reshape_rows3 v = Ok m ->
  is_array v /\ (array_length v `mod` 3 = 0)%nat /\ m = all_rows v /\
  row_count m = (array_length v `div` 3)%nat.
Proof.
  unfold reshape_rows3. intros Hrun.
  destruct v as [n | x | a | a]; try discriminate;
    apply rbind_Ok in Hrun as (rows & Hrows & Hrun); injection Hrun as <-;
    apply rows3_Ok in Hrows as [Hmod ->]; simpl;
    by rewrite length_rows_of.
Qed.

Lemma mask_rows_Ok pseudo m kept :
  mask_rows (ghost_mask pseudo) m = Ok kept ->
  (array_length pseudo = 0%nat \/ row_count m = array_length pseudo) /\
  kept = gather_rows m (real_atoms pseudo).
Proof.
  unfold mask_rows. intros Hrun.
  destruct m as [rows | rows];
    apply rbind_Ok in Hrun as (b & Hb & Hrun); injection Hrun as <-;
    apply take_mask_Ok in Hb as [Hlen ->]; rewrite length_ghost_mask in Hlen;
    (split; [simpl; lia |]); simpl; f_equal; apply select_ghost_mask; lia.
Qed.

(** *** The keys that each stage of [load] writes *)

Ltac other_key H :=
  repeat (rewrite lookup_insert_ne by (intros <-; done || (by vm_compute in H)));
  try done.

Lemma store_dm_other key dm res key' :
  key' <> key -> store_dm key dm res !! key' = res !! key'.
Proof. intros Hne. destruct dm; simpl; [by rewrite lookup_insert_ne | done]. Qed.

Lemma load_densities_other fields nbasis keys : forall res res' key,
  load_densities fields nbasis keys res = Ok res' ->
  String.prefix "dm_" key = false ->
  res' !! key = res !! key.
Proof.
  induction keys as [| [k l] keys IH]; intros res res' key Hrun Hkey.
  - by injection Hrun as <-.
  - cbn [load_densities] in Hrun. inv_bind Hrun. inv_bind Hrun.
    rewrite (IH _ _ _ Hrun Hkey).
    rewrite !store_dm_other; [done | |]; intros ->; discriminate.
Qed.

Lemma load_orbitals_other et fields nbasis res res' key :
  load_orbitals et fields nbasis res = Ok res' ->
  String.prefix "orb_" key = false -> key <> "dm_full_scf" ->
  res' !! key = res !! key.
Proof.
  unfold load_orbitals. intros Hrun Hkey Hne.
  apply rbind_Ok in Hrun as (nbasis_indep & _ & Hrun).
  apply rbind_Ok in Hrun as (nalpha & _ & Hrun).
  apply rbind_Ok in Hrun as (nbeta & _ & Hrun).
  apply rbind_Ok in Hrun as (none & _ & Hrun).
  destruct none; [discriminate |].
  apply rbind_Ok in Hrun as (amo & _ & Hrun).
  apply rbind_Ok in Hrun as (acoeffs & _ & Hrun).
  apply rbind_Ok in Hrun as (aenergies & _ & Hrun).
  apply rbind_Ok in Hrun as (aoccs & _ & Hrun).
  destruct (fields !! "Beta Orbital Energies").
  - apply rbind_Ok in Hrun as (bmo & _ & Hrun).
    apply rbind_Ok in Hrun as (bcoeffs & _ & Hrun).
    apply rbind_Ok in Hrun as (boccs & _ & Hrun).
    injection Hrun as <-. other_key Hkey.
  - apply rbind_Ok in Hrun as (t & _ & Hrun).
    apply rbind_Ok in Hrun as (differ & _ & Hrun).
    destruct differ.
    + apply rbind_Ok in Hrun as (bcoeffs & _ & Hrun).
      apply rbind_Ok in Hrun as (boccs & _ & Hrun).
      unfold dict_pop in Hrun.
      destruct (_ !! "dm_full_scf"); [| discriminate]. injection Hrun as <-.
      rewrite lookup_delete_ne by done. other_key Hkey.
    + injection Hrun as <-. other_key Hkey.
Qed.

Lemma load_properties_other fields res res' key :
  load_properties fields res = Ok res' ->
  key ∉ ["energy"; "polar"; "dipole_moment"; "quadrupole_moment"] ->
  res' !! key = res !! key.
Proof.
  unfold load_properties. intros Hrun Hkey.
  rewrite !not_elem_of_cons in Hkey. destruct Hkey as (H1 & H2 & H3 & H4 & _).
  apply rbind_Ok in Hrun as (energy & He & Hrun).
  apply rbind_Ok in Hrun as (res1 & Hpolar & Hrun).
  assert (res1 !! key = res !! key) as Hres1.
  { destruct (fields !! "Polarizability").
    - repeat inv_bind Hpolar. injection Hpolar as <-. by rewrite !lookup_insert_ne.
    - injection Hpolar as <-. by rewrite lookup_insert_ne. }
  rewrite <- Hres1.
  destruct (fields !! "Quadrupole Moment").
  - repeat inv_bind Hrun. injection Hrun as <-.
    rewrite lookup_insert_ne by done.
    destruct (fields !! "Dipole Moment"); [by rewrite lookup_insert_ne | done].
  - injection Hrun as <-.
    destruct (fields !! "Dipole Moment"); [by rewrite lookup_insert_ne | done].
Qed.

Lemma load_charges_other fields mask label key res res' key' :
  load_charges fields mask label key res = Ok res' ->
  key' <> key -> res' !! key' = res !! key'.
Proof.
  unfold load_charges. intros Hrun Hne.
  destruct (fields !! label).
  - repeat inv_bind Hrun. injection Hrun as <-. by rewrite lookup_insert_ne.
  - by injection Hrun as <-.
Qed.

Lemma load_charges_key fields pseudo label key res res' :
  load_charges fields (ghost_mask pseudo) label key res = Ok res' ->
  match fields !! label with
  | Some q =>
      is_array q /\
      (array_length pseudo = 0%nat \/ array_length q = array_length pseudo) /\
      res' !! key = Some (RVal (gather_array q (real_atoms pseudo)))
  | None => res' !! key = res !! key
  end.
Proof.
  unfold load_charges. intros Hrun.
  destruct (fields !! label) as [v |].
  - apply rbind_Ok in Hrun as (kept & Hkept & Hrun). injection Hrun as <-.
    apply mask_array_Ok in Hkept as (Harr & Hlen & ->).
    split; [done |]. split; [done |]. by rewrite lookup_insert_eq.
  - by injection Hrun as <-.
Qed.

Lemma stages_other et fields nbasis res0 res1 res2 res3 key :
  load_densities fields nbasis dm_keys res0 = Ok res1 ->
  load_orbitals et fields nbasis res1 = Ok res2 ->
  load_properties fields res2 = Ok res3 ->
  untouched_key key = true ->
  res3 !! key = res0 !! key.
Proof.
  intros H1 H2 H3 Hkey. unfold untouched_key in Hkey.
  apply andb_prop in Hkey as [Hkey Hprop]. apply andb_prop in Hkey as [Hdm Horb].
  apply negb_true_iff in Hdm, Horb. apply bool_decide_eq_true in Hprop.
  rewrite (load_properties_other _ _ _ _ H3 Hprop).
  rewrite (load_orbitals_other _ _ _ _ _ _ H2 Horb)
    by (intros ->; discriminate).
  by rewrite (load_densities_other _ _ _ _ _ _ H1 Hdm).
Qed.

(** *** What a run of [load] that returns has done *)

Lemma getitem_Ok fields label v :
  getitem fields label = Ok v -> fields !! label = Some v.
Proof. unfold getitem. destruct (fields !! label); [by intros [= ->] | discriminate]. Qed.

Lemma load_fields_run et fchk res :
  load_fields et fchk = Ok res -> load_run et fchk res.
Proof.
  unfold load_fields. intros Hrun.
  apply rbind_Ok in Hrun as (numbers & Hnumbers & Hrun).
  apply rbind_Ok in Hrun as (flat & Hflat & Hrun).
  apply rbind_Ok in Hrun as (coordinates & Hcoords & Hrun).
  apply rbind_Ok in Hrun as (pseudo & Hpseudo & Hrun).
  apply getitem_Ok in Hnumbers, Hflat, Hpseudo.
  assert (is_array pseudo /\
          let mask := ghost_mask pseudo in
          (let* numbers := mask_array mask numbers in
           let* system_coordinates := mask_rows mask coordinates in
           let* pseudo_numbers := mask_array mask pseudo in
           let* shell_types := getitem (data fchk) "Shell types" in
           let* shell_map := getitem (data fchk) "Shell to atom map" in
           let shell_map := minus_one shell_map in
           let* nprims := getitem (data fchk) "Number of primitives per shell" in
           let* alphas := getitem (data fchk) "Primitive exponents" in
           let* ccoeffs_level1 := getitem (data fchk) "Contraction coefficients" in
           let ccoeffs_level2 := data fchk !! "P(S=P) Contraction coefficients" in
           let* nprims := elements nprims in
           let* (_, shells) :=
             shell_loop shell_types shell_map alphas ccoeffs_level1 ccoeffs_level2
               0 nprims 0 no_shells in
           let my_shell_types := np_array (my_shell_types shells) in
           let my_shell_map := np_array (my_shell_map shells) in
           let my_nprims := np_array (my_nprims shells) in
           let* my_alphas := concatenate (my_alphas shells) in
           let* con_coeffs := concatenate (my_con_coeffs shells) in
           let obasis := mk_obasis coordinates my_shell_map my_nprims my_shell_types
                           my_alphas con_coeffs in
           let* permutation := shell_permutation my_shell_types in
           let res := first_result (title fchk) system_coordinates numbers obasis
                        permutation pseudo_numbers in
           let nbasis := data fchk !! "Number of basis functions" in
           let* res := load_densities (data fchk) nbasis dm_keys res in
           let* res := load_orbitals et (data fchk) nbasis res in
           let* res := load_properties (data fchk) res in
           let* res := load_charges (data fchk) mask "Mulliken Charges"
                         "mulliken_charges" res in
           let* res := load_charges (data fchk) mask "ESP Charges" "esp_charges" res in
           load_charges (data fchk) mask "NPA Charges" "npa_charges" res) = Ok res)
    as [Harr Hrest].
  { destruct pseudo; try discriminate; (split; [done | exact Hrun]). }
  clear Hrun. cbv zeta in Hrest.
  apply rbind_Ok in Hrest as (numbers' & Hnum' & Hrun).
  apply rbind_Ok in Hrun as (coords' & Hcoords' & Hrun).
  apply rbind_Ok in Hrun as (pseudo' & Hpseudo' & Hrun).
  apply rbind_Ok in Hrun as (stypes & Hstypes & Hrun).
  apply rbind_Ok in Hrun as (smap & Hsmap & Hrun).
  apply rbind_Ok in Hrun as (nprims & Hnprims & Hrun).
  apply rbind_Ok in Hrun as (exps & Hexps & Hrun).
  apply rbind_Ok in Hrun as (c1 & Hc1 & Hrun).
  apply rbind_Ok in Hrun as (items & Hitems & Hrun).
  apply rbind_Ok in Hrun as ([counter shells] & Hloop & Hrun).
  apply rbind_Ok in Hrun as (cat1 & Hcat1 & Hrun).
  apply rbind_Ok in Hrun as (cat2 & Hcat2 & Hrun).
  apply rbind_Ok in Hrun as (perm & Hperm & Hrun).
  apply rbind_Ok in Hrun as (res1 & Hdm & Hrun).
  apply rbind_Ok in Hrun as (res2 & Horb & Hrun).
  apply rbind_Ok in Hrun as (res3 & Hprop & Hrun).
  apply rbind_Ok in Hrun as (res4 & Hmul & Hrun).
  apply rbind_Ok in Hrun as (res5 & Hesp & Hnpa).
  apply getitem_Ok in Hstypes, Hsmap, Hnprims, Hexps, Hc1.
  exact (mk_run et fchk res numbers flat pseudo coordinates numbers' coords' pseudo'
           stypes smap nprims exps c1 items counter shells cat1 cat2 perm
           res1 res2 res3 res4 res5
           Hnumbers Hflat Hpseudo Hcoords Harr Hnum' Hcoords' Hpseudo'
           Hstypes Hsmap Hnprims Hexps Hc1 Hitems Hloop Hcat1 Hcat2 Hperm
           Hdm Horb Hprop Hmul Hesp Hnpa).
Qed.

(** The keys that the stages C) to F) leave as [load] first wrote them. *)
Lemma run_keeps et fields nbasis mask res0 res1 res2 res3 res4 res5 res :
  load_densities fields nbasis dm_keys res0 = Ok res1 ->
  load_orbitals et fields nbasis res1 = Ok res2 ->
  load_properties fields res2 = Ok res3 ->
  load_charges fields mask "Mulliken Charges" "mulliken_charges" res3 = Ok res4 ->
  load_charges fields mask "ESP Charges" "esp_charges" res4 = Ok res5 ->
  load_charges fields mask "NPA Charges" "npa_charges" res5 = Ok res ->
  forall key, untouched_key key = true ->
  key <> "mulliken_charges" -> key <> "esp_charges" -> key <> "npa_charges" ->
  res !! key = res0 !! key.
Proof.
  intros Hdm Horb Hprop Hmul Hesp Hnpa key Hkey Hn1 Hn2 Hn3.
  rewrite (load_charges_other _ _ _ _ _ _ key Hnpa) by done.
  rewrite (load_charges_other _ _ _ _ _ _ key Hesp) by done.
  rewrite (load_charges_other _ _ _ _ _ _ key Hmul) by done.
  exact (stages_other _ _ _ _ _ _ _ key Hdm Horb Hprop Hkey).
Qed.

(** C6: in every result of [load] the atoms whose nuclear charge equals [0.0]
    are left out of [numbers], [coordinates] and [pseudo_numbers] and of the
    Mulliken, ESP and NPA charges that the file holds: each of these arrays,
    of integers or of reals as the file has it, keeps exactly the entries at
    the indices [real_atoms], in order.  The centers of the basis are the
    coordinates of all atoms.  (numpy checks the length of the mask against
    an array only when the mask is not empty: with an array of charges
    without elements no atom has a charge and every masked array is
    empty.) *)
Theorem ghost_atoms_masked (empty_array_truth : result bool) (fchk : fchk_file)
    (res : gmap string rvalue) :
  load_fields empty_array_truth fchk = Ok res ->
  exists numbers flat pseudo,
    data fchk !! "Atomic numbers" = Some numbers /\
    data fchk !! "Current cartesian coordinates" = Some flat /\
    data fchk !! "Nuclear charges" = Some pseudo /\
    is_array numbers /\ is_array flat /\ is_array pseudo /\
    (array_length flat `mod` 3 = 0)%nat /\
    (array_length pseudo = 0%nat \/
     array_length numbers = array_length pseudo /\
     (array_length flat `div` 3)%nat = array_length pseudo) /\
    res !! "numbers" = Some (RVal (gather_array numbers (real_atoms pseudo))) /\
    res !! "coordinates"
      = Some (RRows (gather_rows (all_rows flat) (real_atoms pseudo))) /\
    res !! "pseudo_numbers" = Some (RVal (gather_array pseudo (real_atoms pseudo))) /\
    (forall label key, (label, key) ∈ charge_keys ->
       match data fchk !! label with
       | Some q =>
           is_array q /\
           (array_length pseudo = 0%nat \/ array_length q = array_length pseudo) /\
           res !! key = Some (RVal (gather_array q (real_atoms pseudo)))
       | None => res !! key = None
       end) /\
    exists b, res !! "obasis" = Some (RBasis b) /\
              centers b = all_rows flat /\
              row_count (centers b) = (array_length flat `div` 3)%nat.
Proof.
  intros Hrun. apply load_fields_run in Hrun.
  destruct Hrun as [numbers flat pseudo coordinates numbers' coords' pseudo'
    stypes smap nprims exps c1 items counter shells cat1 cat2 perm
    res1 res2 res3 res4 res5
    Hnumbers Hflat Hpseudo Hcoords Harr Hnum' Hcoords' Hpseudo'
    Hstypes Hsmap Hnprims Hexps Hc1 Hitems Hloop Hcat1 Hcat2 Hperm
    Hdm Horb Hprop Hmul Hesp Hnpa].
  apply reshape_rows3_Ok in Hcoords as (Hflat_arr & Hmod & -> & Hrows).
  apply mask_array_Ok in Hnum' as (Hnum_arr & Hnum_len & ->).
  apply mask_rows_Ok in Hcoords' as (Hrows_len & ->).
  apply mask_array_Ok in Hpseudo' as (_ & _ & ->).
  match type of Hdm with
  | load_densities _ _ _ ?r = _ => set (res0 := r) in *
  end.
  pose proof (run_keeps _ _ _ _ _ _ _ _ _ _ _ Hdm Horb Hprop Hmul Hesp Hnpa) as Hkeep.
  exists numbers, flat, pseudo.
  do 7 (split; [done |]).
  split; [rewrite Hrows in Hrows_len; lia |].
  split; [| split; [| split; [| split]]].
  - rewrite Hkeep by done. unfold res0, first_result.
    rewrite !lookup_insert_ne by done. by rewrite lookup_insert_eq.
  - rewrite Hkeep by done. unfold res0, first_result.
    rewrite !lookup_insert_ne by done. by rewrite lookup_insert_eq.
  - rewrite Hkeep by done. unfold res0, first_result.
    by rewrite lookup_insert_eq.
  - intros label key Hin.
    assert ((label = "Mulliken Charges" /\ key = "mulliken_charges") \/
            (label = "ESP Charges" /\ key = "esp_charges") \/
            (label = "NPA Charges" /\ key = "npa_charges")) as Hcases.
    { unfold charge_keys in Hin. rewrite !elem_of_cons, elem_of_nil in Hin.
      destruct Hin as [Heq | [Heq | [Heq | []]]]; injection Heq as -> ->; auto. }
    apply load_charges_key in Hmul as Hmul', Hesp as Hesp', Hnpa as Hnpa'.
    assert (res3 !! key = None) as Hnone.
    { rewrite (stages_other _ _ _ _ _ _ _ key Hdm Horb Hprop)
        by (destruct Hcases as [[_ ->] | [[_ ->] | [_ ->]]]; done).
      destruct Hcases as [[_ ->] | [[_ ->] | [_ ->]]]; done. }
    destruct Hcases as [[-> ->] | [[-> ->] | [-> ->]]].
    + rewrite (load_charges_other _ _ _ _ _ _ _ Hnpa) by done.
      rewrite (load_charges_other _ _ _ _ _ _ _ Hesp) by done.
      destruct (data fchk !! "Mulliken Charges"); [done | congruence].
    + rewrite (load_charges_other _ _ _ _ _ _ _ Hnpa) by done.
      destruct (data fchk !! "ESP Charges"); [done |].
      rewrite Hesp'. by rewrite (load_charges_other _ _ _ _ _ _ _ Hmul).
    + destruct (data fchk !! "NPA Charges"); [done |].
      rewrite Hnpa'. rewrite (load_charges_other _ _ _ _ _ _ _ Hesp) by done.
      by rewrite (load_charges_other _ _ _ _ _ _ _ Hmul).
  - eexists. split.
    + rewrite Hkeep by done. unfold res0, first_result.
      rewrite !lookup_insert_ne by done. by rewrite lookup_insert_eq.
    + simpl. split; done.
Qed.

(** ** The wavefunction *)

(** Counterexample to C5 as stated: with both fields in the store, the
    correctly spelled one holding 4 and the misspelled one 3, the number of
    independent functions is 3, whatever numpy makes of an empty array. *)
Lemma both_spellings_misspelled_wins :
  both_spellings !! "Number of independent functions" = Some (VInt 4) /\
  independent_functions (Ok false) both_spellings (Some (VInt 5)) = Ok (Some (VInt 3)) /\
  independent_functions (Raise ValueError) both_spellings (Some (VInt 5))
  = Ok (Some (VInt 3)).
Proof. repeat split; vm_compute; reflexivity. Qed.

(** C5, amended: the number of independent functions is the value of the
    misspelled field "Number of independant functions" when that field is
    present and not zero (more generally, when Python takes its value as
    true); when the misspelled field is absent it is the value of
    "Number of independent functions" if that one is present, and the number
    of basis functions if it is absent too. *)
Theorem independent_functions_order (empty_array_truth : result bool)
    (fields : gmap string value) (nbasis : option value) :
  (forall n, fields !! "Number of independant functions" = Some (VInt n) -> n <> 0 ->
             independent_functions empty_array_truth fields nbasis = Ok (Some (VInt n))) /\
  (forall v, fields !! "Number of independant functions" = Some v ->
             py_bool empty_array_truth (truthy (Some v)) = Ok true ->
             independent_functions empty_array_truth fields nbasis = Ok (Some v)) /\
  (forall v, fields !! "Number of independant functions" = None ->
             fields !! "Number of independent functions" = Some v ->
             independent_functions empty_array_truth fields nbasis = Ok (Some v)) /\
  (fields !! "Number of independant functions" = None ->
   fields !! "Number of independent functions" = None ->
   independent_functions empty_array_truth fields nbasis = Ok nbasis).
Proof.
  unfold independent_functions. repeat split.
  - intros n Hn Hnz. rewrite Hn. simpl.
    apply Z.eqb_neq in Hnz. by rewrite Hnz.
  - intros v Hv Htrue. rewrite Hv, Htrue. done.
  - intros v Ha Hb. by rewrite Ha, Hb.
  - intros Ha Hb. by rewrite Ha, Hb.
Qed.

Lemma load_dm_present fields nbasis label dm :
  load_dm fields nbasis label = Ok dm -> is_Some dm <-> is_Some (fields !! label).
Proof.
  unfold load_dm. destruct (fields !! label) as [v |].
  - intros Hrun. apply rbind_Ok in Hrun as (n & _ & Hrun).
    destruct (_ || _); [discriminate |].
    destruct (n =? 0).
    + injection Hrun as <-. split; eauto.
    + apply rbind_Ok in Hrun as (tri & _ & Hrun).
      apply rbind_Ok in Hrun as (rows & _ & Hrun). injection Hrun as <-.
      split; eauto.
  - intros [= <-]. split; intros [? ?]; discriminate.
Qed.

Lemma load_densities_scf fields nbasis res0 res1 :
  load_densities fields nbasis dm_keys res0 = Ok res1 ->
  res0 !! "dm_full_scf" = None ->
  is_Some (res1 !! "dm_full_scf") <-> is_Some (fields !! "Total SCF Density").
Proof.
  unfold dm_keys. cbn [load_densities String.append]. intros Hrun Hnone.
  apply rbind_Ok in Hrun as (d1 & _ & Hrun). apply rbind_Ok in Hrun as (d2 & _ & Hrun).
  apply rbind_Ok in Hrun as (d3 & _ & Hrun). apply rbind_Ok in Hrun as (d4 & _ & Hrun).
  apply rbind_Ok in Hrun as (d5 & _ & Hrun). apply rbind_Ok in Hrun as (d6 & _ & Hrun).
  apply rbind_Ok in Hrun as (d7 & _ & Hrun). apply rbind_Ok in Hrun as (d8 & _ & Hrun).
  apply rbind_Ok in Hrun as (d9 & Hscf & Hrun). apply rbind_Ok in Hrun as (d10 & _ & Hrun).
  injection Hrun as <-.
  rewrite <- (load_dm_present _ _ _ _ Hscf).
  rewrite store_dm_other by done.
  destruct d9 as [dm |]; cbn [store_dm].
  - rewrite lookup_insert_eq. split; eauto.
  - rewrite !store_dm_other by done. rewrite Hnone. done.
Qed.

Lemma dimension_Ok v n :
  dimension v = Ok n -> v = Some (VInt n) /\ - 2 ^ 63 <= n < 2 ^ 63.
Proof.
  unfold dimension. destruct v as [[m | | |] |]; try discriminate.
  destruct (_ && _) eqn:Hrange; [| discriminate]. intros [= ->].
  apply andb_prop in Hrange as [H1 H2].
  apply Z.leb_le in H1. apply Z.ltb_lt in H2. done.
Qed.

Lemma occupations_Ok nbasis_indep nelec occs :
  occupations nbasis_indep nelec = Ok occs ->
  exists n m, nbasis_indep = Some (VInt n) /\ nelec = VInt m /\ 0 <= n < 2 ^ 60 /\
    occs = repeat 1%float (Z.to_nat (clip_index n m))
           ++ repeat 0%float (Z.to_nat n - Z.to_nat (clip_index n m)).
Proof.
  unfold occupations. intros Hrun.
  apply rbind_Ok in Hrun as (n & Hn & Hrun). apply dimension_Ok in Hn as [-> _].
  destruct (_ || _) eqn:Hrange; [discriminate |].
  apply orb_false_elim in Hrange as [H1 H2].
  apply Z.ltb_ge in H1. apply Z.leb_gt in H2.
  destruct nelec as [m | | |]; try discriminate. injection Hrun as <-.
  exists n, m. done.
Qed.

(** The electron counts of a run that goes on are not negative and not
    both zero. *)
Lemma no_electrons_int et na nb :
  no_electrons et (VInt na) (VInt nb) = Ok false -> 0 <= na /\ 0 <= nb /\ 0 < na + nb.
Proof.
  unfold no_electrons. simpl.
  destruct (na <? 0) eqn:Ha; [discriminate |]. simpl.
  destruct (nb <? 0) eqn:Hb; [discriminate |]. simpl.
  intros [= Hsum]. apply Z.ltb_ge in Ha, Hb. apply Z.leb_gt in Hsum. lia.
Qed.

Lemma load_orbitals_rohf et fields nbasis res res' na nb :
  load_orbitals et fields nbasis res = Ok res' ->
  fields !! "Beta Orbital Energies" = None ->
  fields !! "Number of alpha electrons" = Some (VInt na) ->
  fields !! "Number of beta electrons" = Some (VInt nb) ->
  na <> nb ->
  exists coeffs energies n,
    res' !! "orb_alpha_coeffs" = Some (RRows coeffs) /\
    res' !! "orb_beta_coeffs" = Some (RRows coeffs) /\
    fields !! "Alpha Orbital Energies" = Some energies /\
    res' !! "orb_alpha_energies" = Some (np_copy energies) /\
    res' !! "orb_beta_energies" = Some (RVal energies) /\
    0 <= n /\ 0 <= nb /\
    res' !! "orb_beta_occs"
      = Some (RVal (VFloatArr (repeat 1%float (Z.to_nat (Z.min nb n))
                               ++ repeat 0%float (Z.to_nat n - Z.to_nat (Z.min nb n))))) /\
    res' !! "dm_full_scf" = None /\
    is_Some (res !! "dm_full_scf").
Proof.
  unfold load_orbitals. intros Hrun Hbeta Hna Hnb Hne.
  apply rbind_Ok in Hrun as (nbasis_indep & Hindep & Hrun).
  unfold getitem in Hrun. rewrite Hna, Hnb in Hrun. cbn [rbind] in Hrun.
  apply rbind_Ok in Hrun as (none & Helec & Hrun).
  destruct none; [discriminate |].
  apply no_electrons_int in Helec as (_ & Hnbpos & _).
  apply rbind_Ok in Hrun as (amo & Hamo & Hrun).
  apply rbind_Ok in Hrun as (acoeffs & Hacoeffs & Hrun).
  apply rbind_Ok in Hrun as (aenergies & Haen & Hrun).
  apply rbind_Ok in Hrun as (aoccs & Haoccs & Hrun).
  rewrite Hbeta in Hrun. cbn [value_ne rbind py_bool] in Hrun.
  replace (nb =? na) with false in Hrun by (symmetry; apply Z.eqb_neq; congruence).
  cbn [negb] in Hrun.
  apply rbind_Ok in Hrun as (bcoeffs & Hbcoeffs & Hrun).
  apply rbind_Ok in Hrun as (boccs & Hboccs & Hrun).
  unfold dict_pop in Hrun.
  destruct (_ !! "dm_full_scf") as [dm |] eqn:Hdm; [| discriminate].
  injection Hrun as <-.
  rewrite !lookup_insert_ne in Hdm by done.
  assert (bcoeffs = acoeffs) as -> by congruence.
  apply occupations_Ok in Hboccs as (n & m & _ & [= <-] & Hn & ->).
  unfold getitem in Haen.
  destruct (fields !! "Alpha Orbital Energies") as [e |] eqn:He; [| discriminate].
  injection Haen as <-.
  exists acoeffs, e, n.
  unfold clip_index. rewrite (proj2 (Z.ltb_ge nb 0)) by done.
  rewrite !lookup_delete_ne by done. rewrite lookup_delete_eq.
  repeat split; try done; try lia; try (by eauto);
    (repeat (rewrite lookup_insert_ne by done)); by rewrite lookup_insert_eq.
Qed.

(** Every result of [load] in the restricted open-shell case (no beta orbital
    energies, different electron counts): the beta coefficients and energies
    are those of alpha, the beta occupations are 1.0 on the first [nb] entries
    and 0.0 on the others, [dm_full_scf] is absent, and the file held a
    "Total SCF Density". *)
Theorem rohf_result (empty_array_truth : result bool) (fchk : fchk_file)
    (res : gmap string rvalue) (na nb : Z) :
  load_fields empty_array_truth fchk = Ok res ->
  data fchk !! "Beta Orbital Energies" = None ->
  data fchk !! "Number of alpha electrons" = Some (VInt na) ->
  data fchk !! "Number of beta electrons" = Some (VInt nb) ->
  na <> nb ->
  exists coeffs energies n,
    res !! "orb_alpha_coeffs" = Some (RRows coeffs) /\
    res !! "orb_beta_coeffs" = Some (RRows coeffs) /\
    data fchk !! "Alpha Orbital Energies" = Some energies /\
    res !! "orb_alpha_energies" = Some (np_copy energies) /\
    res !! "orb_beta_energies" = Some (RVal energies) /\
    0 <= n /\ 0 <= nb /\
    res !! "orb_beta_occs"
      = Some (RVal (VFloatArr (repeat 1%float (Z.to_nat (Z.min nb n))
                               ++ repeat 0%float (Z.to_nat n - Z.to_nat (Z.min nb n))))) /\
    res !! "dm_full_scf" = None /\
    is_Some (data fchk !! "Total SCF Density").
Proof.
  intros Hrun Hbeta Hna Hnb Hne.
  apply load_fields_run in Hrun.
  destruct Hrun as [numbers flat pseudo coordinates numbers' coords' pseudo'
    stypes smap nprims exps c1 items counter shells cat1 cat2 perm
    res1 res2 res3 res4 res5
    Hnumbers Hflat Hpseudo Hcoords Harr Hnum' Hcoords' Hpseudo'
    Hstypes Hsmap Hnprims Hexps Hc1 Hitems Hloop Hcat1 Hcat2 Hperm
    Hdm Horb Hprop Hmul Hesp Hnpa].
  destruct (load_orbitals_rohf _ _ _ _ _ _ _ Horb Hbeta Hna Hnb Hne)
    as (coeffs & energies & n & H1 & H2 & H3 & H4 & H5 & H6 & H6' & H7 & H8 & H9).
  assert (forall key, key ∉ ["energy"; "polar"; "dipole_moment"; "quadrupole_moment"] ->
            key <> "mulliken_charges" -> key <> "esp_charges" ->
            key <> "npa_charges" -> res !! key = res2 !! key) as Hkeep.
  { intros key Hk Hn1 Hn2 Hn3.
    rewrite (load_charges_other _ _ _ _ _ _ key Hnpa) by done.
    rewrite (load_charges_other _ _ _ _ _ _ key Hesp) by done.
    rewrite (load_charges_other _ _ _ _ _ _ key Hmul) by done.
    exact (load_properties_other _ _ _ key Hprop Hk). }
  assert (forall key : string,
            bool_decide (key ∉ ["energy"; "polar"; "dipole_moment"; "quadrupole_moment"])
            = true ->
            key ∉ ["energy"; "polar"; "dipole_moment"; "quadrupole_moment"]) as Hdec
    by (intros key; apply bool_decide_eq_true).
  exists coeffs, energies, n.
  rewrite !Hkeep by (done || (apply Hdec; reflexivity)).
  repeat split; try done.
  by apply (load_densities_scf _ _ _ _ Hdm).
Qed.

(** C4: in the restricted open-shell case a file without "Total SCF Density"
    gives no result at all: [result.pop('dm_full_scf')] raises [KeyError].
    ([rohf_result] shows that every result of this case has the beta entry
    and no [dm_full_scf], and comes from a file that held the density.) *)
Theorem rohf_without_density_raises (empty_array_truth : result bool) :
  load_fields empty_array_truth rohf_without_density = Raise (KeyError "dm_full_scf").
Proof. destruct empty_array_truth as [[|] | e]; vm_compute; reflexivity. Qed.

(** ** The scanner *)

Lemma tokens_cons line lines : tokens (line :: lines) = split line ++ tokens lines.
Proof. reflexivity. Qed.

Lemma tokens_app lines1 lines2 : tokens (lines1 ++ lines2) = tokens lines1 ++ tokens lines2.
Proof. unfold tokens. by rewrite fmap_app, join_app. Qed.

Section Fill.

Context {P A : Type}.
Variable parse : string -> option P.
Variable store : P -> option A.
Variable filename : string.

Lemma fill_words_ok words vals :
  Forall2 (fun w y => parse w ≫= store = Some y) words vals ->
  forall value counter,
  (counter + length words <= length value)%nat ->
  fill_words filename parse store value counter words
  = Ok (take counter value ++ vals ++ drop (counter + length words) value,
        (counter + length words)%nat).
Proof.
  induction 1 as [| w y words vals Hw Hrest IH]; intros value counter Hlen.
  - simpl. by rewrite Nat.add_0_r, take_drop.
  - cbn [length] in Hlen. cbn [fill_words].
    destruct (parse w) as [x |]; [| discriminate]. simpl in Hw. rewrite Hw.
    replace (counter <? length value)%nat with true
      by (symmetry; apply Nat.ltb_lt; lia).
    rewrite IH by (rewrite length_insert; lia).
    rewrite (take_S_r _ _ y) by (apply list_lookup_insert_eq; lia).
    rewrite take_insert_ge by lia.
    rewrite drop_insert_lt by lia.
    cbn [length]. rewrite <- app_assoc.
    replace (S counter + length words)%nat with (counter + S (length words))%nat by lia.
    done.
Qed.

Lemma fill_words_bad pre vals word post value counter :
  Forall2 (fun w y => parse w ≫= store = Some y) pre vals ->
  (counter + length pre <= length value)%nat ->
  parse word = None ->
  fill_words filename parse store value counter (pre ++ word :: post)
  = Raise (uninterpretable filename word).
Proof.
  intros Hpre. revert value counter.
  induction Hpre as [| w y pre vals Hw Hrest IH]; intros value counter Hlen Hbad.
  - cbn [app fill_words]. by rewrite Hbad.
  - cbn [length] in Hlen. cbn [app fill_words].
    destruct (parse w) as [x |]; [| discriminate]. simpl in Hw. rewrite Hw.
    replace (counter <? length value)%nat with true
      by (symmetry; apply Nat.ltb_lt; lia).
    apply IH; [rewrite length_insert; lia | done].
Qed.

Lemma fill_words_overflow pre vals word post value counter x :
  Forall2 (fun w y => parse w ≫= store = Some y) pre vals ->
  (counter + length pre < length value)%nat ->
  parse word = Some x -> store x = None ->
  fill_words filename parse store value counter (pre ++ word :: post)
  = Raise (uninterpretable filename word).
Proof.
  intros Hpre. revert value counter.
  induction Hpre as [| w y pre vals Hw Hrest IH]; intros value counter Hlen Hx Hbad.
  - cbn [app fill_words]. rewrite Hx, Hbad.
    by replace (counter <? length value)%nat with true
      by (symmetry; apply Nat.ltb_lt; simpl in Hlen; lia).
  - cbn [length] in Hlen. cbn [app fill_words].
    destruct (parse w) as [x' |]; [| discriminate]. simpl in Hw. rewrite Hw.
    replace (counter <? length value)%nat with true
      by (symmetry; apply Nat.ltb_lt; lia).
    apply IH; [rewrite length_insert; lia | done | done].
Qed.

Lemma fill_words_extra pre vals word post value counter x :
  Forall2 (fun w y => parse w ≫= store = Some y) pre vals ->
  (counter + length pre = length value)%nat ->
  parse word = Some x ->
  fill_words filename parse store value counter (pre ++ word :: post)
  = Raise IndexError.
Proof.
  intros Hpre. revert value counter.
  induction Hpre as [| w y pre vals Hw Hrest IH]; intros value counter Hlen Hword.
  - cbn [app fill_words]. rewrite Hword.
    by replace (counter <? length value)%nat with false
      by (symmetry; apply Nat.ltb_ge; simpl in Hlen; lia).
  - cbn [length] in Hlen. cbn [app fill_words].
    destruct (parse w) as [x' |]; [| discriminate]. simpl in Hw. rewrite Hw.
    replace (counter <? length value)%nat with true
      by (symmetry; apply Nat.ltb_lt; lia).
    apply IH; [rewrite length_insert; lia | done].
Qed.

(** Lines that do not complete the array are read one by one. *)
Lemma fill_lines_prefix n lines : forall vals value counter rest,
  Forall (fun line => line <> "") lines ->
  Forall2 (fun w y => parse w ≫= store = Some y) (tokens lines) vals ->
  Z.of_nat (counter + length (tokens lines)) < n ->
  n <= Z.of_nat (length value) ->
  fill_lines filename parse store n value counter (lines ++ rest)
  = fill_lines filename parse store n
      (take counter value ++ vals ++ drop (counter + length (tokens lines)) value)
      (counter + length (tokens lines)) rest.
Proof.
  induction lines as [| line lines IH]; intros vals value counter rest Hne Hvals Hlt Hn.
  - apply Forall2_nil_inv_l in Hvals as ->. change (tokens []) with (@nil string).
    cbn [length app]. by rewrite Nat.add_0_r, take_drop.
  - apply Forall_cons in Hne as [Hline Hne].
    rewrite tokens_cons in *.
    apply Forall2_app_inv_l in Hvals as (vals1 & vals2 & H1 & H2 & ->).
    rewrite length_app in Hlt |- *.
    cbn [app fill_lines].
    replace (Z.of_nat counter <? n) with true by (symmetry; apply Z.ltb_lt; lia).
    rewrite decide_False by done.
    rewrite (fill_words_ok _ _ H1) by lia. cbn [rbind].
    pose proof (Forall2_length _ _ _ H1) as Hl1.
    pose proof (Forall2_length _ _ _ H2) as Hl2.
    rewrite (IH vals2) by
      (try done; rewrite ?length_app, ?length_take, ?length_drop; lia).
    f_equal; [| lia].
    assert (length (take counter value ++ vals1)
            = counter + length (split line))%nat as Hpre
      by (rewrite length_app, length_take; lia).
    rewrite !(app_assoc (take counter value) vals1).
    rewrite (take_app_length' _ _ _ (eq_sym Hpre)).
    rewrite drop_app_ge by lia. rewrite Hpre, drop_drop.
    rewrite <- !app_assoc. do 4 f_equal. lia.
Qed.

(** The line on which a word fails: the lines before it do not complete the
    array and the words before it fit. *)
Lemma fill_lines_bad n lines bad rest pre word post vals value :
  Forall (fun line => line <> "") lines -> bad <> "" ->
  Forall2 (fun w y => parse w ≫= store = Some y) (tokens lines ++ pre) vals ->
  split bad = pre ++ word :: post ->
  Z.of_nat (length (tokens lines)) < n ->
  Z.of_nat (length (tokens lines) + length pre) <= n ->
  n <= Z.of_nat (length value) ->
  parse word = None ->
  fill_lines filename parse store n value 0 (lines ++ bad :: rest)
  = Raise (uninterpretable filename word).
Proof.
  intros Hne Hbad Hvals Hsplit Hlt Hle Hn Hword.
  apply Forall2_app_inv_l in Hvals as (vals1 & vals2 & H1 & H2 & ->).
  rewrite (fill_lines_prefix n lines vals1) by (done || (cbn [Nat.add]; lia)).
  cbn [Nat.add fill_lines].
  replace (Z.of_nat (length (tokens lines)) <? n) with true
    by (symmetry; apply Z.ltb_lt; lia).
  rewrite decide_False by done. rewrite Hsplit.
  rewrite (fill_words_bad pre vals2); [done | done | | done].
  pose proof (Forall2_length _ _ _ H1).
  rewrite !length_app, length_take, length_drop. lia.
Qed.

(** The line that completes the array and carries one more word. *)
Lemma fill_lines_extra n lines last rest pre word post vals value x :
  Forall (fun line => line <> "") lines -> last <> "" ->
  Forall2 (fun w y => parse w ≫= store = Some y) (tokens lines ++ pre) vals ->
  split last = pre ++ word :: post ->
  Z.of_nat (length (tokens lines)) < n ->
  Z.of_nat (length (tokens lines) + length pre) = n ->
  n = Z.of_nat (length value) ->
  parse word = Some x ->
  fill_lines filename parse store n value 0 (lines ++ last :: rest)
  = Raise IndexError.
Proof.
  intros Hne Hlast Hvals Hsplit Hlt Hle Hn Hword.
  apply Forall2_app_inv_l in Hvals as (vals1 & vals2 & H1 & H2 & ->).
  rewrite (fill_lines_prefix n lines vals1) by (done || (cbn [Nat.add]; lia)).
  cbn [Nat.add fill_lines].
  replace (Z.of_nat (length (tokens lines)) <? n) with true
    by (symmetry; apply Z.ltb_lt; lia).
  rewrite decide_False by done. rewrite Hsplit.
  rewrite (fill_words_extra pre vals2 _ _ _ _ x); [done | done | | done].
  pose proof (Forall2_length _ _ _ H1).
  rewrite !length_app, length_take, length_drop. lia.
Qed.

(** The lines that hold exactly the [n] elements of the array: the last of
    them completes it. *)
Lemma fill_lines_complete n lines last rest vals value :
  Forall (fun line => line <> "") lines -> last <> "" ->
  Forall2 (fun w y => parse w ≫= store = Some y) (tokens (lines ++ [last])) vals ->
  Z.of_nat (length (tokens lines)) < n ->
  Z.of_nat (length vals) = n ->
  n = Z.of_nat (length value) ->
  fill_lines filename parse store n value 0 (lines ++ last :: rest)
  = Ok (vals, rest).
Proof.
  intros Hne Hlast Hvals Hlt Hlen Hn.
  rewrite tokens_app in Hvals.
  apply Forall2_app_inv_l in Hvals as (vals1 & vals2 & H1 & H2 & ->).
  change (tokens [last]) with (split last ++ []) in H2. rewrite app_nil_r in H2.
  pose proof (Forall2_length _ _ _ H1) as Hl1.
  pose proof (Forall2_length _ _ _ H2) as Hl2.
  rewrite length_app in Hlen.
  rewrite (fill_lines_prefix n lines vals1) by (done || (cbn [Nat.add]; lia)).
  cbn [Nat.add fill_lines].
  replace (Z.of_nat (length (tokens lines)) <? n) with true
    by (symmetry; apply Z.ltb_lt; lia).
  rewrite decide_False by done.
  rewrite (fill_words_ok _ _ H2)
    by (rewrite !length_app, length_take, length_drop; lia).
  cbn [rbind].
  assert (take (length (tokens lines))
            (take 0 value ++ vals1 ++ drop (length (tokens lines)) value)
          ++ vals2
          ++ drop (length (tokens lines) + length (split last))
               (take 0 value ++ vals1 ++ drop (length (tokens lines)) value)
          = vals1 ++ vals2) as ->.
  { rewrite take_0. cbn [app].
    rewrite (take_app_length' vals1) by lia.
    rewrite drop_app_ge by lia. rewrite drop_drop.
    rewrite drop_ge by lia. by rewrite app_nil_r. }
  destruct rest as [| r rest]; cbn [fill_lines];
    by (replace (Z.of_nat (length (tokens lines) + length (split last)) <? n) with false
       by (symmetry; apply Z.ltb_ge; lia)).
Qed.

End Fill.

Lemma Forall_is_Some_Forall2 {X Y : Type} (f : X -> option Y) (l : list X) :
  Forall (fun w => is_Some (f w)) l -> exists vals, Forall2 (fun w y => f w = Some y) l vals.
Proof.
  intros H. destruct (mapM_is_Some_2 f l H) as [vals Hvals].
  exists vals. by apply mapM_Some_1.
Qed.

Section ScannerFacts.

Variable py_int : string -> option Z.
Variable py_float : string -> option float.
Variable filename : string.
Variable allocates : Z -> bool.

Abbreviation read_field' := (read_field py_int py_float filename allocates).
Abbreviation read_value' := (read_value py_int py_float filename allocates).
Abbreviation read_array' := (read_array py_int py_float filename allocates).
Abbreviation read_fields' := (read_fields py_int py_float filename allocates).

(** What [read_field'] does with a line whose label passes the filter. *)
Lemma read_field_wanted line f labels self :
  line <> "" -> wanted labels (label_of line) ->
  read_field' (line :: f) labels self
  = match split (str_drop 43 line) with
    | [] => Ok (true, mk_scan f (discard labels (label_of line)) self)
    | w0 :: _ =>
        match type_word w0 with
        | Some dt => read_value' dt (label_of line) (str_drop 43 line)
                       (split (str_drop 43 line)) f
                       (discard labels (label_of line)) self
        | None => read_field' f (discard labels (label_of line)) self
        end
    end.
Proof.
  intros Hline Hwanted. cbn [read_field]. rewrite decide_False by done.
  fold (label_of line). unfold type_word.
  destruct labels as [s |]; cbn [wanted discard fmap option_fmap option_map] in *.
  - destruct Hwanted as [Hs Hin].
    rewrite decide_False, decide_True by done.
    destruct (split (str_drop 43 line)) as [| w0 ws]; [done |].
    by repeat case_decide.
  - destruct (split (str_drop 43 line)) as [| w0 ws]; [done |].
    by repeat case_decide.
Qed.

(** A line whose label is not in the filter is passed over, alone. *)
Lemma read_field_unwanted line f s self :
  line <> "" -> s <> ∅ -> label_of line ∉ s ->
  read_field' (line :: f) (Some s) self = Ok (true, mk_scan f (Some s) self).
Proof.
  intros Hline Hs Hin. cbn [read_field]. rewrite decide_False by done.
  fold (label_of line). by rewrite decide_False, decide_False by done.
Qed.

Lemma read_fields_skip skipped : forall f s self fuel,
  s <> ∅ ->
  Forall (fun line => line <> "" /\ label_of line ∉ s) skipped ->
  read_fields' (length skipped + fuel) (mk_scan (skipped ++ f) (Some s) self)
  = read_fields' fuel (mk_scan f (Some s) self).
Proof.
  induction skipped as [| line skipped IH]; intros f s self fuel Hs Hall; [done |].
  apply Forall_cons in Hall as [[Hline Hin] Hall].
  cbn [length Nat.add app read_fields stream field_labels fields].
  rewrite read_field_unwanted by done. cbn [rbind]. by apply IH.
Qed.

(** [np.zeros] returns the array of zeros when the length is in range and
    the allocator grants it. *)
Lemma np_zeros_granted {A : Type} (zero : A) (n : Z) :
  0 <= n -> n < 2 ^ 60 -> allocates n = true ->
  np_zeros allocates zero n = Ok (repeat zero (Z.to_nat n)).
Proof.
  intros H0 H60 Hgrant. unfold np_zeros.
  replace (n <? 0) with false by (symmetry; apply Z.ltb_ge; lia).
  replace (2 ^ 60 <=? n) with false by (symmetry; apply Z.leb_gt; lia).
  cbn [orb]. by rewrite Hgrant.
Qed.

Lemma np_zeros_Ok {A : Type} (zero : A) (n : Z) (zeros : list A) :
  np_zeros allocates zero n = Ok zeros ->
  0 <= n < 2 ^ 60 /\ allocates n = true /\ zeros = repeat zero (Z.to_nat n).
Proof.
  unfold np_zeros. destruct (_ || _) eqn:Hrange; [discriminate |].
  apply orb_false_elim in Hrange as [H1 H2].
  apply Z.ltb_ge in H1. apply Z.leb_gt in H2.
  destruct (allocates n); [| discriminate]. by intros [= <-].
Qed.

Lemma read_array_bad dt n lines bad rest pre word post :
  n < 2 ^ 60 -> allocates n = true ->
  Forall (fun line => line <> "") lines -> bad <> "" ->
  Forall (fun w => is_Some (element py_int py_float dt w)) (tokens lines ++ pre) ->
  split bad = pre ++ word :: post ->
  Z.of_nat (length (tokens lines)) < n ->
  Z.of_nat (length (tokens lines) + length pre) <= n ->
  convert py_int py_float dt word = None ->
  read_array' dt n (lines ++ bad :: rest) = Raise (uninterpretable filename word).
Proof.
  intros H60 Hgrant Hne Hbad Hall Hsplit Hlt Hle Hword. unfold read_array.
  rewrite !np_zeros_granted by (done || lia).
  destruct dt; cbn [element convert rbind] in *.
  - destruct (Forall_is_Some_Forall2 (fun w => py_int w ≫= store_int64) (tokens lines ++ pre))
      as [vals Hvals].
    { eapply Forall_impl; [exact Hall |]. intros w [v Hv].
      destruct (py_int w ≫= store_int64); [eauto | discriminate]. }
    rewrite (fill_lines_bad _ _ _ n lines bad rest pre word post vals); try done.
    + rewrite repeat_length. lia.
    + by destruct (py_int word).
  - destruct (Forall_is_Some_Forall2 (fun w => py_float w ≫= Some) (tokens lines ++ pre))
      as [vals Hvals].
    { eapply Forall_impl; [exact Hall |]. intros w [v Hv].
      destruct (py_float w); [eauto | discriminate]. }
    rewrite (fill_lines_bad _ _ _ n lines bad rest pre word post vals); try done.
    + rewrite repeat_length. lia.
    + by destruct (py_float word).
Qed.

Lemma read_array_extra dt n lines last rest pre word post :
  n < 2 ^ 60 -> allocates n = true ->
  Forall (fun line => line <> "") lines -> last <> "" ->
  Forall (fun w => is_Some (element py_int py_float dt w)) (tokens lines ++ pre) ->
  split last = pre ++ word :: post ->
  Z.of_nat (length (tokens lines)) < n ->
  Z.of_nat (length (tokens lines) + length pre) = n ->
  is_Some (convert py_int py_float dt word) ->
  read_array' dt n (lines ++ last :: rest) = Raise IndexError.
Proof.
  intros H60 Hgrant Hne Hbad Hall Hsplit Hlt Hle Hword. unfold read_array.
  rewrite !np_zeros_granted by (done || lia).
  destruct dt; cbn [element convert rbind] in *.
  - destruct (Forall_is_Some_Forall2 (fun w => py_int w ≫= store_int64) (tokens lines ++ pre))
      as [vals Hvals].
    { eapply Forall_impl; [exact Hall |]. intros w [v Hv].
      destruct (py_int w ≫= store_int64); [eauto | discriminate]. }
    destruct (py_int word) as [x |] eqn:Hx; [| by destruct Hword].
    rewrite (fill_lines_extra _ _ _ n lines last rest pre word post vals _ x); try done.
    rewrite repeat_length. lia.
  - destruct (Forall_is_Some_Forall2 (fun w => py_float w ≫= Some) (tokens lines ++ pre))
      as [vals Hvals].
    { eapply Forall_impl; [exact Hall |]. intros w [v Hv].
      destruct (py_float w); [eauto | discriminate]. }
    destruct (py_float word) as [x |] eqn:Hx; [| by destruct Hword].
    rewrite (fill_lines_extra _ _ _ n lines last rest pre word post vals _ x); try done.
    rewrite repeat_length. lia.
Qed.

End ScannerFacts.

(** *** The scanner on the example files *)

Lemma bad_scalar_file_scanned :
  let r := FCHKFile ascii_int ascii_float "water.fchk" ample_memory bad_scalar_file
             (Some ["Number of electrons"; "Number of basis functions"]) in
  stored r "Number of electrons" = None /\
  stored r "Number of basis functions" = Some (VInt 7).
Proof. split; vm_compute; reflexivity. Qed.

Lemma bad_array_file_aborts :
  FCHKFile ascii_int ascii_float "water.fchk" ample_memory bad_array_file (Some ["Atomic numbers"])
  = Raise (IOError "Could not interpret word while reading one: water.fchk").
Proof. vm_compute. reflexivity. Qed.

Lemma extra_number_index_error :
  FCHKFile ascii_int ascii_float "water.fchk" ample_memory extra_number_file
    (Some ["Atomic numbers"])
  = Raise IndexError.
Proof. vm_compute. reflexivity. Qed.

(** Counterexample to C9 as stated: the line of the last element carries one
    more word, which is no number, and the parse fails with the [IOError] of
    a word that cannot be interpreted, not with [IndexError]. *)
Lemma extra_word_is_malformed_field :
  FCHKFile ascii_int ascii_float "water.fchk" ample_memory extra_word_file (Some ["Atomic numbers"])
  = Raise (IOError "Could not interpret word while reading x: water.fchk").
Proof. vm_compute. reflexivity. Qed.

Lemma continuation_line_collision :
  stored (FCHKFile ascii_int ascii_float "water.fchk" ample_memory collision_file (Some ["8"])) "8"
  = None /\
  stored (FCHKFile ascii_int ascii_float "water.fchk" ample_memory no_collision_file
             (Some ["8"])) "8"
  = Some (VInt 5).
Proof. split; vm_compute; reflexivity. Qed.

(** *** Conversion failures, extra words and lines passed over *)

Section ScannerClaims.

Variable py_int : string -> option Z.
Variable py_float : string -> option float.
Variable filename : string.
Variable allocates : Z -> bool.

Abbreviation read_field' := (read_field py_int py_float filename allocates).
Abbreviation read_fields' := (read_fields py_int py_float filename allocates).

Lemma scalar_conversion_failure_skipped line f labels self dt w0 w1 :
  line <> "" -> wanted labels (label_of line) ->
  split (str_drop 43 line) = [w0; w1] ->
  type_word w0 = Some dt ->
  convert py_int py_float dt w1 = None ->
  read_field' (line :: f) labels self
  = Ok (true, mk_scan f (discard labels (label_of line)) self).
Proof.
  intros Hline Hwanted Hwords Hty Hconv.
  rewrite read_field_wanted by done. rewrite Hwords, Hty.
  unfold read_value. by rewrite Hconv.
Qed.

Lemma read_field_array line f labels self dt w0 w2 n :
  line <> "" -> wanted labels (label_of line) ->
  split (str_drop 43 line) = [w0; "N="; w2] ->
  type_word w0 = Some dt ->
  py_int w2 = Some n ->
  read_field' (line :: f) labels self
  = let* (value, f') := read_array py_int py_float filename allocates dt n f in
    Ok (true, mk_scan f' (discard labels (label_of line))
                (<[label_of line := value]> self)).
Proof.
  intros Hline Hwanted Hwords Hty Hn.
  rewrite read_field_wanted by done. rewrite Hwords, Hty.
  unfold read_value. by rewrite decide_True, Hn by done.
Qed.

Lemma array_conversion_failure_fatal line lines bad rest labels self dt w0 w2 n
    pre word post :
  line <> "" -> wanted labels (label_of line) ->
  split (str_drop 43 line) = [w0; "N="; w2] ->
  type_word w0 = Some dt ->
  py_int w2 = Some n ->
  n < 2 ^ 60 -> allocates n = true ->
  Forall (fun l => l <> "") lines -> bad <> "" ->
  Forall (fun w => is_Some (element py_int py_float dt w)) (tokens lines ++ pre) ->
  split bad = pre ++ word :: post ->
  Z.of_nat (length (tokens lines)) < n ->
  Z.of_nat (length (tokens lines) + length pre) <= n ->
  convert py_int py_float dt word = None ->
  read_field' (line :: lines ++ bad :: rest) labels self
  = Raise (uninterpretable filename word).
Proof.
  intros Hline Hwanted Hwords Hty Hn H60 Hgrant Hne Hbad Hall Hsplit Hlt Hle Hword.
  rewrite (read_field_array _ _ _ _ dt w0 w2 n) by done.
  by rewrite (read_array_bad _ _ _ _ dt n lines bad rest pre word post).
Qed.

(** C8: the two conversion failures are handled differently.  A scalar
    field whose value does not convert is passed over: [read_field] returns
    [True], the store is unchanged and the scan goes on after the line.  A
    word that does not convert while an array is filled aborts the parse
    with the [IOError] that names the word and the file.  The fill begins
    once [np.zeros] has returned the array: the declared length is below
    [2^60] and the allocator grants it (a longer array is a [ValueError] and
    a refusal a [MemoryError], both raised before any word is read). *)
Theorem conversion_failures :
  (forall line f labels self dt w0 w1,
     line <> "" -> wanted labels (label_of line) ->
     split (str_drop 43 line) = [w0; w1] ->
     type_word w0 = Some dt ->
     convert py_int py_float dt w1 = None ->
     read_field' (line :: f) labels self
     = Ok (true, mk_scan f (discard labels (label_of line)) self)) /\
  (forall line lines bad rest labels self dt w0 w2 n pre word post,
     line <> "" -> wanted labels (label_of line) ->
     split (str_drop 43 line) = [w0; "N="; w2] ->
     type_word w0 = Some dt ->
     py_int w2 = Some n ->
     n < 2 ^ 60 -> allocates n = true ->
     Forall (fun l => l <> "") lines -> bad <> "" ->
     Forall (fun w => is_Some (element py_int py_float dt w)) (tokens lines ++ pre) ->
     split bad = pre ++ word :: post ->
     Z.of_nat (length (tokens lines)) < n ->
     Z.of_nat (length (tokens lines) + length pre) <= n ->
     convert py_int py_float dt word = None ->
     read_field' (line :: lines ++ bad :: rest) labels self
     = Raise (IOError ("Could not interpret word while reading " +:+ word +:+ ": "
                       +:+ filename))).
Proof.
  split.
  - apply scalar_conversion_failure_skipped.
  - apply array_conversion_failure_fatal.
Qed.

(** C9, amended: when the line that holds the last element of the array
    carries one more word and that word converts to the declared type, the
    assignment is out of bounds and the parse fails with [IndexError].  The
    array is one that [np.zeros] has returned: its length is below [2^60] and
    the allocator grants it. *)
Theorem extra_token_index_error line lines last rest labels self dt w0 w2 n
    pre word post :
  line <> "" -> wanted labels (label_of line) ->
  split (str_drop 43 line) = [w0; "N="; w2] ->
  type_word w0 = Some dt ->
  py_int w2 = Some n ->
  n < 2 ^ 60 -> allocates n = true ->
  Forall (fun l => l <> "") lines -> last <> "" ->
  Forall (fun w => is_Some (element py_int py_float dt w)) (tokens lines ++ pre) ->
  split last = pre ++ word :: post ->
  Z.of_nat (length (tokens lines)) < n ->
  Z.of_nat (length (tokens lines) + length pre) = n ->
  is_Some (convert py_int py_float dt word) ->
  read_field' (line :: lines ++ last :: rest) labels self = Raise IndexError.
Proof.
  intros Hline Hwanted Hwords Hty Hn H60 Hgrant Hne Hlast Hall Hsplit Hlt Hle Hword.
  rewrite (read_field_array _ _ _ _ dt w0 w2 n) by done.
  by rewrite (read_array_extra _ _ _ _ dt n lines last rest pre word post).
Qed.

(** C10: a line whose label is not in the remaining filter is passed over
    alone, whatever follows it; the continuation lines of its array are
    read as header lines in their turn, and while none of their labels is
    in the filter the scan goes on as if they were not there.  A
    continuation line whose label is in the filter uses the label up: in
    [collision_file] the field ["8"] is then never stored. *)
Theorem unwanted_lines_passed_over skipped f s self fuel :
  s <> ∅ ->
  Forall (fun line => line <> "" /\ label_of line ∉ s) skipped ->
  (forall line rest, skipped ++ f = line :: rest -> skipped <> [] ->
     read_field' (line :: rest) (Some s) self = Ok (true, mk_scan rest (Some s) self)) /\
  read_fields' (length skipped + fuel) (mk_scan (skipped ++ f) (Some s) self)
  = read_fields' fuel (mk_scan f (Some s) self) /\
  (stored (FCHKFile ascii_int ascii_float "water.fchk" ample_memory collision_file (Some ["8"])) "8"
   = None /\
   stored (FCHKFile ascii_int ascii_float "water.fchk" ample_memory no_collision_file
             (Some ["8"])) "8"
   = Some (VInt 5)).
Proof.
  intros Hs Hall. split; [| split; [| exact continuation_line_collision]].
  - intros line rest Heq Hne. destruct skipped as [| l skipped]; [done |].
    apply Forall_cons in Hall as [[Hline Hin] _].
    cbn [app] in Heq. injection Heq as Hl Hrest. subst line rest.
    by apply read_field_unwanted.
  - by apply read_fields_skip.
Qed.

(** C7: without a list of labels [FCHKFile] reads nothing: [set(None)]
    raises [TypeError] before the file is opened. *)
Theorem FCHKFile_without_labels_raises (file : list string) :
  FCHKFile py_int py_float filename allocates file None = Raise TypeError.
Proof. reflexivity. Qed.

End ScannerClaims.

(** ** The properties on the examples *)

Lemma ghost_file_loads : load_fields (Ok false) ghost_file = Ok ghost_result.
Proof.
  assert (is_Ok (load_fields (Ok false) ghost_file) = true) as Hok
    by (vm_compute; reflexivity).
  unfold ghost_result.
  destruct (load_fields (Ok false) ghost_file) as [res | e];
    [reflexivity | discriminate Hok].
Qed.

(** The example of the specification: with the charges [8.0, 0.0, 1.0] the
    result keeps the atoms 0 and 2, and the basis keeps the three centers. *)

Lemma ghost_result_arrays :
  real_atoms (VFloatArr [8; 0; 1]%float) = [0; 2]%nat /\
  ghost_result !! "numbers" = Some (RVal (VIntArr [8; 1])) /\
  ghost_result !! "pseudo_numbers" = Some (RVal (VFloatArr [8; 1]%float)) /\
  ghost_result !! "coordinates"
  = Some (RRows (MFloat [[0; 0; 0]; [0; 0; -1.75]]%float)) /\
  ghost_result !! "mulliken_charges" = Some (RVal (VFloatArr [-0.75; -0.5]%float)) /\
  (centers <$> match ghost_result !! "obasis" with
               | Some (RBasis b) => Some b
               | _ => None
               end)
  = Some (MFloat [[0; 0; 0]; [0; 0; 1.5]; [0; 0; -1.75]]%float).
Proof. repeat split; vm_compute; reflexivity. Qed.

Lemma permutation_length_bijection_witness :
  Forall in_table [0; 1; 2; -2] /\
  exists permutation,
    build_permutation [0; 1; 2; -2] = Ok permutation /\
    length permutation = sum_list (block_size <$> [0; 1; 2; -2]) /\
    permutation ≡ₚ arange (length permutation).
Proof.
  assert (Forall in_table [0; 1; 2; -2]) as H
    by (repeat constructor; unfold in_table; lia).
  exact (conj H (permutation_length_bijection _ H)).
Defined.

Lemma example_matrix_symmetric : symmetric example_matrix.
Proof.
  intros i j. unfold entry, example_matrix.
  do 3 (try destruct i as [| i]); do 3 (try destruct j as [| j]); reflexivity.
Qed.

Lemma triangle_roundtrip_witness :
  square 2 example_matrix /\ symmetric example_matrix /\
  _triangle_to_dense (pack_lower example_matrix) = Ok example_matrix.
Proof.
  assert (square 2 example_matrix) as Hsq by (split; [done | by repeat constructor]).
  exact (conj Hsq (conj example_matrix_symmetric
           (triangle_roundtrip 2 example_matrix Hsq example_matrix_symmetric))).
Defined.

Lemma example_basis_well_formed :
  well_formed_basis example_shells example_exponents example_coeffs1
    (Some example_coeffs2).
Proof.
  unfold well_formed_basis. simpl.
  split; [repeat constructor; simpl; lia |].
  split; [lia |]. split; [lia |]. split; [lia |].
  split; [intros c2 [= <-]; simpl; lia | eauto].
Qed.

Lemma sp_shell_splitting_witness :
  well_formed_basis example_shells example_exponents example_coeffs1
    (Some example_coeffs2) /\
  shell_loop (VIntArr (raw_type <$> example_shells))
    (VIntArr (raw_atom <$> example_shells)) (VFloatArr example_exponents)
    (VFloatArr example_coeffs1) (VFloatArr <$> Some example_coeffs2)
    0 (NInt <$> (raw_nprim <$> example_shells)) 0 no_shells
  = Ok (total_prims example_shells,
        shells_of (spec_basis example_exponents example_coeffs1
                     (Some example_coeffs2) 0 example_shells)) /\
  Forall (fun s => length (exponents s) = Z.to_nat (n_primitives s) /\
                   length (contraction_coeffs s) = Z.to_nat (n_primitives s))
    (spec_basis example_exponents example_coeffs1 (Some example_coeffs2) 0
       example_shells).
Proof.
  exact (conj example_basis_well_formed
           (sp_shell_splitting _ _ _ _ example_basis_well_formed)).
Defined.

Lemma ghost_atoms_masked_witness :
  load_fields (Ok false) ghost_file = Ok ghost_result /\
  exists numbers flat pseudo,
    data ghost_file !! "Atomic numbers" = Some numbers /\
    data ghost_file !! "Current cartesian coordinates" = Some flat /\
    data ghost_file !! "Nuclear charges" = Some pseudo /\
    is_array numbers /\ is_array flat /\ is_array pseudo /\
    (array_length flat `mod` 3 = 0)%nat /\
    (array_length pseudo = 0%nat \/
     array_length numbers = array_length pseudo /\
     (array_length flat `div` 3)%nat = array_length pseudo) /\
    ghost_result !! "numbers"
      = Some (RVal (gather_array numbers (real_atoms pseudo))) /\
    ghost_result !! "coordinates"
      = Some (RRows (gather_rows (all_rows flat) (real_atoms pseudo))) /\
    ghost_result !! "pseudo_numbers"
      = Some (RVal (gather_array pseudo (real_atoms pseudo))) /\
    (forall label key, (label, key) ∈ charge_keys ->
       match data ghost_file !! label with
       | Some q =>
           is_array q /\
           (array_length pseudo = 0%nat \/ array_length q = array_length pseudo) /\
           ghost_result !! key = Some (RVal (gather_array q (real_atoms pseudo)))
       | None => ghost_result !! key = None
       end) /\
    exists b, ghost_result !! "obasis" = Some (RBasis b) /\
              centers b = all_rows flat /\
              row_count (centers b) = (array_length flat `div` 3)%nat.
Proof.
  exact (conj ghost_file_loads
           (ghost_atoms_masked (Ok false) ghost_file ghost_result ghost_file_loads)).
Defined.

Lemma atomic_numbers_wanted :
  wanted (Some {["Atomic numbers"]}) (label_of atomic_numbers_header).
Proof.
  replace (label_of atomic_numbers_header) with "Atomic numbers"
    by (vm_compute; reflexivity).
  split; [| by apply elem_of_singleton].
  intros H. apply (not_elem_of_empty (C := gset string) "Atomic numbers").
  rewrite <- H. by apply elem_of_singleton.
Qed.

Lemma extra_token_index_error_witness :
  read_field ascii_int ascii_float "water.fchk" ample_memory
    (atomic_numbers_header :: [] ++ ("           8           1           1" +:+ nl) :: [])
    (Some {["Atomic numbers"]}) ∅
  = Raise IndexError.
Proof.
  apply (extra_token_index_error ascii_int ascii_float "water.fchk" ample_memory
           atomic_numbers_header [] ("           8           1           1" +:+ nl) []
           (Some {["Atomic numbers"]}) ∅ DInt "I" "2" 2 ["8"; "1"] "1" []).
  - intros H. vm_compute in H. discriminate H.
  - exact atomic_numbers_wanted.
  - vm_compute. reflexivity.
  - reflexivity.
  - vm_compute. reflexivity.
  - reflexivity.
  - reflexivity.
  - constructor.
  - intros H. vm_compute in H. discriminate H.
  - repeat constructor.
    + exists (VInt 8). vm_compute. reflexivity.
    + exists (VInt 1). vm_compute. reflexivity.
  - vm_compute. reflexivity.
  - reflexivity.
  - reflexivity.
  - exists (VInt 1). vm_compute. reflexivity.
Defined.

Lemma conversion_failures_witness :
  read_field ascii_int ascii_float "water.fchk" ample_memory
    [field_line "Atomic numbers" "I               ten"] None ∅
  = Ok (true, mk_scan [] None ∅) /\
  read_field ascii_int ascii_float "water.fchk" ample_memory
    (atomic_numbers_header :: [] ++ ("           8         one" +:+ nl) :: [])
    None ∅
  = Raise (IOError "Could not interpret word while reading one: water.fchk").
Proof.
  split.
  - apply (proj1 (conversion_failures ascii_int ascii_float "water.fchk" ample_memory)
             (field_line "Atomic numbers" "I               ten") [] None ∅
             DInt "I" "ten").
    + intros H. vm_compute in H. discriminate H.
    + exact I.
    + vm_compute. reflexivity.
    + reflexivity.
    + vm_compute. reflexivity.
  - apply (proj2 (conversion_failures ascii_int ascii_float "water.fchk" ample_memory)
             atomic_numbers_header [] ("           8         one" +:+ nl) [] None ∅
             DInt "I" "2" 2 ["8"] "one" []).
    + intros H. vm_compute in H. discriminate H.
    + exact I.
    + vm_compute. reflexivity.
    + reflexivity.
    + vm_compute. reflexivity.
    + reflexivity.
    + reflexivity.
    + constructor.
    + intros H. vm_compute in H. discriminate H.
    + repeat constructor. exists (VInt 8). vm_compute. reflexivity.
    + vm_compute. reflexivity.
    + reflexivity.
    + vm_compute. discriminate.
    + vm_compute. reflexivity.
Defined.

Lemma unwanted_lines_passed_over_witness :
  let skipped := [atomic_numbers_header; "           8           1" +:+ nl] in
  let f := [field_line "Total Energy" "R     -7.5E+01"] in
  let s : gset string := {["Total Energy"]} in
  (forall line rest, skipped ++ f = line :: rest -> skipped <> [] ->
     read_field ascii_int ascii_float "water.fchk" ample_memory (line :: rest) (Some s) ∅
     = Ok (true, mk_scan rest (Some s) ∅)) /\
  read_fields ascii_int ascii_float "water.fchk" ample_memory (length skipped + 2)
    (mk_scan (skipped ++ f) (Some s) ∅)
  = read_fields ascii_int ascii_float "water.fchk" ample_memory 2 (mk_scan f (Some s) ∅) /\
  (stored (FCHKFile ascii_int ascii_float "water.fchk" ample_memory collision_file (Some ["8"])) "8"
   = None /\
   stored (FCHKFile ascii_int ascii_float "water.fchk" ample_memory no_collision_file
             (Some ["8"])) "8"
   = Some (VInt 5)).
Proof.
  cbv zeta.
  apply (unwanted_lines_passed_over ascii_int ascii_float "water.fchk" ample_memory).
  - intros H. apply (not_elem_of_empty (C := gset string) "Total Energy").
    rewrite <- H. by apply elem_of_singleton.
  - constructor; [split | constructor; [split | constructor]].
    + intros H. vm_compute in H. discriminate H.
    + replace (label_of atomic_numbers_header) with "Atomic numbers"
        by (vm_compute; reflexivity).
      rewrite elem_of_singleton. discriminate.
    + intros H. vm_compute in H. discriminate H.
    + replace (label_of ("           8           1" +:+ nl)) with "8           1"
        by (vm_compute; reflexivity).
      rewrite elem_of_singleton. discriminate.
Defined.

(** ** More on the scanner *)

Section ScannerEnds.

Variable py_int : string -> option Z.
Variable py_float : string -> option float.
Variable filename : string.
Variable allocates : Z -> bool.

Lemma fill_words_end {P A : Type} (parse : string -> option P) (store : P -> option A)
    words : forall value counter,
  fill_words filename parse store value counter words <> Raise OutOfFuel.
Proof.
  induction words as [| w words IH]; intros value counter; cbn [fill_words]; [done |].
  destruct (parse w) as [x |]; [| done].
  destruct (counter <? length value)%nat; [| done].
  destruct (store x); [apply IH | done].
Qed.

Lemma fill_lines_end {P A : Type} (parse : string -> option P) (store : P -> option A)
    n f : forall value counter,
  match fill_lines filename parse store n value counter f with
  | Ok (_, f') => (length f' <= length f)%nat
  | Raise e => e <> OutOfFuel
  end.
Proof.
  induction f as [| line f IH]; intros value counter; cbn [fill_lines].
  - destruct (Z.of_nat counter <? n); [done | simpl; lia].
  - destruct (Z.of_nat counter <? n); [| simpl; lia].
    case_decide; [done |].
    pose proof (fill_words_end parse store (split line) value counter) as Hw.
    destruct (fill_words filename parse store value counter (split line))
      as [[value' counter'] | e]; cbn [rbind]; [| congruence].
    specialize (IH value' counter').
    destruct (fill_lines filename parse store n value' counter' f) as [[v f'] | e];
      [simpl; lia | done].
Qed.

Lemma read_array_end dt n f :
  match read_array py_int py_float filename allocates dt n f with
  | Ok (_, f') => (length f' <= length f)%nat
  | Raise e => e <> OutOfFuel
  end.
Proof.
  unfold read_array, np_zeros. destruct dt.
  - destruct (_ || _); [done |]. destruct (allocates n); [| done]. cbn [rbind].
    pose proof (fill_lines_end py_int store_int64 n f (repeat 0 (Z.to_nat n)) 0%nat) as H.
    destruct (fill_lines filename py_int store_int64 n _ 0 f) as [[a f'] | e]; done.
  - destruct (_ || _); [done |]. destruct (allocates n); [| done]. cbn [rbind].
    pose proof (fill_lines_end py_float Some n f (repeat 0%float (Z.to_nat n)) 0%nat) as H.
    destruct (fill_lines filename py_float Some n _ 0 f) as [[a f'] | e]; done.
Qed.

Lemma read_value_end dt label line words f labels self :
  match read_value py_int py_float filename allocates dt label line words f labels self with
  | Ok (_, st) => (length (stream st) <= length f)%nat
  | Raise e => e <> OutOfFuel
  end.
Proof.
  unfold read_value.
  destruct words as [| w0 [| w1 [| w2 [| w3 ws]]]]; try done.
  - destruct (convert py_int py_float dt w1); simpl; lia.
  - case_decide; [| done]. destruct (py_int w2) as [n |]; [| done].
    pose proof (read_array_end dt n f) as Hend.
    destruct (read_array py_int py_float filename allocates dt n f) as [[v f'] | e]; done.
Qed.

(** A call of [read_field] that returns [True] has read a line. *)
Lemma read_field_end f : forall labels self,
  match read_field py_int py_float filename allocates f labels self with
  | Ok (continue, st) =>
      if continue then (length (stream st) < length f)%nat
      else (length (stream st) <= length f)%nat
  | Raise e => e <> OutOfFuel
  end.
Proof.
  induction f as [| line f IH]; intros labels self; cbn [read_field]; [simpl; lia |].
  case_decide; [simpl; lia |].
  assert (forall labels',
    match
      match split (str_drop 43 line) with
      | [] => Ok (true, mk_scan f labels' self)
      | w0 :: _ =>
          if decide (w0 = "I")
          then read_value py_int py_float filename allocates DInt (strip (str_take 43 line))
                 (str_drop 43 line) (split (str_drop 43 line)) f labels' self
          else if decide (w0 = "R")
          then read_value py_int py_float filename allocates DFloat (strip (str_take 43 line))
                 (str_drop 43 line) (split (str_drop 43 line)) f labels' self
          else read_field py_int py_float filename allocates f labels' self
      end
    with
    | Ok (continue, st) =>
        if continue then (length (stream st) < S (length f))%nat
        else (length (stream st) <= S (length f))%nat
    | Raise e => e <> OutOfFuel
    end) as Htyped.
  { intros labels'. destruct (split (str_drop 43 line)) as [| w0 ws]; [simpl; lia |].
    repeat case_decide.
    - pose proof (read_value_end DInt (strip (str_take 43 line)) (str_drop 43 line)
                    (w0 :: ws) f labels' self) as H'.
      destruct (read_value _ _ _ _ DInt _ _ _ _ _ _) as [[[] st] | e]; simpl in *; lia || done.
    - pose proof (read_value_end DFloat (strip (str_take 43 line)) (str_drop 43 line)
                    (w0 :: ws) f labels' self) as H'.
      destruct (read_value _ _ _ _ DFloat _ _ _ _ _ _) as [[[] st] | e]; simpl in *; lia || done.
    - specialize (IH labels' self).
      destruct (read_field py_int py_float filename allocates f labels' self) as [[[] st] | e];
        simpl in *; lia || done. }
  destruct labels as [s |]; [| apply Htyped].
  case_decide; [simpl; lia |]. case_decide; [apply Htyped | simpl; lia].
Qed.

Lemma read_fields_end fuel : forall st,
  (length (stream st) < fuel)%nat ->
  read_fields py_int py_float filename allocates fuel st <> Raise OutOfFuel.
Proof.
  induction fuel as [| fuel IH]; intros st Hlen; [lia |]. cbn [read_fields].
  pose proof (read_field_end (stream st) (field_labels st) (fields st)) as H.
  destruct (read_field py_int py_float filename allocates (stream st) (field_labels st) (fields st))
    as [[[] st'] | e]; cbn [rbind]; [apply IH; lia | done | congruence].
Qed.

(** X1: the scan of a file ends.  Every call of [read_field] that returns
    [True] has read at least one line, so the loop [while read_field(f)] makes
    at most one call per line and one more: [_read] returns a store or raises
    a Python exception, and the bound of [read_fields] is never reached. *)
Theorem _read_ends (file : list string) (labels : option (gset string)) :
  _read py_int py_float filename allocates file labels <> Raise OutOfFuel.
Proof.
  unfold _read.
  destruct (readline file) as [line1 f1]. destruct (readline f1) as [line2 f].
  destruct (split line2) as [| c [| l [| o [| w ws]]]]; cbn [rbind]; try done.
  - pose proof (read_fields_end (S (length f)) (mk_scan f labels ∅)) as H.
    destruct (read_fields _ _ _ _ _ _) as [st | e]; cbn [rbind]; [done |].
    intros [= ->]. apply H; [simpl; lia | done].
  - pose proof (read_fields_end (S (length f)) (mk_scan f labels ∅)) as H.
    destruct (read_fields _ _ _ _ _ _) as [st | e]; cbn [rbind]; [done |].
    intros [= ->]. apply H; [simpl; lia | done].
Qed.

End ScannerEnds.

Section FillMore.

Context {P A : Type}.
Variable parse : string -> option P.
Variable store : P -> option A.
Variable filename : string.

(** The stream ends before the array is complete. *)
Lemma fill_lines_eof n lines vals value :
  Forall (fun line => line <> "") lines ->
  Forall2 (fun w y => parse w ≫= store = Some y) (tokens lines) vals ->
  Z.of_nat (length (tokens lines)) < n ->
  n <= Z.of_nat (length value) ->
  fill_lines filename parse store n value 0 lines = Raise (unexpected_end filename).
Proof.
  intros Hne Hvals Hlt Hn.
  rewrite <- (app_nil_r lines).
  rewrite (fill_lines_prefix _ _ _ n lines vals) by (done || (cbn [Nat.add]; lia)).
  cbn [Nat.add fill_lines].
  by replace (Z.of_nat (length (tokens lines)) <? n) with true
    by (symmetry; apply Z.ltb_lt; lia).
Qed.

(** A word that converts but does not fit the array's element type. *)
Lemma fill_lines_overflow n lines bad rest pre word post vals value x :
  Forall (fun line => line <> "") lines -> bad <> "" ->
  Forall2 (fun w y => parse w ≫= store = Some y) (tokens lines ++ pre) vals ->
  split bad = pre ++ word :: post ->
  Z.of_nat (length (tokens lines) + length pre) < n ->
  n <= Z.of_nat (length value) ->
  parse word = Some x -> store x = None ->
  fill_lines filename parse store n value 0 (lines ++ bad :: rest)
  = Raise (uninterpretable filename word).
Proof.
  intros Hne Hbad Hvals Hsplit Hlt Hn Hword Hstore.
  apply Forall2_app_inv_l in Hvals as (vals1 & vals2 & H1 & H2 & ->).
  rewrite (fill_lines_prefix _ _ _ n lines vals1) by (done || (cbn [Nat.add]; lia)).
  cbn [Nat.add fill_lines].
  replace (Z.of_nat (length (tokens lines)) <? n) with true
    by (symmetry; apply Z.ltb_lt; lia).
  rewrite decide_False by done. rewrite Hsplit.
  rewrite (fill_words_overflow _ _ _ pre vals2 _ _ _ _ x); [done | done | | done | done].
  pose proof (Forall2_length _ _ _ H1).
  rewrite !length_app, length_take, length_drop. lia.
Qed.

End FillMore.

Section ScannerFields.

Variable py_int : string -> option Z.
Variable py_float : string -> option float.
Variable filename : string.
Variable allocates : Z -> bool.

Abbreviation scan_field := (read_field py_int py_float filename allocates).
Abbreviation scan_fields := (read_fields py_int py_float filename allocates).

Lemma array_of_Forall2_int words a :
  array_of py_int py_float DInt words = Some (VIntArr a) ->
  Forall2 (fun w y => py_int w ≫= store_int64 = Some y) words a.
Proof.
  cbn [array_of]. intros H. apply mapM_Some_1.
  destruct (mapM _ words); [by injection H as -> | discriminate].
Qed.

Lemma array_of_Forall2_float words a :
  array_of py_int py_float DFloat words = Some (VFloatArr a) ->
  Forall2 (fun w y => py_float w ≫= Some = Some y) words a.
Proof.
  cbn [array_of]. intros H.
  assert (mapM py_float words = Some a) as Hm
    by (destruct (mapM _ words); [by injection H as -> | discriminate]).
  apply mapM_Some_1 in Hm. eapply Forall2_impl; [exact Hm |].
  intros w y Hw. by rewrite Hw.
Qed.

(** X2: an array field whose continuation lines hold exactly the declared
    number of words, all of which convert, is stored under its label as the
    array of the converted words in reading order, and the scan goes on after
    the line that completes the array.  The array is one that [np.zeros] has
    returned: its length is below [2^60] and the allocator grants it. *)
Theorem array_field_stored line lines last rest labels self dt w0 w2 n arr :
  line <> "" -> wanted labels (label_of line) ->
  split (str_drop 43 line) = [w0; "N="; w2] ->
  type_word w0 = Some dt ->
  py_int w2 = Some n ->
  n < 2 ^ 60 -> allocates n = true ->
  Forall (fun l => l <> "") lines -> last <> "" ->
  Z.of_nat (length (tokens lines)) < n ->
  Z.of_nat (length (tokens (lines ++ [last]))) = n ->
  array_of py_int py_float dt (tokens (lines ++ [last])) = Some arr ->
  scan_field (line :: lines ++ last :: rest) labels self
  = Ok (true, mk_scan rest (discard labels (label_of line))
                (<[label_of line := arr]> self)).
Proof.
  intros Hline Hwanted Hwords Hty Hn H60 Hgrant Hne Hlast Hlt Hlen Harr.
  rewrite (read_field_array _ _ _ _ _ _ _ _ dt w0 w2 n) by done.
  unfold read_array. rewrite !np_zeros_granted by (done || lia).
  destruct dt; cbn [rbind].
  - destruct arr as [| | a |]; try (cbn [array_of] in Harr;
      destruct (mapM _ (tokens (lines ++ [last]))); discriminate).
    apply array_of_Forall2_int in Harr.
    pose proof (Forall2_length _ _ _ Harr) as Hl.
    rewrite (fill_lines_complete _ _ _ n lines last rest a); try done.
    + lia.
    + rewrite repeat_length. lia.
  - destruct arr as [| | | a]; try (cbn [array_of] in Harr;
      destruct (mapM _ (tokens (lines ++ [last]))); discriminate).
    apply array_of_Forall2_float in Harr.
    pose proof (Forall2_length _ _ _ Harr) as Hl.
    rewrite (fill_lines_complete _ _ _ n lines last rest a); try done.
    + lia.
    + rewrite repeat_length. lia.
Qed.

(** X3: when [np.zeros] has returned the array (its length is below [2^60]
    and the allocator grants it) and the file ends before the declared
    number of elements has been read, the parse fails with the [IOError]
    "Unexpected end of formatted checkpoint file". *)
Theorem array_cut_short line lines labels self dt w0 w2 n :
  line <> "" -> wanted labels (label_of line) ->
  split (str_drop 43 line) = [w0; "N="; w2] ->
  type_word w0 = Some dt ->
  py_int w2 = Some n ->
  n < 2 ^ 60 -> allocates n = true ->
  Forall (fun l => l <> "") lines ->
  Forall (fun w => is_Some (element py_int py_float dt w)) (tokens lines) ->
  Z.of_nat (length (tokens lines)) < n ->
  scan_field (line :: lines) labels self
  = Raise (IOError ("Unexpected end of formatted checkpoint file " +:+ filename)).
Proof.
  intros Hline Hwanted Hwords Hty Hn H60 Hgrant Hne Hall Hlt.
  rewrite (read_field_array _ _ _ _ _ _ _ _ dt w0 w2 n) by done.
  unfold read_array. rewrite !np_zeros_granted by (done || lia).
  destruct dt; cbn [element rbind] in *.
  - destruct (Forall_is_Some_Forall2 (fun w => py_int w ≫= store_int64) (tokens lines))
      as [vals Hvals].
    { eapply Forall_impl; [exact Hall |]. intros w [v Hv].
      destruct (py_int w ≫= store_int64); [eauto | discriminate]. }
    rewrite (fill_lines_eof _ _ _ n lines vals); try done.
    rewrite repeat_length. lia.
  - destruct (Forall_is_Some_Forall2 (fun w => py_float w ≫= Some) (tokens lines))
      as [vals Hvals].
    { eapply Forall_impl; [exact Hall |]. intros w [v Hv].
      destruct (py_float w); [eauto | discriminate]. }
    rewrite (fill_lines_eof _ _ _ n lines vals); try done.
    rewrite repeat_length. lia.
Qed.

(** X4: in an integer array that [np.zeros] has returned (its length is
    below [2^60] and the allocator grants it), a word that [int] converts to
    a number outside the 64-bit range aborts the parse with the same
    [IOError] as a word that does not convert ([OverflowError] is caught with
    [ValueError]). *)
Theorem integer_word_too_large line lines bad rest labels self w0 w2 n pre word post x :
  line <> "" -> wanted labels (label_of line) ->
  split (str_drop 43 line) = [w0; "N="; w2] ->
  type_word w0 = Some DInt ->
  py_int w2 = Some n ->
  n < 2 ^ 60 -> allocates n = true ->
  Forall (fun l => l <> "") lines -> bad <> "" ->
  Forall (fun w => is_Some (element py_int py_float DInt w)) (tokens lines ++ pre) ->
  split bad = pre ++ word :: post ->
  Z.of_nat (length (tokens lines) + length pre) < n ->
  py_int word = Some x -> ~ (- 2 ^ 63 <= x < 2 ^ 63) ->
  scan_field (line :: lines ++ bad :: rest) labels self
  = Raise (IOError ("Could not interpret word while reading " +:+ word +:+ ": "
                    +:+ filename)).
Proof.
  intros Hline Hwanted Hwords Hty Hn H60 Hgrant Hne Hbad Hall Hsplit Hlt Hx Hrange.
  rewrite (read_field_array _ _ _ _ _ _ _ _ DInt w0 w2 n) by done.
  unfold read_array. rewrite !np_zeros_granted by (done || lia).
  cbn [element rbind] in *.
  destruct (Forall_is_Some_Forall2 (fun w => py_int w ≫= store_int64) (tokens lines ++ pre))
    as [vals Hvals].
  { eapply Forall_impl; [exact Hall |]. intros w [v Hv].
    destruct (py_int w ≫= store_int64); [eauto | discriminate]. }
  rewrite (fill_lines_overflow _ _ _ n lines bad rest pre word post vals _ x); try done.
  - rewrite repeat_length. lia.
  - unfold store_int64.
    destruct (- 2 ^ 63 <=? x) eqn:H1, (x <? 2 ^ 63) eqn:H2; try done.
    apply Z.leb_le in H1. apply Z.ltb_lt in H2. lia.
Qed.

(** X5: once every wanted label has been seen the scan stops: with an empty
    filter the next call of [read_field] returns [False] and the rest of the
    file is not looked at, whatever it holds. *)
Theorem filter_used_up_stops f self fuel :
  read_fields py_int py_float filename allocates (S fuel) (mk_scan f (Some ∅) self)
  = Ok (mk_scan (tail f) (Some ∅) self).
Proof.
  cbn [read_fields stream field_labels fields].
  destruct f as [| line f]; cbn [read_field rbind tail]; [done |].
  case_decide; [done |]. by rewrite decide_True.
Qed.

Lemma read_value_within s0 dt label line words f s self b st :
  label ∈ s0 -> s ⊆ s0 -> dom self ⊆ s0 ->
  read_value py_int py_float filename allocates dt label line words f (Some s) self = Ok (b, st) ->
  within s0 (field_labels st) (fields st).
Proof.
  intros Hlabel Hs Hself. unfold read_value.
  destruct words as [| w0 [| w1 [| w2 [| w3 ws]]]]; try done.
  - destruct (convert py_int py_float dt w1); intros [= <- <-]; eexists;
      (split; [done |]); (split; [done |]); cbn [fields];
      rewrite ?dom_insert_L; set_solver.
  - case_decide; [| done]. destruct (py_int w2) as [n |]; [| done].
    destruct (read_array py_int py_float filename allocates dt n f) as [[v f'] | e]; [| done].
    cbn [rbind]. intros [= <- <-]. eexists.
    split; [done |]. split; [done |]. cbn [fields].
    rewrite dom_insert_L. set_solver.
Qed.

Lemma read_field_within s0 f : forall labels self b st,
  within s0 labels self ->
  scan_field f labels self = Ok (b, st) ->
  within s0 (field_labels st) (fields st).
Proof.
  induction f as [| line f IH]; intros labels self b st (s & -> & Hs & Hself);
    cbn [read_field].
  - intros [= <- <-]. by exists s.
  - case_decide; [intros [= <- <-]; by exists s |].
    case_decide; [intros [= <- <-]; by exists s |].
    case_decide as Hin; [| intros [= <- <-]; by exists s].
    destruct (split (str_drop 43 line)) as [| w0 ws].
    + intros [= <- <-]. exists (s ∖ {[strip (str_take 43 line)]}).
      split; [done |]. split; [set_solver | done].
    + repeat case_decide.
      * apply read_value_within; [set_solver | set_solver | done].
      * apply read_value_within; [set_solver | set_solver | done].
      * apply IH. exists (s ∖ {[strip (str_take 43 line)]}).
        split; [done |]. split; [set_solver | done].
Qed.

Lemma read_fields_within s0 fuel : forall st st',
  within s0 (field_labels st) (fields st) ->
  scan_fields fuel st = Ok st' ->
  within s0 (field_labels st') (fields st').
Proof.
  induction fuel as [| fuel IH]; intros st st' Hin; cbn [read_fields]; [done |].
  destruct (read_field py_int py_float filename allocates (stream st) (field_labels st) (fields st))
    as [[b st1] | e] eqn:Hrun; cbn [rbind]; [| done].
  pose proof (read_field_within s0 _ _ _ _ _ Hin Hrun) as Hin1.
  destruct b; [by apply IH | by intros [= <-]].
Qed.

(** X6: the store of an [FCHKFile] holds only labels that were asked for. *)
Theorem store_holds_wanted_labels file labels fchk label v :
  FCHKFile py_int py_float filename allocates file (Some labels) = Ok fchk ->
  data fchk !! label = Some v ->
  label ∈ labels.
Proof.
  unfold FCHKFile, py_set. cbn [rbind]. unfold _read.
  destruct (readline file) as [line1 f1]. destruct (readline f1) as [line2 f].
  intros Hrun Hlookup.
  apply rbind_Ok in Hrun as ([[c l] o] & _ & Hrun).
  apply rbind_Ok in Hrun as (st & Hscan & Hrun). injection Hrun as <-.
  cbn [data] in Hlookup.
  assert (within (list_to_set labels)
            (field_labels (mk_scan f (Some (list_to_set labels)) ∅))
            (fields (mk_scan f (Some (list_to_set labels)) ∅))) as Hinit.
  { exists (list_to_set labels). cbn [field_labels fields].
    split; [done |]. split; [done |]. rewrite dom_empty_L. apply empty_subseteq. }
  destruct (read_fields_within (list_to_set labels) _ _ _ Hinit Hscan)
    as (s & _ & _ & Hdom).
  assert (label ∈ dom (fields st)) as Hin by (apply elem_of_dom; eauto).
  apply Hdom in Hin. by apply elem_of_list_to_set in Hin.
Qed.

(** X7: a header line of a wanted field with a type but a wrong layout.  One
    word, four words or more, or three words the second of which is not
    ["N="], raise the [IOError] "Unexpected line in formatted checkpoint
    file" with the text after the label; a length that [int] does not convert,
    a negative length, or a length of [2^60] or more, raises [ValueError]. *)
Theorem malformed_header_line line f labels self dt w0 :
  line <> "" -> wanted labels (label_of line) ->
  type_word w0 = Some dt ->
  (forall ws, split (str_drop 43 line) = w0 :: ws ->
     ws = [] \/ (3 <= length ws)%nat \/ (exists w1 w2, ws = [w1; w2] /\ w1 <> "N=") ->
     scan_field (line :: f) labels self
     = Raise (IOError ("Unexpected line in formatted checkpoint file " +:+ filename
                       +:+ nl +:+ str_init (str_drop 43 line)))) /\
  (forall w2, split (str_drop 43 line) = [w0; "N="; w2] ->
     py_int w2 = None \/ (exists n, py_int w2 = Some n /\ (n < 0 \/ 2 ^ 60 <= n)) ->
     scan_field (line :: f) labels self = Raise ValueError).
Proof.
  intros Hline Hwanted Hty. split.
  - intros ws Hwords Hcases. rewrite read_field_wanted by done.
    rewrite Hwords, Hty. unfold read_value.
    destruct Hcases as [-> | [Hlen | (w1 & w2 & -> & Hw1)]]; [done | |].
    + destruct ws as [| w1 [| w2 [| w3 ws]]]; simpl in Hlen; (lia || done).
    + by rewrite decide_False.
  - intros w2 Hwords Hbad. rewrite read_field_wanted by done.
    rewrite Hwords, Hty. unfold read_value. rewrite decide_True by done.
    destruct Hbad as [-> | (n & -> & Hn)]; [done |].
    unfold read_array, np_zeros.
    replace ((n <? 0) || (2 ^ 60 <=? n)) with true; [by destruct dt |].
    symmetry. apply orb_true_iff.
    destruct Hn as [Hn | Hn]; [left; apply Z.ltb_lt | right; apply Z.leb_le]; lia.
Qed.

(** X8: a file whose second line does not have two or three words (or that
    has no second line) is refused with an [IOError]. *)
Theorem second_line_words (file : list string) (labels : option (gset string)) :
  length (split (default "" (file !! 1%nat))) <> 2%nat ->
  length (split (default "" (file !! 1%nat))) <> 3%nat ->
  _read py_int py_float filename allocates file labels
  = Raise (IOError "The second line of the FCHK file should contain two or three words.").
Proof.
  intros H2 H3. unfold _read.
  destruct file as [| line1 [| line2 f]]; [reflexivity | reflexivity |].
  cbn [readline]. change (default "" ((line1 :: line2 :: f) !! 1%nat)) with line2 in *.
  destruct (split line2) as [| c [| l [| o [| w ws]]]]; cbn [length] in H2, H3;
    congruence || reflexivity.
Qed.

End ScannerFields.

Lemma array_field_stored_witness :
  read_field ascii_int ascii_float "water.fchk" ample_memory
    (three_numbers_header :: ["           8           1" +:+ nl]
       ++ ("           1" +:+ nl) :: [])
    None ∅
  = Ok (true, mk_scan [] (discard None (label_of three_numbers_header))
                (<[label_of three_numbers_header := VIntArr [8; 1; 1]]> ∅)).
Proof.
  apply (array_field_stored ascii_int ascii_float "water.fchk" ample_memory three_numbers_header
           ["           8           1" +:+ nl] ("           1" +:+ nl) [] None ∅
           DInt "I" "3" 3 (VIntArr [8; 1; 1])).
  - intros H. vm_compute in H. discriminate H.
  - exact I.
  - vm_compute. reflexivity.
  - reflexivity.
  - vm_compute. reflexivity.
  - reflexivity.
  - reflexivity.
  - constructor; [| constructor]. intros H. vm_compute in H. discriminate H.
  - intros H. vm_compute in H. discriminate H.
  - vm_compute. reflexivity.
  - vm_compute. reflexivity.
  - vm_compute. reflexivity.
Defined.

Lemma array_cut_short_witness :
  read_field ascii_int ascii_float "water.fchk" ample_memory
    (three_numbers_header :: ["           8           1" +:+ nl]) None ∅
  = Raise (IOError "Unexpected end of formatted checkpoint file water.fchk").
Proof.
  apply (array_cut_short ascii_int ascii_float "water.fchk" ample_memory three_numbers_header
           ["           8           1" +:+ nl] None ∅ DInt "I" "3" 3).
  - intros H. vm_compute in H. discriminate H.
  - exact I.
  - vm_compute. reflexivity.
  - reflexivity.
  - vm_compute. reflexivity.
  - reflexivity.
  - reflexivity.
  - constructor; [| constructor]. intros H. vm_compute in H. discriminate H.
  - change (tokens ["           8           1" +:+ nl])
      with (split ("           8           1" +:+ nl) ++ []).
    replace (split ("           8           1" +:+ nl)) with ["8"; "1"]
      by (vm_compute; reflexivity).
    repeat constructor.
    + exists (VInt 8). vm_compute. reflexivity.
    + exists (VInt 1). vm_compute. reflexivity.
  - vm_compute. reflexivity.
Defined.

Lemma integer_word_too_large_witness :
  read_field ascii_int ascii_float "water.fchk" ample_memory
    (three_numbers_header :: [] ++ ("  8  9223372036854775808" +:+ nl) :: []) None ∅
  = Raise (IOError
      "Could not interpret word while reading 9223372036854775808: water.fchk").
Proof.
  apply (integer_word_too_large ascii_int ascii_float "water.fchk" ample_memory three_numbers_header
           [] ("  8  9223372036854775808" +:+ nl) [] None ∅ "I" "3" 3
           ["8"] "9223372036854775808" [] (2 ^ 63)).
  - intros H. vm_compute in H. discriminate H.
  - exact I.
  - vm_compute. reflexivity.
  - reflexivity.
  - vm_compute. reflexivity.
  - reflexivity.
  - reflexivity.
  - constructor.
  - intros H. vm_compute in H. discriminate H.
  - repeat constructor. exists (VInt 8). vm_compute. reflexivity.
  - vm_compute. reflexivity.
  - vm_compute. reflexivity.
  - vm_compute. reflexivity.
  - lia.
Defined.

Lemma bad_scalar_file_scans :
  FCHKFile ascii_int ascii_float "water.fchk" ample_memory bad_scalar_file
    (Some ["Number of electrons"; "Number of basis functions"])
  = Ok scanned_example.
Proof.
  assert (is_Ok (FCHKFile ascii_int ascii_float "water.fchk" ample_memory bad_scalar_file
                   (Some ["Number of electrons"; "Number of basis functions"])) = true)
    as Hok by (vm_compute; reflexivity).
  unfold scanned_example.
  destruct (FCHKFile _ _ _ _ _) as [fchk | e]; [reflexivity | discriminate Hok].
Qed.

Lemma store_holds_wanted_labels_witness :
  FCHKFile ascii_int ascii_float "water.fchk" ample_memory bad_scalar_file
    (Some ["Number of electrons"; "Number of basis functions"])
  = Ok scanned_example /\
  data scanned_example !! "Number of basis functions" = Some (VInt 7) /\
  "Number of basis functions" ∈ ["Number of electrons"; "Number of basis functions"].
Proof.
  assert (data scanned_example !! "Number of basis functions" = Some (VInt 7)) as Hv
    by (vm_compute; reflexivity).
  exact (conj bad_scalar_file_scans (conj Hv
    (store_holds_wanted_labels ascii_int ascii_float "water.fchk" ample_memory _ _ _ _ _
       bad_scalar_file_scans Hv))).
Defined.

Lemma malformed_header_line_witness :
  (forall ws, split (str_drop 43 (field_line "Total Energy" "R")) = "R" :: ws ->
     ws = [] \/ (3 <= length ws)%nat \/ (exists w1 w2, ws = [w1; w2] /\ w1 <> "N=") ->
     read_field ascii_int ascii_float "water.fchk" ample_memory
       [field_line "Total Energy" "R"] None ∅
     = Raise (IOError ("Unexpected line in formatted checkpoint file " +:+ "water.fchk"
                       +:+ nl +:+ str_init (str_drop 43 (field_line "Total Energy" "R"))))) /\
  (forall w2, split (str_drop 43 (field_line "Total Energy" "R")) = ["R"; "N="; w2] ->
     ascii_int w2 = None \/
     (exists n, ascii_int w2 = Some n /\ (n < 0 \/ 2 ^ 60 <= n)) ->
     read_field ascii_int ascii_float "water.fchk" ample_memory
       [field_line "Total Energy" "R"] None ∅
     = Raise ValueError).
Proof.
  apply (malformed_header_line ascii_int ascii_float "water.fchk" ample_memory
           (field_line "Total Energy" "R") [] None ∅ DFloat "R").
  - intros H. vm_compute in H. discriminate H.
  - exact I.
  - reflexivity.
Defined.

Lemma second_line_words_witness :
  _read ascii_int ascii_float "water.fchk" ample_memory ["water" +:+ nl; "SP" +:+ nl] None
  = Raise (IOError "The second line of the FCHK file should contain two or three words.").
Proof.
  apply (second_line_words ascii_int ascii_float "water.fchk" ample_memory);
    vm_compute; discriminate.
Defined.


(** ** More on [load] *)

(** *** The orbitals *)










(** *** What [load] needs and what it copies *)



(** *** The permutation of a result *)




(** *** The allocator *)

Section ScannerMemory.

Variable py_int : string -> option Z.
Variable py_float : string -> option float.
Variable filename : string.
Variable allocates : Z -> bool.


End ScannerMemory.

(** *** Examples *)


(** The beta orbitals of [uhf_file]: two electrons in three orbitals. *)
Lemma uhf_result_beta :
  uhf_result !! "orb_beta" = Some (RShape (Some (VInt 3)) (Some (VInt 3))) /\
  uhf_result !! "orb_beta_coeffs"
  = Some (RRows (MFloat [[0; 1; 0]; [1; 0; 0]; [0; 0; 1]]%float)) /\
  uhf_result !! "orb_beta_occs" = Some (RVal (VFloatArr [1; 1; 0]%float)) /\
  uhf_result !! "orb_alpha_occs" = Some (RVal (VFloatArr [1; 1; 1]%float)).
Proof. repeat split; vm_compute; reflexivity. Qed.






